(** * logetime: the time-bucket aggregator and the session-window resolver

    A shallow embedding of [src/logetime.py]: the aggregation of session
    intervals into daily and monthly totals ([calculate_hours]), the
    resolver of the currently open session ([get_current_session]), the
    elapsed-time formatter ([format_time_difference]), the totals of the
    report that [main] publishes, and the run of [main] itself, with the
    requests it sends to the campus API and to the gist service
    ([get_access_token], [get_user_data], [get_logtime_data],
    [get_user_location], [create_or_update_gist]).

    Python's [float] is IEEE 754 binary64.  Its operations are taken from the
    executable specification of the Standard Library ([SpecFloat], instantiated
    at precision 53 and maximal exponent 1024), so every value below is the
    value the interpreter computes, bit for bit. *)

From Stdlib Require Import ZArith List String Ascii Bool Lia Permutation.
From Stdlib Require Import DecimalString QArith Qabs.
From Stdlib Require Import Floats.SpecFloat.
Import ListNotations.
Local Close Scope Q_scope.
Local Open Scope string_scope.
Local Open Scope Z_scope.

(** ** Python exceptions as results *)

Inductive exn : Type :=
| ValueError      (* a malformed ISO timestamp *)
| TypeError       (* offset-naive and offset-aware datetimes mixed *)
| OverflowError   (* a date out of the range of [datetime] *)
| HTTPError       (* [raise_for_status] of a collaborator *)
| KeyError.       (* a key that a JSON object does not have *)

Inductive result (A : Type) : Type :=
| Ok (a : A)
| Raise (e : exn).
Arguments Ok {A} a.
Arguments Raise {A} e.

Definition bind {A B : Type} (r : result A) (k : A -> result B) : result B :=
  match r with
  | Ok a => k a
  | Raise e => Raise e
  end.

Notation "x <- r ;; k" := (bind r (fun x => k))
  (at level 61, r at next level, right associativity).

(** ** Binary64 arithmetic *)

Module Float.

Definition prec : Z := 53.
Definition emax : Z := 1024.

Definition float : Type := spec_float.

Definition add : float -> float -> float := SFadd prec emax.
Definition div : float -> float -> float := SFdiv prec emax.
Definition leb : float -> float -> bool := SFleb.
Definition ltb : float -> float -> bool := SFltb.

Definition pzero : float := S754_zero false.

(** [float(z)] for an integer that a double holds exactly, as for the
    literals [3600] and [0]. *)
Definition of_Z (z : Z) : float := binary_normalize prec emax z 0 false.

(** [a / b] on Python integers with [0 < b]: CPython's [long_true_divide]
    returns the double nearest to the exact quotient, whatever the size of
    [a].  [SFdiv] computes the quotient of the two integer mantissas with
    one rounding, so it is applied to them directly, with no earlier
    conversion of [a] to a double. *)
Definition int_truediv (a : Z) (b : positive) : float :=
  match a with
  | Z0 => pzero
  | Zpos p => div (S754_finite false p 0) (S754_finite false b 0)
  | Zneg p => div (S754_finite true p 0) (S754_finite false b 0)
  end.

(** Round half to even of the fraction [n / d], [0 < d]. *)
Definition round_half_even (n d : Z) : Z :=
  let q := n / d in
  let r := n mod d in
  match 2 * r ?= d with
  | Lt => q
  | Gt => q + 1
  | Eq => if Z.even q then q else q + 1
  end.

(** The integer nearest to [100 * |x|], ties to even, computed on the exact
    value [m * 2^e] of the double. *)
Definition centi (m : positive) (e : Z) : Z :=
  match e with
  | Zneg k => round_half_even (100 * Zpos m) (2 ^ Zpos k)
  | _ => 100 * Zpos m * 2 ^ e
  end.

(** [round(x, 2)] on a float: CPython rounds the exact decimal expansion of
    [x] to two places, half to even, and converts that decimal back to the
    nearest double; zeros, infinities and NaN are returned unchanged and a
    result that rounds to zero keeps the sign of [x]. *)
Definition round2 (x : float) : float :=
  match x with
  | S754_finite s m e =>
      match centi m e with
      | Zpos k => div (S754_finite s k 0) (S754_finite false 100 0)
      | _ => S754_zero s
      end
  | _ => x
  end.

End Float.

(** Python numbers as [main] meets them: the literal [0] is an [int], every
    duration and every bucket is a [float]. *)
Inductive pynum : Type :=
| PyInt (z : Z)
| PyFloat (f : Float.float).

Definition py_add (a b : pynum) : pynum :=
  match a, b with
  | PyInt x, PyInt y => PyInt (x + y)
  | PyInt x, PyFloat g => PyFloat (Float.add (Float.of_Z x) g)
  | PyFloat f, PyInt y => PyFloat (Float.add f (Float.of_Z y))
  | PyFloat f, PyFloat g => PyFloat (Float.add f g)
  end.

(** [sum(xs)]: from the [int] 0, left to right. *)
Definition py_sum (xs : list pynum) : pynum := fold_left py_add xs (PyInt 0).

(** [round(x, 2)]: an [int] is returned as it is. *)
Definition py_round2 (x : pynum) : pynum :=
  match x with
  | PyInt z => PyInt z
  | PyFloat f => PyFloat (Float.round2 f)
  end.

(** ** Strings *)

(** [s.replace("Z", "+00:00")]: every occurrence is replaced. *)
Fixpoint replace_Z (s : string) : string :=
  match s with
  | EmptyString => EmptyString
  | String c rest =>
      if Ascii.eqb c "Z"%char then "+00:00" ++ replace_Z rest
      else String c (replace_Z rest)
  end.

(** [s.split(sep)] for a one-character separator: never an empty list. *)
Fixpoint split (sep : ascii) (s : string) : list string :=
  match s with
  | EmptyString => [EmptyString]
  | String c rest =>
      if Ascii.eqb c sep then EmptyString :: split sep rest
      else match split sep rest with
           | [] => [String c EmptyString]
           | w :: ws => String c w :: ws
           end
  end.

(** [str(n)] of an integer. *)
Definition str_of_Z (z : Z) : string := NilZero.string_of_int (Z.to_int z).

Definition digit (d : Z) : ascii := ascii_of_nat (48 + Z.to_nat d).

(** [%0wd] of a number of at most [w] digits. *)
Fixpoint pad (w : nat) (n : Z) : string :=
  match w with
  | O => EmptyString
  | S w' => pad w' (n / 10) ++ String (digit (n mod 10)) EmptyString
  end.

(** ** The calendar of [datetime] *)

Module Calendar.

Definition is_leap (year : Z) : bool :=
  (year mod 4 =? 0) && (negb (year mod 100 =? 0) || (year mod 400 =? 0)).

Definition days_before_year (year : Z) : Z :=
  let y := year - 1 in y * 365 + y / 4 - y / 100 + y / 400.

Definition DAYS_IN_MONTH (month : Z) : Z :=
  match month with
  | 1 => 31 | 2 => 28 | 3 => 31 | 4 => 30 | 5 => 31 | 6 => 30
  | 7 => 31 | 8 => 31 | 9 => 30 | 10 => 31 | 11 => 30 | 12 => 31
  | _ => -1
  end.

Definition DAYS_BEFORE_MONTH (month : Z) : Z :=
  match month with
  | 1 => 0 | 2 => 31 | 3 => 59 | 4 => 90 | 5 => 120 | 6 => 151
  | 7 => 181 | 8 => 212 | 9 => 243 | 10 => 273 | 11 => 304 | 12 => 334
  | _ => -1
  end.

Definition days_in_month (year month : Z) : Z :=
  if (month =? 2) && is_leap year then 29 else DAYS_IN_MONTH month.

Definition days_before_month (year month : Z) : Z :=
  DAYS_BEFORE_MONTH month + (if (2 <? month) && is_leap year then 1 else 0).

(** The proleptic Gregorian ordinal: 1 is 0001-01-01. *)
Definition ymd2ord (year month day : Z) : Z :=
  days_before_year year + days_before_month year month + day.

Definition DI400Y : Z := 146097.
Definition DI100Y : Z := 36524.
Definition DI4Y : Z := 1461.

Definition ord2ymd (n0 : Z) : Z * Z * Z :=
  let n := n0 - 1 in
  let n400 := n / DI400Y in
  let n := n mod DI400Y in
  let year := n400 * 400 + 1 in
  let n100 := n / DI100Y in
  let n := n mod DI100Y in
  let n4 := n / DI4Y in
  let n := n mod DI4Y in
  let n1 := n / 365 in
  let n := n mod 365 in
  let year := year + n100 * 100 + n4 * 4 + n1 in
  if (n1 =? 4) || (n100 =? 4) then (year - 1, 12, 31)
  else
    let leapyear := (n1 =? 3) && (negb (n4 =? 24) || (n100 =? 3)) in
    let month := Z.shiftr (n + 50) 5 in
    let preceding :=
      DAYS_BEFORE_MONTH month + (if (2 <? month) && leapyear then 1 else 0) in
    if n <? preceding then
      let month := month - 1 in
      let preceding :=
        preceding - (DAYS_IN_MONTH month
                     + (if (month =? 2) && leapyear then 1 else 0)) in
      (year, month, n - preceding + 1)
    else (year, month, n - preceding + 1).

Definition MAXORDINAL : Z := 3652059.

End Calendar.

(** A [datetime]: naive when [utcoffset] is [None], aware otherwise, with
    the offset from UTC in microseconds. *)
Record datetime : Type := mk_datetime {
  year : Z;
  month : Z;
  day : Z;
  hour : Z;
  minute : Z;
  second : Z;
  microsecond : Z;
  utcoffset : option Z
}.

(** A [timedelta], as its total number of microseconds. *)
Definition timedelta : Type := Z.

Definition toordinal (d : datetime) : Z :=
  Calendar.ymd2ord (year d) (month d) (day d).

(** The microseconds of the wall-clock fields since ordinal 0. *)
Definition wall_micros (d : datetime) : Z :=
  (toordinal d * 86400 + (second d + minute d * 60 + hour d * 3600))
  * 1000000 + microsecond d.

(** [a - b] on datetimes: the difference of the wall clocks when both are
    naive, of the instants when both are aware, and a [TypeError] when one is
    naive and the other aware. *)
Definition dt_sub (a b : datetime) : result timedelta :=
  let base := wall_micros a - wall_micros b in
  match utcoffset a, utcoffset b with
  | None, None => Ok base
  | Some myoff, Some otoff => Ok (base + otoff - myoff)
  | _, _ => Raise TypeError
  end.

(** [td.total_seconds()]: an integer division by [10**6], correctly rounded. *)
Definition total_seconds (td : timedelta) : Float.float :=
  Float.int_truediv td 1000000.

(** [d.strftime("%Y-%m-%d")] and [d.strftime("%Y-%m")]: the fields of [d]
    itself, in its own offset, the year on four digits.  This is the key of
    every year from 1000 on; for an earlier year the C library decides
    whether [%Y] is padded, and glibc does not pad it. *)
Definition strftime_day (d : datetime) : string :=
  pad 4 (year d) ++ "-" ++ pad 2 (month d) ++ "-" ++ pad 2 (day d).

Definition strftime_month (d : datetime) : string :=
  pad 4 (year d) ++ "-" ++ pad 2 (month d).

(** [d.isoformat()]. *)
Definition iso_offset (off : Z) : string :=
  let sign := if off <? 0 then "-" else "+" in
  let a := Z.abs off in
  let us := a mod 1000000 in
  let s := a / 1000000 in
  let ss := s mod 60 in
  let mm := (s / 60) mod 60 in
  let hh := s / 3600 in
  sign ++ pad 2 hh ++ ":" ++ pad 2 mm
  ++ (if (ss =? 0) && (us =? 0) then "" else ":" ++ pad 2 ss)
  ++ (if us =? 0 then "" else "." ++ pad 6 us).

Definition isoformat (d : datetime) : string :=
  strftime_day d ++ "T" ++ pad 2 (hour d) ++ ":" ++ pad 2 (minute d)
  ++ ":" ++ pad 2 (second d)
  ++ (if microsecond d =? 0 then "" else "." ++ pad 6 (microsecond d))
  ++ match utcoffset d with
     | None => ""
     | Some off => iso_offset off
     end.

(** [d - timedelta(days=i)]: the date moves through its ordinal, the time of
    day stays; out of the range of [datetime] it is an [OverflowError]. *)
Definition minus_days (d : datetime) (i : Z) : result datetime :=
  let n := toordinal d - i in
  if (0 <? n) && (n <=? Calendar.MAXORDINAL) then
    let '(y, m, dd) := Calendar.ord2ymd n in
    Ok (mk_datetime y m dd (hour d) (minute d) (second d) (microsecond d)
          (utcoffset d))
  else Raise OverflowError.

(** ** Dictionaries

    A Python [dict] keeps its keys in insertion order, and [sum(d.values())]
    adds the values in that order: a dictionary is an association list
    without repeated keys, a new key going to the end. *)

Module Dict.
Section Dict.
Context {V : Type}.

Definition t : Type := list (string * V).

Definition empty : t := [].

Fixpoint get (k : string) (d : t) : option V :=
  match d with
  | [] => None
  | (k', v) :: d' => if String.eqb k k' then Some v else get k d'
  end.

(** [d[k] = v] *)
Fixpoint set (k : string) (v : V) (d : t) : t :=
  match d with
  | [] => [(k, v)]
  | (k', v') :: d' =>
      if String.eqb k k' then (k', v) :: d' else (k', v') :: set k v d'
  end.

(** [d.get(k, default)] *)
Definition get_default (k : string) (default : V) (d : t) : V :=
  match get k d with
  | Some v => v
  | None => default
  end.

Definition keys (d : t) : list string := map fst d.
Definition values (d : t) : list V := map snd d.

(** [for key in d: d[key] = f(d[key])] *)
Definition map_values (f : V -> V) (d : t) : t :=
  map (fun kv => (fst kv, f (snd kv))) d.
End Dict.
Arguments t : clear implicits.
End Dict.

(** ** The records of the campus API *)

(** One element of [GET /v2/users/{login}/locations]: [end_at] is [null]
    while the session is open, and [host] may be absent or [null]. *)
Record location : Type := mk_location {
  loc_id : Z;
  begin_at : string;
  end_at : option string;
  host : option (option string)
}.

(** The value of the key [campus] of a location detail: an object, of
    which [get_current_session] reads the key [name] (absent, [null] or a
    string), or anything else, [null] included, which cannot be
    subscripted. *)
Inductive campus : Type :=
| CampusNotObject
| CampusObject (name : option (option string)).

(** What [get_current_session] reads of [GET /v2/locations/{id}]: the key
    [campus] when it is there, and the key [host]. *)
Record location_info : Type := mk_location_info {
  li_campus : option campus;
  li_host : option (option string)
}.

Record current_session : Type := mk_current_session {
  cs_begin_at : string;
  cs_duration_hours : Float.float;
  cs_location : option string
}.

(** [str(x)], as an f-string formats a string or [None]. *)
Definition py_str (s : option string) : string :=
  match s with
  | Some v => v
  | None => "None"
  end.

(** Truth value of a string or [None]. *)
Definition truthy (s : option string) : bool :=
  match s with
  | Some (String _ _) => true
  | _ => false
  end.

(** Floor of [x / c] and of [(x mod c) / c'] on the exact value of a finite
    double; these are the values of [x // c] and [(x % c) // c'] on the whole
    range of differences of two datetimes.  [int()] of an infinity or a NaN
    raises. *)
Definition float_floordiv (x : Float.float) (c : Z) : result Z :=
  match x with
  | S754_zero _ => Ok 0
  | S754_finite s m e =>
      let n := (if s then Zneg m else Zpos m) * 2 ^ Z.max e 0 in
      Ok (n / (c * 2 ^ Z.max (- e) 0))
  | S754_infinity _ => Raise OverflowError
  | S754_nan => Raise ValueError
  end.

Definition float_mod_floordiv (x : Float.float) (c c' : Z) : result Z :=
  match x with
  | S754_zero _ => Ok 0
  | S754_finite s m e =>
      let n := (if s then Zneg m else Zpos m) * 2 ^ Z.max e 0 in
      let d := 2 ^ Z.max (- e) 0 in
      Ok ((n mod (c * d)) / (c' * d))
  | S754_infinity _ => Raise OverflowError
  | S754_nan => Raise ValueError
  end.

(** ** The program *)

Definition pybucket : Type := Dict.t pynum.

(** [if key not in d: d[key] = 0] and then [d[key] += duration]. *)
Definition bump (key : string) (duration : Float.float) (d : pybucket)
  : pybucket :=
  match Dict.get key d with
  | None =>
      Dict.set key (py_add (PyInt 0) (PyFloat duration))
        (Dict.set key (PyInt 0) d)
  | Some v => Dict.set key (py_add v (PyFloat duration)) d
  end.

(** [td.total_seconds() / 3600] *)
Definition hours_of (td : timedelta) : Float.float :=
  Float.div (total_seconds td) (Float.of_Z 3600).

Section Program.

(** [datetime.fromisoformat] belongs to the interpreter, and the strings it
    accepts grew from one version to the next: the program is read over any
    parser, a malformed string being a [ValueError]. *)
Variable fromisoformat : string -> result datetime.

Definition parse_timestamp (s : string) : result datetime :=
  fromisoformat (replace_Z s).

(** The body of the loop of [calculate_hours] up to the duration: the
    parsed begin, and the hours between it and the end, or [now] when
    [end_at] is falsy ([None] or the empty string). *)
Definition interval (now : datetime) (loc : location)
  : result (datetime * Float.float) :=
  b <- parse_timestamp (begin_at loc) ;;
  e <- match end_at loc with
       | Some (String c s) => parse_timestamp (String c s)
       | _ => Ok now
       end ;;
  td <- dt_sub e b ;;
  Ok (b, hours_of td).

(** The loop of [calculate_hours] over the two dictionaries. *)
Fixpoint accumulate (now : datetime) (locations : list location)
  (acc : pybucket * pybucket) : result (pybucket * pybucket) :=
  match locations with
  | [] => Ok acc
  | loc :: rest =>
      bd <- interval now loc ;;
      accumulate now rest
        (bump (strftime_day (fst bd)) (snd bd) (fst acc),
         bump (strftime_month (fst bd)) (snd bd) (snd acc))
  end.

Definition calculate_hours (now : datetime) (locations : list location)
  : result (pybucket * pybucket) :=
  acc <- accumulate now locations (Dict.empty, Dict.empty) ;;
  Ok (Dict.map_values py_round2 (fst acc),
      Dict.map_values py_round2 (snd acc)).

(** [location_info["campus"]["name"]], read when the key [campus] is there:
    a campus that is not an object raises [TypeError], an object without
    [name] raises [KeyError]. *)
Definition campus_of (info : location_info) : result (option string) :=
  match li_campus info with
  | None => Ok None
  | Some CampusNotObject => Raise TypeError
  | Some (CampusObject None) => Raise KeyError
  | Some (CampusObject (Some name)) => Ok name
  end.

(** The location label of an open session. *)
Definition location_label (latest : location) (info : location_info)
  : result (option string) :=
  let host :=
    match host latest with
    | None => Some "Unknown"
    | Some h => h
    end in
  campus <- campus_of info ;;
  let cluster :=
    match li_host info with
    | Some (Some (String c s)) =>
        match split "."%char (String c s) with
        | part :: _ => Some part
        | [] => None
        end
    | _ => None
    end in
  Ok (if truthy campus && truthy cluster
      then Some (py_str campus ++ " - " ++ py_str cluster)
      else host).

(** [get_current_session]: [locations] is the answer to the request for
    the most recent record, [get_user_location] the detail lookup. *)
Definition get_current_session (now : datetime)
  (locations : result (list location))
  (get_user_location : Z -> result location_info)
  : result (option current_session) :=
  locs <- locations ;;
  match locs with
  | [] => Ok None
  | latest :: _ =>
      b <- parse_timestamp (begin_at latest) ;;
      match end_at latest with
      | None =>
          td <- dt_sub now b ;;
          let duration_hours := hours_of td in
          info <- get_user_location (loc_id latest) ;;
          location <- location_label latest info ;;
          Ok (Some (mk_current_session (isoformat b)
                      (Float.round2 duration_hours) location))
      | Some _ => Ok None
      end
  end.

(** [format_time_difference]: whatever is raised inside the [try] is an
    [Exception] and gives the placeholder. *)
Definition format_time_difference (now : datetime) (start_time_str : string)
  : string :=
  match
    (start_time <- parse_timestamp start_time_str ;;
     diff <- dt_sub now start_time ;;
     hours <- float_floordiv (total_seconds diff) 3600 ;;
     minutes <- float_mod_floordiv (total_seconds diff) 3600 60 ;;
     Ok (if 0 <? hours
         then str_of_Z hours ++ "h " ++ str_of_Z minutes ++ "m"
         else str_of_Z minutes ++ "m"))
  with
  | Ok s => s
  | Raise _ => "Error calculating time"
  end.

End Program.

(** ** The totals of the report *)

(** [(now - timedelta(days=i)).strftime("%Y-%m-%d") for i in range(7)] *)
Fixpoint recent_days_from (now : datetime) (i : Z) (count : nat)
  : result (list string) :=
  match count with
  | O => Ok []
  | S count' =>
      d <- minus_days now i ;;
      rest <- recent_days_from now (i + 1) count' ;;
      Ok (strftime_day d :: rest)
  end.

Definition recent_days (now : datetime) : result (list string) :=
  recent_days_from now 0 7.

Definition total_hours (daily_hours : pybucket) : pynum :=
  py_sum (Dict.values daily_hours).

Definition recent_daily_total (now : datetime) (daily_hours : pybucket)
  : result pynum :=
  days <- recent_days now ;;
  Ok (py_sum (map (fun day => Dict.get_default day (PyInt 0) daily_hours) days)).

Record report : Type := mk_report {
  r_total_hours : pynum;
  r_recent_daily_total : pynum;
  r_daily_hours : pybucket;
  r_monthly_hours : pybucket;
  r_updated_at : string;
  r_current_session : option current_session
}.

(** The part of [main] between the collaborators: [now_utc] is the clock
    read by [calculate_hours] and [get_current_session], [now_local] the
    naive local clock of [main]. *)
Definition main (fromisoformat : string -> result datetime)
  (now_utc now_local : datetime)
  (locations : result (list location))
  (latest : result (list location))
  (get_user_location : Z -> result location_info) : result report :=
  locs <- locations ;;
  hrs <- calculate_hours fromisoformat now_utc locs ;;
  cur <- get_current_session fromisoformat now_utc latest get_user_location ;;
  recent <- recent_daily_total now_local (fst hrs) ;;
  Ok (mk_report (py_round2 (total_hours (fst hrs))) (py_round2 recent)
        (fst hrs) (snd hrs) (isoformat now_local) cur).

(** ** A reference parser

    The timestamps of the campus API follow one profile of ISO 8601,
    [YYYY-MM-DD], then any one character, [HH:MM:SS], an optional fraction of
    three or six digits and an optional offset [+HH:MM] or [-HH:MM]; a date
    alone is read as midnight.  Every [fromisoformat] since Python 3.7 reads
    such a string as below.  A string outside this profile is a [ValueError]
    here, although an interpreter may accept it ([HH:MM] without seconds,
    other lengths of the fraction): the parser below stands for the
    interpreter only on the strings of the profile and on strings that no
    interpreter accepts, and every general statement takes the parser as a
    parameter. *)

Module IsoProfile.

Definition digit_val (c : ascii) : option Z :=
  let n := Z.of_nat (nat_of_ascii c) in
  if (48 <=? n) && (n <=? 57) then Some (n - 48) else None.

Fixpoint number_from (acc : Z) (s : string) : option Z :=
  match s with
  | EmptyString => Some acc
  | String c rest =>
      match digit_val c with
      | Some d => number_from (acc * 10 + d) rest
      | None => None
      end
  end.

(** The value of a string of exactly [n] digits. *)
Definition number (n : nat) (s : string) : option Z :=
  if Nat.eqb (String.length s) n then number_from 0 s else None.

Definition field (start len : nat) (s : string) : option Z :=
  number len (substring start len s).

Definition char_is (i : nat) (c : ascii) (s : string) : bool :=
  match String.get i s with
  | Some c' => Ascii.eqb c c'
  | None => false
  end.

Definition tail (i : nat) (s : string) : string :=
  substring i (String.length s - i) s.

(** [""], [+HH:MM] or [-HH:MM]. *)
Definition parse_offset (s : string) : option (option Z) :=
  match s with
  | EmptyString => Some None
  | String sign rest =>
      match field 0 2 rest, field 3 2 rest with
      | Some hh, Some mm =>
          if Nat.eqb (String.length rest) 5 && char_is 2 ":" rest
             && (hh <=? 23) && (mm <=? 59)
          then
            let off := (hh * 3600 + mm * 60) * 1000000 in
            if Ascii.eqb sign "+" then Some (Some off)
            else if Ascii.eqb sign "-" then Some (Some (- off))
            else None
          else None
      | _, _ => None
      end
  end.

(** [""], [.fff] or [.ffffff], and what follows. *)
Definition parse_fraction (s : string) : option (Z * string) :=
  if char_is 0 "." s then
    match field 1 6 s with
    | Some us => Some (us, tail 7 s)
    | None =>
        match field 1 3 s with
        | Some ms => Some (ms * 1000, tail 4 s)
        | None => None
        end
    end
  else Some (0, s).

Definition fromisoformat (s : string) : result datetime :=
  match field 0 4 s, field 5 2 s, field 8 2 s with
  | Some y, Some m, Some d =>
      if char_is 4 "-" s && char_is 7 "-" s
         && (1 <=? y) && (1 <=? m) && (m <=? 12)
         && (1 <=? d) && (d <=? Calendar.days_in_month y m)
      then
        if Nat.eqb (String.length s) 10
        then Ok (mk_datetime y m d 0 0 0 0 None)
        else
          let t := tail 11 s in
          match field 0 2 t, field 3 2 t, field 6 2 t with
          | Some hh, Some mi, Some ss =>
              if char_is 2 ":" t && char_is 5 ":" t
                 && (hh <=? 23) && (mi <=? 59) && (ss <=? 59)
              then
                match parse_fraction (tail 8 t) with
                | Some (us, rest) =>
                    match parse_offset rest with
                    | Some off => Ok (mk_datetime y m d hh mi ss us off)
                    | None => Raise ValueError
                    end
                | None => Raise ValueError
                end
              else Raise ValueError
          | _, _, _ => Raise ValueError
          end
      else Raise ValueError
  | _, _, _ => Raise ValueError
  end.

End IsoProfile.

(** * Properties *)

(** ** Dictionaries *)

Section DictFacts.
Context {V : Type}.
Implicit Types (d : Dict.t V) (k : string) (v : V).

Lemma get_set_same k v d : Dict.get k (Dict.set k v d) = Some v.
Proof.
  induction d as [|[k' v'] d IH]; simpl.
  - now rewrite String.eqb_refl.
  - destruct (String.eqb k k') eqn:E; simpl; rewrite E; auto.
Qed.

Lemma get_set_other k k' v d :
  k <> k' -> Dict.get k' (Dict.set k v d) = Dict.get k' d.
Proof.
  intros Hne. induction d as [|[k0 v0] d IH]; simpl.
  - destruct (String.eqb_spec k' k); congruence.
  - destruct (String.eqb_spec k k0) as [->|]; simpl.
    + destruct (String.eqb_spec k' k0); congruence.
    + now rewrite IH.
Qed.

Lemma get_map_values (f : V -> V) k d :
  Dict.get k (Dict.map_values f d) = option_map f (Dict.get k d).
Proof.
  induction d as [|[k' v'] d IH]; simpl; auto.
  destruct (String.eqb k k'); auto.
Qed.

Lemma keys_set_present k v v0 d :
  Dict.get k d = Some v0 -> Dict.keys (Dict.set k v d) = Dict.keys d.
Proof.
  induction d as [|[k' v'] d IH]; simpl; [discriminate|].
  destruct (String.eqb k k'); simpl; auto.
  intros H. now rewrite IH.
Qed.
End DictFacts.

Lemma get_bump_same key dur d :
  Dict.get key (bump key dur d)
  = Some (py_add (Dict.get_default key (PyInt 0) d) (PyFloat dur)).
Proof.
  unfold bump, Dict.get_default.
  destruct (Dict.get key d); now rewrite get_set_same.
Qed.

Lemma get_bump_other key k dur d :
  key <> k -> Dict.get k (bump key dur d) = Dict.get k d.
Proof.
  intros Hne. unfold bump.
  destruct (Dict.get key d); now rewrite !get_set_other by assumption.
Qed.

(** ** The loop of [calculate_hours] as a fold *)

(** What one interval gives to the loop: its parsed begin and its hours. *)
Definition entry : Type := (datetime * Float.float)%type.

Definition credit (acc : pybucket * pybucket) (e : entry)
  : pybucket * pybucket :=
  (bump (strftime_day (fst e)) (snd e) (fst acc),
   bump (strftime_month (fst e)) (snd e) (snd acc)).

(** The intervals of a list, the first failure being raised. *)
Fixpoint intervals (P : string -> result datetime) (now : datetime)
  (locations : list location) : result (list entry) :=
  match locations with
  | [] => Ok []
  | loc :: rest =>
      e <- interval P now loc ;;
      es <- intervals P now rest ;;
      Ok (e :: es)
  end.

(** The hours that the entries of key [k] bring, in the order of the list. *)
Definition bucket (key_of : datetime -> string) (k : string)
  (es : list entry) : list Float.float :=
  map snd (filter (fun e => String.eqb k (key_of (fst e))) es).

(** The value of a bucket that received the hours [ds], in this order. *)
Definition bucket_total (ds : list Float.float) : option pynum :=
  match ds with
  | [] => None
  | _ => Some (py_sum (map PyFloat ds))
  end.

Lemma accumulate_fold P now locs acc :
  accumulate P now locs acc
  = (es <- intervals P now locs ;; Ok (fold_left credit es acc)).
Proof.
  revert acc. induction locs as [|loc rest IH]; intros acc; simpl; auto.
  destruct (interval P now loc) as [e|x]; simpl; auto.
  rewrite IH. destruct (intervals P now rest); reflexivity.
Qed.

Lemma intervals_app P now l1 l2 :
  intervals P now (l1 ++ l2)%list
  = (es1 <- intervals P now l1 ;;
     es2 <- intervals P now l2 ;;
     Ok (es1 ++ es2)%list).
Proof.
  induction l1 as [|loc l1 IH]; simpl.
  - destruct (intervals P now l2); reflexivity.
  - destruct (interval P now loc); simpl; auto.
    rewrite IH.
    destruct (intervals P now l1); simpl; auto.
    destruct (intervals P now l2); reflexivity.
Qed.

Lemma fst_fold_credit es acc :
  fst (fold_left credit es acc)
  = fold_left (fun d e => bump (strftime_day (fst e)) (snd e) d) es (fst acc).
Proof. revert acc. induction es; intros; simpl; auto. Qed.

Lemma snd_fold_credit es acc :
  snd (fold_left credit es acc)
  = fold_left (fun d e => bump (strftime_month (fst e)) (snd e) d) es (snd acc).
Proof. revert acc. induction es; intros; simpl; auto. Qed.

Lemma get_fold_bump (key_of : datetime -> string) k es d0 :
  Dict.get k (fold_left (fun d e => bump (key_of (fst e)) (snd e) d) es d0)
  = match bucket key_of k es with
    | [] => Dict.get k d0
    | ds => Some (fold_left py_add (map PyFloat ds)
                    (Dict.get_default k (PyInt 0) d0))
    end.
Proof.
  revert d0. unfold bucket.
  induction es as [|e es IH]; intros d0; simpl; auto.
  rewrite IH.
  destruct (String.eqb_spec k (key_of (fst e))) as [->|Hne]; simpl.
  - unfold Dict.get_default at 1. rewrite get_bump_same.
    destruct (map snd (filter _ es)); reflexivity.
  - unfold Dict.get_default. rewrite get_bump_other by congruence.
    reflexivity.
Qed.

Lemma get_fold_bump_empty (key_of : datetime -> string) k es :
  Dict.get k
    (fold_left (fun d e => bump (key_of (fst e)) (snd e) d) es Dict.empty)
  = bucket_total (bucket key_of k es).
Proof.
  rewrite get_fold_bump. unfold bucket_total.
  destruct (bucket key_of k es); reflexivity.
Qed.

(** The result of [calculate_hours], bucket by bucket. *)
Lemma calculate_hours_buckets P now locs es :
  intervals P now locs = Ok es ->
  exists daily monthly,
    calculate_hours P now locs = Ok (daily, monthly)
    /\ (forall k, Dict.get k daily
                  = option_map py_round2
                      (bucket_total (bucket strftime_day k es)))
    /\ (forall k, Dict.get k monthly
                  = option_map py_round2
                      (bucket_total (bucket strftime_month k es))).
Proof.
  intros Hes. unfold calculate_hours. rewrite accumulate_fold, Hes. simpl.
  eexists _, _. split; [reflexivity|].
  split; intros k; rewrite get_map_values.
  - now rewrite fst_fold_credit, get_fold_bump_empty.
  - now rewrite snd_fold_credit, get_fold_bump_empty.
Qed.

Lemma calculate_hours_ok_intervals P now locs r :
  calculate_hours P now locs = Ok r -> exists es, intervals P now locs = Ok es.
Proof.
  unfold calculate_hours. rewrite accumulate_fold.
  destruct (intervals P now locs) as [es|x]; simpl; [eauto|discriminate].
Qed.

Lemma interval_begin P now loc b dur :
  interval P now loc = Ok (b, dur) -> parse_timestamp P (begin_at loc) = Ok b.
Proof.
  unfold interval.
  destruct (parse_timestamp P (begin_at loc)) as [b0|]; simpl; [|discriminate].
  destruct (match end_at loc with
            | Some (String c s) => parse_timestamp P (String c s)
            | _ => Ok now
            end) as [e|]; simpl; [|discriminate].
  destruct (dt_sub e b0); simpl; [|discriminate].
  congruence.
Qed.

(** ** Sample data *)

Definition utc (y m d hh mi ss : Z) : datetime :=
  mk_datetime y m d hh mi ss 0 (Some 0).

Definition closed_session (id : Z) (b e : string) : location :=
  mk_location id b (Some e) (Some (Some "e1r2p3")).

Definition open_session (id : Z) (b : string) : location :=
  mk_location id b None (Some (Some "e1r2p3")).

(** The session of the specification that spans the end of March. *)
Definition boundary_session : location :=
  closed_session 1 "2025-03-31T23:00:00.000Z" "2025-04-01T01:00:00.000Z".

(** ** Every interval goes to the buckets of its begin *)

(** The instant of a datetime, in microseconds. *)
Definition utc_micros (d : datetime) : Z :=
  wall_micros d - match utcoffset d with Some off => off | None => 0 end.

(** The end of an interval as the loop reads it: [end_at] parsed when it is
    truthy, the clock otherwise. *)
Definition interval_end (P : string -> result datetime) (now : datetime)
  (loc : location) : result datetime :=
  match end_at loc with
  | Some (String c s) => parse_timestamp P (String c s)
  | _ => Ok now
  end.

(** Both datetimes carry an offset, or neither does. *)
Definition same_awareness (a b : datetime) : bool :=
  match utcoffset a, utcoffset b with
  | Some _, Some _ => true
  | None, None => true
  | _, _ => false
  end.

(** The duration of [td] microseconds in hours, as IEEE 754 defines it for
    [td.total_seconds() / 3600]: the quotient of the integer by [10**6] with
    one rounding, divided by the double [3600.0] with one more. *)
Definition ieee_hours (td : Z) : spec_float :=
  SFdiv 53 1024
    match td with
    | Z0 => S754_zero false
    | Zpos p =>
        SFdiv 53 1024 (S754_finite false p 0) (S754_finite false 1000000 0)
    | Zneg p =>
        SFdiv 53 1024 (S754_finite true p 0) (S754_finite false 1000000 0)
    end
    (binary_normalize 53 1024 3600 0 false).

(** The double that stands in a bucket before an addition: [0.0] for a
    bucket that is being opened, whose [int] 0 is converted by the
    addition. *)
Definition as_float (v : option pynum) : spec_float :=
  match v with
  | None => S754_zero false
  | Some (PyInt z) => binary_normalize 53 1024 z 0 false
  | Some (PyFloat f) => f
  end.

(** The IEEE 754 sum of durations, from [0.0], in the order of the list. *)
Definition ieee_sum (ds : list spec_float) : spec_float :=
  fold_left (SFadd 53 1024) ds (S754_zero false).

(** What a well-formed record gives to the loop: its parsed begin, and the
    hours from its begin to its end. *)
Definition credited (P : string -> result datetime) (now : datetime)
  (loc : location) (e : entry) : Prop :=
  exists en,
    parse_timestamp P (begin_at loc) = Ok (fst e)
    /\ interval_end P now loc = Ok en
    /\ same_awareness en (fst e) = true
    /\ snd e = ieee_hours (utc_micros en - utc_micros (fst e)).

(** The value of the bucket [k] for the entries [es]: none when no entry has
    this key, and otherwise the rounded sum of the durations of the entries
    that have it. *)
Definition bucket_value (key_of : datetime -> string) (k : string)
  (es : list entry) : option pynum :=
  match bucket key_of k es with
  | [] => None
  | ds => Some (PyFloat (Float.round2 (ieee_sum ds)))
  end.

(** One hour on 2025-03-31 and four hours on 2025-04-01. *)
Definition march_session : location :=
  closed_session 3 "2025-03-31T20:00:00Z" "2025-03-31T21:00:00Z".

Definition april_session : location :=
  closed_session 4 "2025-04-01T08:00:00Z" "2025-04-01T12:00:00Z".

Lemma hours_of_ieee (td : Z) : hours_of td = ieee_hours td.
Proof. destruct td; reflexivity. Qed.

Lemma interval_well_formed P now loc b e :
  parse_timestamp P (begin_at loc) = Ok b ->
  interval_end P now loc = Ok e ->
  same_awareness e b = true ->
  interval P now loc = Ok (b, ieee_hours (utc_micros e - utc_micros b)).
Proof.
  intros Hb He Haware. unfold interval, interval_end in *.
  rewrite Hb. cbn [bind]. rewrite He. cbn [bind].
  unfold same_awareness in Haware. unfold dt_sub, utc_micros.
  destruct (utcoffset e), (utcoffset b); try discriminate Haware;
    cbn [bind]; rewrite hours_of_ieee; do 3 f_equal; lia.
Qed.

Lemma intervals_credited P now locs es :
  Forall2 (credited P now) locs es -> intervals P now locs = Ok es.
Proof.
  induction 1 as [|loc [b dur] locs es Hc _ IH]; [reflexivity|].
  destruct Hc as (en & Hb & He & Haware & Hdur).
  cbn [fst snd] in *. cbn [intervals].
  rewrite (interval_well_formed P now loc b en Hb He Haware).
  cbn [bind]. rewrite IH. cbn [bind]. rewrite Hdur. reflexivity.
Qed.

(** [d[key] += duration] on what [d.get(key, 0)] gives. *)
Lemma py_add_duration (v : option pynum) (dur : Float.float) :
  py_add match v with Some x => x | None => PyInt 0 end (PyFloat dur)
  = PyFloat (SFadd 53 1024 (as_float v) dur).
Proof. destruct v as [[z|f]|]; reflexivity. Qed.

Lemma fold_py_add_ieee (ds : list Float.float) : forall f,
  fold_left py_add (map PyFloat ds) (PyFloat f)
  = PyFloat (fold_left (SFadd 53 1024) ds f).
Proof. induction ds as [|d ds IH]; intros f; simpl; auto. Qed.

Lemma bucket_total_value (ds : list Float.float) :
  option_map py_round2 (bucket_total ds)
  = match ds with
    | [] => None
    | _ => Some (PyFloat (Float.round2 (ieee_sum ds)))
    end.
Proof.
  destruct ds as [|d ds]; [reflexivity|].
  unfold bucket_total, py_sum, ieee_sum. cbn [map fold_left option_map].
  change (py_add (PyInt 0) (PyFloat d))
    with (PyFloat (SFadd 53 1024 (S754_zero false) d)).
  rewrite fold_py_add_ieee. reflexivity.
Qed.

(** C1: processing one more interval, of a record whose begin and end
    parse and can be subtracted, adds its whole duration, the hours from
    its begin to its end, to exactly one daily bucket and exactly one
    monthly bucket, the ones keyed by the day and the month of its parsed
    [begin_at]: the new value of each is the IEEE 754 sum of the value it
    had ([0.0] for a new bucket) and the duration, and every other bucket is
    left as it was.  Over a whole list, each returned bucket is the rounded
    sum of the durations of the intervals that begin on its day or in its
    month, and of no other.  The session from 2025-03-31T23:00Z to
    2025-04-01T01:00Z gives its two hours to day 2025-03-31 and month
    2025-03 and to nothing else; after a session of one hour on 2025-03-31
    and one of four hours on 2025-04-01 it brings day 2025-03-31 and month
    2025-03 to three hours and leaves the four hours of 2025-04-01 and of
    2025-04 as they are. *)
Theorem interval_credited_to_begin_buckets
  (P : string -> result datetime) (now : datetime)
  (locs : list location) (loc : location) (acc : pybucket * pybucket)
  (d m : pybucket) (b e : datetime)
  (Hacc : accumulate P now locs acc = Ok (d, m))
  (Hb : parse_timestamp P (begin_at loc) = Ok b)
  (He : interval_end P now loc = Ok e)
  (Haware : same_awareness e b = true) :
  let duration := ieee_hours (utc_micros e - utc_micros b) in
  (exists d' m',
     accumulate P now (locs ++ [loc])%list acc = Ok (d', m')
     /\ Dict.get (strftime_day b) d'
        = Some (PyFloat (SFadd 53 1024
                           (as_float (Dict.get (strftime_day b) d))
                           duration))
     /\ (forall k, k <> strftime_day b -> Dict.get k d' = Dict.get k d)
     /\ Dict.get (strftime_month b) m'
        = Some (PyFloat (SFadd 53 1024
                           (as_float (Dict.get (strftime_month b) m))
                           duration))
     /\ (forall k, k <> strftime_month b -> Dict.get k m' = Dict.get k m))
  /\ (forall all es,
        Forall2 (credited P now) all es ->
        exists daily monthly,
          calculate_hours P now all = Ok (daily, monthly)
          /\ (forall k, Dict.get k daily = bucket_value strftime_day k es)
          /\ (forall k,
                Dict.get k monthly = bucket_value strftime_month k es))
  /\ calculate_hours IsoProfile.fromisoformat now [boundary_session]
     = Ok ([("2025-03-31", PyFloat (binary_normalize 53 1024 2 0 false))],
           [("2025-03", PyFloat (binary_normalize 53 1024 2 0 false))])
  /\ calculate_hours IsoProfile.fromisoformat now
       [march_session; april_session; boundary_session]
     = Ok ([("2025-03-31", PyFloat (binary_normalize 53 1024 3 0 false));
            ("2025-04-01", PyFloat (binary_normalize 53 1024 4 0 false))],
           [("2025-03", PyFloat (binary_normalize 53 1024 3 0 false));
            ("2025-04", PyFloat (binary_normalize 53 1024 4 0 false))]).
Proof.
  intros duration.
  split; [|split; [|split; vm_compute; reflexivity]].
  - pose proof (interval_well_formed P now loc b e Hb He Haware) as Hloc.
    fold duration in Hloc.
    rewrite accumulate_fold in Hacc |- *.
    rewrite intervals_app. cbn [intervals].
    destruct (intervals P now locs) as [es|]; cbn [bind] in *; [|discriminate].
    rewrite Hloc. cbn [bind].
    injection Hacc as Hfold.
    rewrite fold_left_app. cbn [fold_left]. rewrite Hfold.
    unfold credit. cbn [fst snd].
    eexists _, _. split; [reflexivity|].
    split; [|split; [|split]].
    + rewrite get_bump_same. unfold Dict.get_default.
      rewrite py_add_duration. reflexivity.
    + intros k Hk. apply get_bump_other. congruence.
    + rewrite get_bump_same. unfold Dict.get_default.
      rewrite py_add_duration. reflexivity.
    + intros k Hk. apply get_bump_other. congruence.
  - intros all es Hall.
    destruct (calculate_hours_buckets P now all es
                (intervals_credited P now all es Hall))
      as (daily & monthly & Hc & Hd & Hm).
    exists daily, monthly. split; [exact Hc|].
    split; intros k; [rewrite Hd|rewrite Hm];
      unfold bucket_value; rewrite bucket_total_value;
      destruct (bucket _ k es); reflexivity.
Qed.

Lemma interval_credited_to_begin_buckets_witness :
  let now := utc 2025 4 2 12 0 0 in
  let b := utc 2025 3 31 23 0 0 in
  let e := utc 2025 4 1 1 0 0 in
  let d := [("2025-03-31", PyFloat (binary_normalize 53 1024 1 0 false));
            ("2025-04-01", PyFloat (binary_normalize 53 1024 4 0 false))] in
  let m := [("2025-03", PyFloat (binary_normalize 53 1024 1 0 false));
            ("2025-04", PyFloat (binary_normalize 53 1024 4 0 false))] in
  let duration := ieee_hours (utc_micros e - utc_micros b) in
  (exists d' m',
     accumulate IsoProfile.fromisoformat now
       ([march_session; april_session] ++ [boundary_session])%list
       (Dict.empty, Dict.empty) = Ok (d', m')
     /\ Dict.get (strftime_day b) d'
        = Some (PyFloat (SFadd 53 1024
                           (as_float (Dict.get (strftime_day b) d))
                           duration))
     /\ (forall k, k <> strftime_day b -> Dict.get k d' = Dict.get k d)
     /\ Dict.get (strftime_month b) m'
        = Some (PyFloat (SFadd 53 1024
                           (as_float (Dict.get (strftime_month b) m))
                           duration))
     /\ (forall k, k <> strftime_month b -> Dict.get k m' = Dict.get k m))
  /\ (forall all es,
        Forall2 (credited IsoProfile.fromisoformat now) all es ->
        exists daily monthly,
          calculate_hours IsoProfile.fromisoformat now all
          = Ok (daily, monthly)
          /\ (forall k, Dict.get k daily = bucket_value strftime_day k es)
          /\ (forall k,
                Dict.get k monthly = bucket_value strftime_month k es))
  /\ calculate_hours IsoProfile.fromisoformat now [boundary_session]
     = Ok ([("2025-03-31", PyFloat (binary_normalize 53 1024 2 0 false))],
           [("2025-03", PyFloat (binary_normalize 53 1024 2 0 false))])
  /\ calculate_hours IsoProfile.fromisoformat now
       [march_session; april_session; boundary_session]
     = Ok ([("2025-03-31", PyFloat (binary_normalize 53 1024 3 0 false));
            ("2025-04-01", PyFloat (binary_normalize 53 1024 4 0 false))],
           [("2025-03", PyFloat (binary_normalize 53 1024 3 0 false));
            ("2025-04", PyFloat (binary_normalize 53 1024 4 0 false))]).
Proof.
  apply (interval_credited_to_begin_buckets IsoProfile.fromisoformat
           (utc 2025 4 2 12 0 0) [march_session; april_session]
           boundary_session (Dict.empty, Dict.empty)
           [("2025-03-31", PyFloat (binary_normalize 53 1024 1 0 false));
            ("2025-04-01", PyFloat (binary_normalize 53 1024 4 0 false))]
           [("2025-03", PyFloat (binary_normalize 53 1024 1 0 false));
            ("2025-04", PyFloat (binary_normalize 53 1024 4 0 false))]
           (utc 2025 3 31 23 0 0) (utc 2025 4 1 1 0 0));
    vm_compute; reflexivity.
Defined.

(** ** The clock of [main] *)

Lemma minus_days_ok now i :
  0 < toordinal now - i <= Calendar.MAXORDINAL ->
  exists d, minus_days now i = Ok d.
Proof.
  intros [Hlo Hhi]. unfold minus_days.
  apply Z.ltb_lt in Hlo. apply Z.leb_le in Hhi. rewrite Hlo, Hhi. simpl.
  destruct (Calendar.ord2ymd (toordinal now - i)) as [[y m] dd]. eauto.
Qed.

Lemma recent_days_from_ok now count : forall i,
  0 < toordinal now - i - Z.of_nat count + 1 ->
  toordinal now - i <= Calendar.MAXORDINAL ->
  exists days, recent_days_from now i count = Ok days
               /\ List.length days = count.
Proof.
  induction count as [|count IH]; intros i Hlo Hhi.
  - exists []. split; reflexivity.
  - cbn [recent_days_from].
    destruct (minus_days_ok now i) as [d Hd]; [lia|].
    destruct (IH (i + 1)) as (days & Hdays & Hlen); [lia|lia|].
    rewrite Hd, Hdays. simpl. exists (strftime_day d :: days).
    split; [reflexivity|]. simpl. now rewrite Hlen.
Qed.

(** Any clock from 0001-01-07 on has its seven recent days. *)
Lemma recent_days_ok now :
  7 <= toordinal now <= Calendar.MAXORDINAL ->
  exists days, recent_days now = Ok days /\ List.length days = 7%nat.
Proof.
  intros [Hlo Hhi]. apply recent_days_from_ok; simpl; lia.
Qed.

Lemma py_sum_zeros (xs : list pynum) :
  (forall x, In x xs -> x = PyInt 0) -> py_sum xs = PyInt 0.
Proof.
  unfold py_sum. induction xs as [|x xs IH]; intros H; simpl; auto.
  rewrite (H x) by (left; reflexivity). simpl.
  apply IH. intros y Hy. apply H. now right.
Qed.

(** ** An empty window *)

(** C10: on an empty list of intervals the aggregator returns two empty
    dictionaries, with no placeholder key, and the report built from them has
    [total_hours = 0] and [recent_daily_total = 0]. *)
Theorem empty_window_report
  (P : string -> result datetime) (now_utc now_local : datetime)
  (latest : result (list location))
  (get_user_location : Z -> result location_info)
  (cur : option current_session)
  (Hclock : 7 <= toordinal now_local <= Calendar.MAXORDINAL)
  (Hcur : get_current_session P now_utc latest get_user_location = Ok cur) :
  calculate_hours P now_utc [] = Ok (Dict.empty, Dict.empty)
  /\ total_hours Dict.empty = PyInt 0
  /\ recent_daily_total now_local Dict.empty = Ok (PyInt 0)
  /\ main P now_utc now_local (Ok []) latest get_user_location
     = Ok (mk_report (PyInt 0) (PyInt 0) Dict.empty Dict.empty
             (isoformat now_local) cur).
Proof.
  assert (Hrecent : recent_daily_total now_local Dict.empty = Ok (PyInt 0)).
  { unfold recent_daily_total.
    destruct (recent_days_ok now_local Hclock) as (days & Hdays & _).
    rewrite Hdays. simpl. f_equal. apply py_sum_zeros.
    intros x Hx. apply in_map_iff in Hx. destruct Hx as (day & <- & _).
    reflexivity. }
  repeat split; auto.
  unfold main. cbn [bind].
  replace (calculate_hours P now_utc [])
    with (@Ok (pybucket * pybucket) (Dict.empty, Dict.empty))
    by reflexivity.
  cbn [bind fst snd]. rewrite Hcur. cbn [bind]. rewrite Hrecent. reflexivity.
Qed.

Lemma empty_window_report_witness :
  calculate_hours IsoProfile.fromisoformat (utc 2025 4 2 12 0 0) []
  = Ok (Dict.empty, Dict.empty)
  /\ total_hours Dict.empty = PyInt 0
  /\ recent_daily_total (mk_datetime 2025 4 2 14 0 0 0 None) Dict.empty
     = Ok (PyInt 0)
  /\ main IsoProfile.fromisoformat (utc 2025 4 2 12 0 0)
       (mk_datetime 2025 4 2 14 0 0 0 None) (Ok []) (Ok [])
       (fun _ => Raise HTTPError)
     = Ok (mk_report (PyInt 0) (PyInt 0) Dict.empty Dict.empty
             (isoformat (mk_datetime 2025 4 2 14 0 0 0 None)) None).
Proof.
  apply (empty_window_report IsoProfile.fromisoformat (utc 2025 4 2 12 0 0)
           (mk_datetime 2025 4 2 14 0 0 0 None) (Ok [])
           (fun _ => Raise HTTPError) None).
  - vm_compute. split; discriminate.
  - reflexivity.
Defined.

(** ** Exact values *)

(** The rational that a finite double stands for. *)
Definition float_to_Q (x : Float.float) : Q :=
  match x with
  | S754_finite s m e => (inject_Z (if s then Zneg m else Zpos m) * 2 ^ e)%Q
  | _ => 0%Q
  end.

Definition pynum_to_Q (x : pynum) : Q :=
  match x with
  | PyInt z => inject_Z z
  | PyFloat f => float_to_Q f
  end.

Definition Qsum (xs : list Q) : Q := fold_right Qplus 0%Q xs.

(** Begin and end of a closed interval, as instants. *)
Definition span (P : string -> result datetime) (loc : location)
  : result (Z * Z) :=
  b <- parse_timestamp P (begin_at loc) ;;
  e <- match end_at loc with
       | Some (String c s) => parse_timestamp P (String c s)
       | _ => Raise ValueError
       end ;;
  Ok (utc_micros b, utc_micros e).

Fixpoint spans (P : string -> result datetime) (locs : list location)
  : result (list (Z * Z)) :=
  match locs with
  | [] => Ok []
  | loc :: rest =>
      s <- span P loc ;; ss <- spans P rest ;; Ok (s :: ss)
  end.

Definition disjointb (s1 s2 : Z * Z) : bool :=
  (snd s1 <=? fst s2) || (snd s2 <=? fst s1).

Fixpoint pairwise_disjointb (ss : list (Z * Z)) : bool :=
  match ss with
  | [] => true
  | s :: rest => forallb (disjointb s) rest && pairwise_disjointb rest
  end.

(** ** Rounding happens once, at the end *)

Lemma round_half_even_nearest (n d : Z) :
  0 < d -> 2 * Z.abs (n - Float.round_half_even n d * d) <= d.
Proof.
  intros Hd. unfold Float.round_half_even.
  pose proof (Z.div_mod n d ltac:(lia)) as Hn.
  pose proof (Z.mod_pos_bound n d Hd) as Hr.
  set (q := n / d) in *. set (r := n mod d) in *.
  destruct (Z.compare_spec (2 * r) d) as [He|Hl|Hg].
  - destruct (Z.even q); nia.
  - nia.
  - nia.
Qed.

(** [centi m e] is an integer nearest to a hundred times [m * 2^e]. *)
Lemma centi_nearest (m : positive) (e : Z) :
  2 * Z.abs (100 * Zpos m * 2 ^ Z.max e 0
             - Float.centi m e * 2 ^ Z.max (- e) 0)
  <= 2 ^ Z.max (- e) 0.
Proof.
  unfold Float.centi. destruct e as [|k|k].
  - simpl Z.max. rewrite !Z.pow_0_r. lia.
  - replace (Z.max (- Zpos k) 0) with 0 by lia.
    replace (Z.max (Zpos k) 0) with (Zpos k) by lia.
    rewrite Z.pow_0_r. lia.
  - replace (Z.max (- Zneg k) 0) with (Zpos k) by lia.
    replace (Z.max (Zneg k) 0) with 0 by lia.
    rewrite Z.pow_0_r, Z.mul_1_r.
    apply round_half_even_nearest. apply Z.pow_pos_nonneg; lia.
Qed.

(** Three sessions of fourteen seconds, on three days. *)
Definition three_short_sessions : list location :=
  [closed_session 1 "2025-01-10T08:00:00.000Z" "2025-01-10T08:00:14.000Z";
   closed_session 2 "2025-01-11T08:00:00.000Z" "2025-01-11T08:00:14.000Z";
   closed_session 3 "2025-01-12T08:00:00.000Z" "2025-01-12T08:00:14.000Z"].

(** C2, as stated, fails: three disjoint closed sessions of 14 seconds on
    three days give three daily buckets that each round to 0.0, so the sum of
    the returned daily values is 0 while the durations add up to 42 seconds,
    0.01166... hours: the difference is more than 0.01. *)
Lemma rounding_tolerance_exceeded :
  exists ss es daily monthly,
    spans IsoProfile.fromisoformat three_short_sessions = Ok ss
    /\ pairwise_disjointb ss = true
    /\ intervals IsoProfile.fromisoformat (utc 2025 4 2 12 0 0)
         three_short_sessions = Ok es
    /\ calculate_hours IsoProfile.fromisoformat (utc 2025 4 2 12 0 0)
         three_short_sessions = Ok (daily, monthly)
    /\ total_hours daily = PyFloat Float.pzero
    /\ (1 # 100 < Qabs (pynum_to_Q (total_hours daily)
                        - Qsum (map (fun e => float_to_Q (snd e)) es)))%Q.
Proof.
  eexists _, _, _, _.
  split; [vm_compute; reflexivity|].
  split; [vm_compute; reflexivity|].
  split; [vm_compute; reflexivity|].
  split; [vm_compute; reflexivity|].
  split; vm_compute; reflexivity.
Qed.

(** C2, amended: every bucket is rounded once, after the accumulation: the
    returned value of a key is [round(x, 2)] of the sum of the durations
    credited to that key, added unrounded in the order of the list, and
    [round(x, 2)] is the double nearest to [c / 100] for an integer [c] within
    one half of [100 * x].  So each returned bucket is off its accumulated sum
    by 0.005 at most before the conversion to a double, and the sum of the
    daily values may differ from the sum of the durations by that much for
    every daily bucket, not by 0.01 overall. *)
Theorem buckets_rounded_once_at_end
  (P : string -> result datetime) (now : datetime)
  (locs : list location) (es : list entry)
  (Hes : intervals P now locs = Ok es) :
  (exists daily monthly,
     calculate_hours P now locs = Ok (daily, monthly)
     /\ (forall k, Dict.get k daily
                   = option_map py_round2
                       (bucket_total (bucket strftime_day k es)))
     /\ (forall k, Dict.get k monthly
                   = option_map py_round2
                       (bucket_total (bucket strftime_month k es))))
  /\ (forall s m e,
        Float.round2 (S754_finite s m e)
        = match Float.centi m e with
          | Zpos c => Float.div (S754_finite s c 0) (S754_finite false 100 0)
          | _ => S754_zero s
          end
        /\ 2 * Z.abs (100 * Zpos m * 2 ^ Z.max e 0
                      - Float.centi m e * 2 ^ Z.max (- e) 0)
           <= 2 ^ Z.max (- e) 0).
Proof.
  split.
  - apply calculate_hours_buckets; assumption.
  - intros s m e. split; [reflexivity|apply centi_nearest].
Qed.

Lemma buckets_rounded_once_at_end_witness :
  (exists daily monthly,
     calculate_hours IsoProfile.fromisoformat (utc 2025 4 2 12 0 0)
       [boundary_session] = Ok (daily, monthly)
     /\ (forall k, Dict.get k daily
                   = option_map py_round2
                       (bucket_total
                          (bucket strftime_day k
                             [(utc 2025 3 31 23 0 0, Float.of_Z 2)])))
     /\ (forall k, Dict.get k monthly
                   = option_map py_round2
                       (bucket_total
                          (bucket strftime_month k
                             [(utc 2025 3 31 23 0 0, Float.of_Z 2)]))))
  /\ (forall s m e,
        Float.round2 (S754_finite s m e)
        = match Float.centi m e with
          | Zpos c => Float.div (S754_finite s c 0) (S754_finite false 100 0)
          | _ => S754_zero s
          end
        /\ 2 * Z.abs (100 * Zpos m * 2 ^ Z.max e 0
                      - Float.centi m e * 2 ^ Z.max (- e) 0)
           <= 2 ^ Z.max (- e) 0).
Proof.
  apply (buckets_rounded_once_at_end IsoProfile.fromisoformat
           (utc 2025 4 2 12 0 0) [boundary_session]).
  vm_compute. reflexivity.
Defined.

(** ** The order of the input *)

Lemma intervals_permutation P now locs locs' :
  Permutation locs locs' ->
  forall es, intervals P now locs = Ok es ->
  exists es', intervals P now locs' = Ok es' /\ Permutation es es'.
Proof.
  induction 1 as [|x l l' Hp IH|x y l|l l' l'' Hp1 IH1 Hp2 IH2]; intros es Hes.
  - exists []. simpl in Hes. injection Hes as <-. split; constructor.
  - simpl in *. destruct (interval P now x) as [e|]; simpl in *; [|discriminate].
    destruct (intervals P now l) as [es0|]; simpl in *; [|discriminate].
    injection Hes as <-. destruct (IH es0 eq_refl) as (es' & -> & Hperm).
    simpl. eexists. split; [reflexivity|]. now constructor.
  - simpl in *.
    destruct (interval P now y) as [ey|]; simpl in *; [|discriminate].
    destruct (interval P now x) as [ex|]; simpl in *; [|discriminate].
    destruct (intervals P now l) as [es0|]; simpl in *; [|discriminate].
    injection Hes as <-. eexists. split; [reflexivity|]. constructor.
  - destruct (IH1 es Hes) as (es1 & H1 & Hp1').
    destruct (IH2 es1 H1) as (es2 & H2 & Hp2').
    exists es2. split; [assumption|]. eapply Permutation_trans; eassumption.
Qed.

Lemma bucket_permutation (key_of : datetime -> string) k es es' :
  Permutation es es' ->
  Permutation (bucket key_of k es) (bucket key_of k es').
Proof.
  unfold bucket.
  induction 1 as [|x l l' Hp IH|x y l|l l' l'' Hp1 IH1 Hp2 IH2]; simpl.
  - constructor.
  - destruct (String.eqb k (key_of (fst x))); simpl; auto.
  - destruct (String.eqb k (key_of (fst x))),
             (String.eqb k (key_of (fst y))); simpl;
      auto using Permutation_refl, perm_swap.
  - eapply Permutation_trans; eassumption.
Qed.

Lemma bucket_total_none_iff ds ds' :
  Permutation ds ds' -> (bucket_total ds = None <-> bucket_total ds' = None).
Proof.
  intros Hp. destruct ds, ds'; simpl; try tauto.
  - apply Permutation_nil in Hp. discriminate.
  - apply Permutation_sym, Permutation_nil in Hp. discriminate.
  - split; discriminate.
Qed.

(** Three sessions of one day, 4, 7 and 7 seconds long, in two orders. *)
Definition session_4s : location :=
  closed_session 1 "2025-01-10T08:00:00.000Z" "2025-01-10T08:00:04.000Z".
Definition session_7s : location :=
  closed_session 2 "2025-01-10T09:00:00.000Z" "2025-01-10T09:00:07.000Z".
Definition session_7s' : location :=
  closed_session 3 "2025-01-10T10:00:00.000Z" "2025-01-10T10:00:07.000Z".

(** C3, as stated, fails: binary64 addition is not associative.  The three
    sessions add up to 18 seconds, 0.005 hours; added as 4 + 7 + 7 seconds the
    sum is the double just below 0.005 and the day rounds to 0.0, added as
    7 + 7 + 4 it is the double just above and the day rounds to 0.01. *)
Lemma order_changes_rounded_bucket :
  Permutation [session_4s; session_7s; session_7s']
    [session_7s; session_7s'; session_4s]
  /\ calculate_hours IsoProfile.fromisoformat (utc 2025 4 2 12 0 0)
       [session_4s; session_7s; session_7s']
     = Ok ([("2025-01-10", PyFloat Float.pzero)],
           [("2025-01", PyFloat Float.pzero)])
  /\ calculate_hours IsoProfile.fromisoformat (utc 2025 4 2 12 0 0)
       [session_7s; session_7s'; session_4s]
     = Ok ([("2025-01-10", PyFloat (Float.int_truediv 1 100))],
           [("2025-01", PyFloat (Float.int_truediv 1 100))]).
Proof.
  split.
  - apply Permutation_sym.
    apply (Permutation_app_comm [session_7s; session_7s'] [session_4s]).
  - split; vm_compute; reflexivity.
Qed.

(** C3, amended: for every permutation of the list the aggregator succeeds
    again, with the same daily and monthly keys, and every bucket is
    [round(x, 2)] of the sum of the same durations, added in the order in
    which the permuted list brings them; the two results agree on every
    bucket whose intervals keep their relative order, and they can differ in
    the last rounding otherwise. *)
Theorem permutation_keeps_buckets
  (P : string -> result datetime) (now : datetime)
  (locs locs' : list location) (es : list entry)
  (Hperm : Permutation locs locs')
  (Hes : intervals P now locs = Ok es) :
  exists es' daily monthly daily' monthly',
    intervals P now locs' = Ok es'
    /\ calculate_hours P now locs = Ok (daily, monthly)
    /\ calculate_hours P now locs' = Ok (daily', monthly')
    /\ (forall k,
          Permutation (bucket strftime_day k es) (bucket strftime_day k es')
          /\ Dict.get k daily
             = option_map py_round2 (bucket_total (bucket strftime_day k es))
          /\ Dict.get k daily'
             = option_map py_round2 (bucket_total (bucket strftime_day k es'))
          /\ (Dict.get k daily = None <-> Dict.get k daily' = None)
          /\ (bucket strftime_day k es = bucket strftime_day k es' ->
              Dict.get k daily = Dict.get k daily'))
    /\ (forall k,
          Permutation (bucket strftime_month k es)
            (bucket strftime_month k es')
          /\ Dict.get k monthly
             = option_map py_round2
                 (bucket_total (bucket strftime_month k es))
          /\ Dict.get k monthly'
             = option_map py_round2
                 (bucket_total (bucket strftime_month k es'))
          /\ (Dict.get k monthly = None <-> Dict.get k monthly' = None)
          /\ (bucket strftime_month k es = bucket strftime_month k es' ->
              Dict.get k monthly = Dict.get k monthly')).
Proof.
  destruct (intervals_permutation P now locs locs' Hperm es Hes)
    as (es' & Hes' & Hp).
  destruct (calculate_hours_buckets P now locs es Hes)
    as (daily & monthly & Hc & Hd & Hm).
  destruct (calculate_hours_buckets P now locs' es' Hes')
    as (daily' & monthly' & Hc' & Hd' & Hm').
  exists es', daily, monthly, daily', monthly'.
  repeat (split; [assumption|]).
  assert (Hnone : forall ds ds', Permutation ds ds' ->
            (option_map py_round2 (bucket_total ds) = None
             <-> option_map py_round2 (bucket_total ds') = None)).
  { intros ds ds' Hds. pose proof (bucket_total_none_iff ds ds' Hds) as Hiff.
    destruct (bucket_total ds), (bucket_total ds'); simpl;
      split; intros Hx; try reflexivity; try discriminate;
      exfalso; destruct Hiff as [H1 H2];
      try (discriminate (H1 eq_refl)); try (discriminate (H2 eq_refl)). }
  split; intros k.
  - pose proof (bucket_permutation strftime_day k es es' Hp) as Hb.
    split; [assumption|]. split; [apply Hd|]. split; [apply Hd'|]. split.
    + rewrite Hd, Hd'. apply Hnone; assumption.
    + intros Heq. rewrite Hd, Hd', Heq. reflexivity.
  - pose proof (bucket_permutation strftime_month k es es' Hp) as Hb.
    split; [assumption|]. split; [apply Hm|]. split; [apply Hm'|]. split.
    + rewrite Hm, Hm'. apply Hnone; assumption.
    + intros Heq. rewrite Hm, Hm', Heq. reflexivity.
Qed.

Lemma permutation_keeps_buckets_witness :
  exists es' daily monthly daily' monthly',
    intervals IsoProfile.fromisoformat (utc 2025 4 2 12 0 0)
      [session_4s; boundary_session] = Ok es'
    /\ calculate_hours IsoProfile.fromisoformat (utc 2025 4 2 12 0 0)
         [boundary_session; session_4s] = Ok (daily, monthly)
    /\ calculate_hours IsoProfile.fromisoformat (utc 2025 4 2 12 0 0)
         [session_4s; boundary_session] = Ok (daily', monthly')
    /\ (forall k,
          Permutation
            (bucket strftime_day k
               [(utc 2025 3 31 23 0 0, Float.of_Z 2);
                (utc 2025 1 10 8 0 0, hours_of 4000000)])
            (bucket strftime_day k es')
          /\ Dict.get k daily
             = option_map py_round2
                 (bucket_total
                    (bucket strftime_day k
                       [(utc 2025 3 31 23 0 0, Float.of_Z 2);
                        (utc 2025 1 10 8 0 0, hours_of 4000000)]))
          /\ Dict.get k daily'
             = option_map py_round2 (bucket_total (bucket strftime_day k es'))
          /\ (Dict.get k daily = None <-> Dict.get k daily' = None)
          /\ (bucket strftime_day k
                [(utc 2025 3 31 23 0 0, Float.of_Z 2);
                 (utc 2025 1 10 8 0 0, hours_of 4000000)]
              = bucket strftime_day k es' ->
              Dict.get k daily = Dict.get k daily'))
    /\ (forall k,
          Permutation
            (bucket strftime_month k
               [(utc 2025 3 31 23 0 0, Float.of_Z 2);
                (utc 2025 1 10 8 0 0, hours_of 4000000)])
            (bucket strftime_month k es')
          /\ Dict.get k monthly
             = option_map py_round2
                 (bucket_total
                    (bucket strftime_month k
                       [(utc 2025 3 31 23 0 0, Float.of_Z 2);
                        (utc 2025 1 10 8 0 0, hours_of 4000000)]))
          /\ Dict.get k monthly'
             = option_map py_round2
                 (bucket_total (bucket strftime_month k es'))
          /\ (Dict.get k monthly = None <-> Dict.get k monthly' = None)
          /\ (bucket strftime_month k
                [(utc 2025 3 31 23 0 0, Float.of_Z 2);
                 (utc 2025 1 10 8 0 0, hours_of 4000000)]
              = bucket strftime_month k es' ->
              Dict.get k monthly = Dict.get k monthly')).
Proof.
  apply (permutation_keeps_buckets IsoProfile.fromisoformat
           (utc 2025 4 2 12 0 0) [boundary_session; session_4s]
           [session_4s; boundary_session]).
  - apply perm_swap.
  - vm_compute. reflexivity.
Defined.


(** * Further properties of the code *)

(** ** Binary64 division, away from overflow and underflow

    The quotients of the program are far from the ends of the exponent
    range: a timedelta of [datetime] is below [2^60] microseconds.  There
    [SFdiv] is one rounding, half to even, of the exact quotient to 53 bits,
    which is what the lemmas below establish from the definition of
    [SpecFloat], for dividends up to [2^73]. *)

Module Rounding.

(** Number of binary digits *)
Definition ndigits (p : positive) : Z := Zpos (digits2_pos p).

Lemma ndigits_bounds p : 2 ^ (ndigits p - 1) <= Zpos p < 2 ^ ndigits p.
Proof.
  unfold ndigits. induction p as [p IH|p IH|]; simpl digits2_pos.
  - rewrite Pos2Z.inj_succ.
    replace (Z.succ (Zpos (digits2_pos p)) - 1) with (Z.succ (Zpos (digits2_pos p) - 1)) by lia.
    rewrite !Z.pow_succ_r by lia. lia.
  - rewrite Pos2Z.inj_succ.
    replace (Z.succ (Zpos (digits2_pos p)) - 1) with (Z.succ (Zpos (digits2_pos p) - 1)) by lia.
    rewrite !Z.pow_succ_r by lia. lia.
  - simpl. lia.
Qed.

Lemma ndigits_pos p : 1 <= ndigits p.
Proof. unfold ndigits. lia. Qed.

Lemma ndigits_unique p k : 2 ^ (k - 1) <= Zpos p < 2 ^ k -> ndigits p = k.
Proof.
  intros [Hlo Hhi]. pose proof (ndigits_bounds p) as [Blo Bhi].
  pose proof (ndigits_pos p).
  assert (0 < k).
  { destruct (Z.lt_trichotomy k 0) as [Hn|[Hz|Hp]]; auto.
    - rewrite (Z.pow_neg_r 2 k Hn) in Hhi. lia.
    - subst k. simpl in Hhi. lia. }
  destruct (Z.lt_trichotomy (ndigits p) k) as [Hl|[He|Hg]]; auto; exfalso.
  - assert (2 ^ ndigits p <= 2 ^ (k - 1)) by (apply Z.pow_le_mono_r; lia). lia.
  - assert (2 ^ k <= 2 ^ (ndigits p - 1)) by (apply Z.pow_le_mono_r; lia). lia.
Qed.

Lemma rhe_unfold n d :
  Float.round_half_even n d = match 2 * (n mod d) ?= d with
            | Lt => n / d
            | Gt => n / d + 1
            | Eq => if Z.even (n / d) then n / d else n / d + 1
            end.
Proof. reflexivity. Qed.

Lemma rhe_bounds n d : 0 < d -> n / d <= Float.round_half_even n d <= n / d + 1.
Proof.
  intros Hd. rewrite rhe_unfold.
  destruct (2 * (n mod d) ?= d); try destruct (Z.even (n / d)); lia.
Qed.



Lemma rhe_range n d lo :
  0 < d -> lo * d <= n < (2 * lo) * d -> lo <= Float.round_half_even n d <= 2 * lo.
Proof.
  intros Hd [Hlo Hhi]. pose proof (rhe_bounds n d Hd) as [B1 B2].
  assert (lo <= n / d) by (apply Z.div_le_lower_bound; lia).
  assert (n / d < 2 * lo) by (apply Z.div_lt_upper_bound; lia).
  lia.
Qed.

Lemma new_location_spec d r :
  0 <= r < d ->
  new_location d r = if r =? 0 then loc_Exact else loc_Inexact (2 * r ?= d).
Proof.
  intros Hr. unfold new_location, new_location_even, new_location_odd.
  destruct (Z.even d) eqn:Hev; [reflexivity|].
  destruct (r =? 0); [reflexivity|]. f_equal.
  assert (Hodd : Z.odd d = true) by (rewrite <- Z.negb_even, Hev; reflexivity).
  apply Z.odd_spec in Hodd. destruct Hodd as [k Hk].
  destruct (Z.compare_spec (2 * r + 1) d), (Z.compare_spec (2 * r) d);
    try reflexivity; lia.
Qed.

(** Rounding the quotient at its own exponent. *)
Lemma round_quotient n d :
  0 <= n -> 0 < d ->
  round_nearest_even (n / d) (new_location d (n mod d)) = Float.round_half_even n d.
Proof.
  intros Hn Hd. pose proof (Z.mod_pos_bound n d Hd) as Hr.
  rewrite new_location_spec by assumption. rewrite rhe_unfold.
  destruct (Z.eqb_spec (n mod d) 0) as [Hz|Hnz].
  - destruct (Z.compare_spec (2 * (n mod d)) d); try lia. reflexivity.
  - simpl. destruct (2 * (n mod d) ?= d); reflexivity.
Qed.

(** Rounding the quotient one binary place higher. *)
Lemma round_quotient_shr n d :
  0 <= n -> 0 < d -> 2 <= n / d ->
  let mrs := shr_1 (shr_record_of_loc (n / d) (new_location d (n mod d))) in
  round_nearest_even (shr_m mrs) (loc_of_shr_record mrs) = Float.round_half_even n (2 * d).
Proof.
  intros Hn Hd Hq. pose proof (Z.mod_pos_bound n d Hd) as Hr.
  pose proof (Z.div_mod n d ltac:(lia)) as Hnd.
  rewrite new_location_spec by assumption.
  set (q := n / d) in *. set (r := n mod d) in *.
  assert (Hdiv : n / (2 * d) = q / 2).
  { rewrite (Z.mul_comm 2 d). rewrite <- Z.div_div by lia. reflexivity. }
  pose proof (Z.div_mod q 2 ltac:(lia)) as Hq2.
  pose proof (Z.mod_pos_bound q 2 ltac:(lia)) as Hq2b.
  assert (Hmod : n mod (2 * d) = (q mod 2) * d + r).
  { symmetry. apply Z.mod_unique with (q := q / 2); [left; nia|nia]. }
  cbv zeta. rewrite rhe_unfold, Hdiv, Hmod.
  destruct q as [|p|p]; try lia.
  destruct p as [p|p|]; try lia.
  - (* q odd *)
    replace (Zpos p~1 mod 2) with 1 in * by (rewrite Pos2Z.inj_xI, Z.add_comm, Z.mul_comm, Z.mod_add; [reflexivity|lia]).
    replace (Zpos p~1 / 2) with (Zpos p) in * by lia.
    destruct (Z.eqb_spec r 0) as [Hz|Hnz];
      destruct (Z.compare_spec (2 * r) d);
      destruct (Z.compare_spec (2 * (1 * d + r)) (2 * d)); try lia;
      reflexivity.
  - (* q even *)
    replace (Zpos p~0 mod 2) with 0 in * by (rewrite Pos2Z.inj_xO, Z.mul_comm, Z.mod_mul; [reflexivity|lia]).
    replace (Zpos p~0 / 2) with (Zpos p) in * by lia.
    destruct (Z.eqb_spec r 0) as [Hz|Hnz];
      destruct (Z.compare_spec (2 * r) d);
      destruct (Z.compare_spec (2 * (0 * d + r)) (2 * d)); try lia;
      reflexivity.
Qed.

Definition p52 : Z := 4503599627370496.
Definition p53 : Z := 9007199254740992.
Definition p54 : Z := 18014398509481984.

Lemma p52_eq : p52 = 2 ^ 52. Proof. reflexivity. Qed.
Lemma p53_eq : p53 = 2 ^ 53. Proof. reflexivity. Qed.
Lemma p54_eq : p54 = 2 ^ 54. Proof. reflexivity. Qed.

(** The finite double of sign [sgn] with value [M * 2^E], for
    [2^52 <= M <= 2^53]. *)
Definition norm (sgn : bool) (M E : Z) : spec_float :=
  if M =? p53 then S754_finite sgn 4503599627370496 (E + 1)
  else S754_finite sgn (Z.to_pos M) E.

Lemma fexp_normal x : -1021 <= x -> fexp 53 1024 x = x - 53.
Proof. intros Hx. unfold fexp, emin. lia. Qed.

Lemma ndigits_53 p : p52 <= Zpos p < p53 -> ndigits p = 53.
Proof. intros H. apply ndigits_unique. exact H. Qed.

Lemma ndigits_54 p : p53 <= Zpos p < p54 -> ndigits p = 54.
Proof. intros H. apply ndigits_unique. exact H. Qed.

Lemma round_second_phase sx M E :
  p52 <= M <= p53 -> -1074 <= E <= 970 ->
  (let '(mrs, e) := shr_fexp 53 1024 M E loc_Exact in
   match shr_m mrs with
   | Z0 => S754_zero sx
   | Zpos m => if e <=? 1024 - 53 then S754_finite sx m e else S754_infinity sx
   | Zneg _ => S754_nan
   end) = norm sx M E.
Proof.
  intros HM HE. unfold norm.
  destruct (Z.eqb_spec M p53) as [->|Hne].
  - unfold shr_fexp. change (Zdigits2 p53) with 54.
    rewrite fexp_normal by lia.
    replace (54 + E - 53 - E) with 1 by lia.
    cbn -[Z.add Z.leb Z.sub]. 
    replace (E + 1 <=? 1024 - 53) with true by (symmetry; apply Z.leb_le; lia).
    reflexivity.
  - destruct M as [|p|p]; try (unfold p52 in HM; lia).
    unfold shr_fexp. change (Zdigits2 (Zpos p)) with (ndigits p).
    rewrite (ndigits_53 p) by lia.
    rewrite fexp_normal by lia.
    replace (53 + E - 53 - E) with 0 by lia.
    cbn -[Z.add Z.leb Z.sub].
    replace (E <=? 1024 - 53) with true by (symmetry; apply Z.leb_le; lia).
    reflexivity.
Qed.

Lemma round_nearest_even_bounds m l :
  m <= round_nearest_even m l <= m + 1.
Proof.
  unfold round_nearest_even.
  destruct l as [|[| |]]; try destruct (Z.even m); lia.
Qed.

Lemma binary_round_aux_normal sx q e L :
  p52 <= q < p54 -> -1074 <= e <= 969 ->
  binary_round_aux 53 1024 sx q e L
  = if q <? p53 then norm sx (round_nearest_even q L) e
    else
      let mrs := shr_1 (shr_record_of_loc q L) in
      norm sx (round_nearest_even (shr_m mrs) (loc_of_shr_record mrs)) (e + 1).
Proof.
  intros Hq He. unfold binary_round_aux.
  destruct q as [|p|p]; try (unfold p52 in Hq; lia).
  destruct (Z.ltb_spec (Zpos p) p53) as [Hlt|Hge].
  - unfold shr_fexp at 1. change (Zdigits2 (Zpos p)) with (ndigits p).
    rewrite (ndigits_53 p) by lia. rewrite fexp_normal by lia.
    replace (53 + e - 53 - e) with 0 by lia.
    cbn [shr].
    assert (Hloc : loc_of_shr_record (shr_record_of_loc (Zpos p) L) = L)
      by (destruct L as [|[| |]]; reflexivity).
    assert (Hm : shr_m (shr_record_of_loc (Zpos p) L) = Zpos p)
      by (destruct L as [|[| |]]; reflexivity).
    rewrite Hloc, Hm.
    apply round_second_phase; [|lia].
    pose proof (round_nearest_even_bounds (Zpos p) L). lia.
  - unfold shr_fexp at 1. change (Zdigits2 (Zpos p)) with (ndigits p).
    rewrite (ndigits_54 p) by lia. rewrite fexp_normal by lia.
    replace (54 + e - 53 - e) with 1 by lia.
    cbn [shr iter_pos]. cbv zeta.
    set (mrs := shr_1 (shr_record_of_loc (Zpos p) L)).
    apply round_second_phase; [|lia].
    assert (Hm : shr_m mrs = Zpos p / 2).
    { subst mrs. destruct L as [|[| |]]; destruct p;
        cbn [shr_1 shr_record_of_loc shr_m orb];
        rewrite ?(Pos2Z.inj_xI p), ?(Pos2Z.inj_xO p); unfold p53 in Hge;
        try lia; clear;
        [apply Z.div_unique with (r := 1); lia
        |apply Z.div_unique with (r := 0); lia
        |apply Z.div_unique with (r := 1); lia
        |apply Z.div_unique with (r := 0); lia
        |apply Z.div_unique with (r := 1); lia
        |apply Z.div_unique with (r := 0); lia
        |apply Z.div_unique with (r := 1); lia
        |apply Z.div_unique with (r := 0); lia]. }
    pose proof (round_nearest_even_bounds (shr_m mrs) (loc_of_shr_record mrs)).
    rewrite Hm in *.
    assert (p52 <= Zpos p / 2) by (apply Z.div_le_lower_bound; unfold p52, p53 in *; lia).
    assert (Zpos p / 2 < p53) by (apply Z.div_lt_upper_bound; unfold p53, p54 in *; lia).
    lia.
Qed.

Lemma div_eucl_div_mod a b :
  Z.div_eucl a b = (a / b, a mod b).
Proof. unfold Z.div, Z.modulo. destruct (Z.div_eucl a b); reflexivity. Qed.

Lemma quotient_range (m1 m2 : positive) :
  let s := 53 - ndigits m1 + ndigits m2 in
  0 <= s ->
  p52 <= Zpos m1 * 2 ^ s / Zpos m2 < p54.
Proof.
  intros s Hs.
  pose proof (ndigits_bounds m1) as [L1 U1].
  pose proof (ndigits_bounds m2) as [L2 U2].
  pose proof (ndigits_pos m1). pose proof (ndigits_pos m2).
  assert (Hps : 0 < 2 ^ s) by (apply Z.pow_pos_nonneg; lia).
  assert (E1 : 2 ^ (ndigits m1 - 1) * 2 ^ s = p52 * 2 ^ ndigits m2).
  { rewrite p52_eq, <- !Z.pow_add_r by lia. f_equal. subst s. lia. }
  assert (E2 : 2 ^ ndigits m1 * 2 ^ s = p54 * 2 ^ (ndigits m2 - 1)).
  { rewrite p54_eq, <- !Z.pow_add_r by lia. f_equal. subst s. lia. }
  split.
  - apply Z.div_le_lower_bound; [lia|]. unfold p52 in *. nia.
  - apply Z.div_lt_upper_bound; [lia|]. unfold p54 in *. nia.
Qed.

(** The quotient of two finite doubles (or of two integers written as
    mantissas), away from overflow and underflow: one rounding, half to
    even, of the exact quotient scaled to 53 bits. *)
Lemma div_normal (s1 s2 : bool) (m1 m2 : positive) (e1 e2 : Z) :
  let s := 53 - ndigits m1 + ndigits m2 in
  let N := Zpos m1 * 2 ^ s in
  let e := e1 - e2 - s in
  0 <= s ->
  -1074 <= e <= 969 ->
  SFdiv 53 1024 (S754_finite s1 m1 e1) (S754_finite s2 m2 e2)
  = if N / Zpos m2 <? p53
    then norm (xorb s1 s2) (Float.round_half_even N (Zpos m2)) e
    else norm (xorb s1 s2) (Float.round_half_even N (2 * Zpos m2)) (e + 1).
Proof.
  intros s N e Hs He.
  pose proof (quotient_range m1 m2 Hs) as Hq. fold s in Hq. fold N in Hq.
  unfold SFdiv, SFdiv_core_binary.
  change (Zdigits2 (Zpos m1)) with (ndigits m1).
  change (Zdigits2 (Zpos m2)) with (ndigits m2).
  rewrite fexp_normal by (subst e s; lia).
  replace (Z.min (ndigits m1 + e1 - (ndigits m2 + e2) - 53) (e1 - e2))
    with e by (subst e s; lia).
  replace (e1 - e2 - e) with s by (subst e; lia).
  assert (Hm' : match s with
                | 0 => Zpos m1
                | Zpos _ => Z.shiftl (Zpos m1) s
                | Zneg _ => 0
                end = N).
  { subst N. destruct s as [|p|p] eqn:Es.
    - rewrite Z.pow_0_r. lia.
    - apply Z.shiftl_mul_pow2. lia.
    - lia. }
  rewrite Hm', div_eucl_div_mod.
  assert (HN : 0 <= N) by (subst N; apply Z.mul_nonneg_nonneg; [lia|apply Z.pow_nonneg; lia]).
  rewrite binary_round_aux_normal by assumption.
  destruct (N / Zpos m2 <? p53).
  - rewrite round_quotient by lia. reflexivity.
  - cbv zeta. rewrite round_quotient_shr; [reflexivity|lia|lia|].
    unfold p52 in Hq. lia.
Qed.


(** Mantissa and exponent of a quotient [N / d * 2^e] that has 53 or 54
    bits before the rounding. *)
Definition quot (N d e : Z) : Z * Z :=
  if N / d <? p53 then (Float.round_half_even N d, e) else (Float.round_half_even N (2 * d), e + 1).

(** The same value with a mantissa below [2^53]. *)
Definition canon (ME : Z * Z) : Z * Z :=
  if fst ME =? p53 then (p52, snd ME + 1) else ME.


Lemma norm_canon sgn M E :
  norm sgn M E
  = S754_finite sgn (Z.to_pos (fst (canon (M, E)))) (snd (canon (M, E))).
Proof.
  unfold norm, canon. simpl fst. simpl snd.
  destruct (M =? p53); reflexivity.
Qed.

Lemma canon_range ME :
  p52 <= fst ME <= p53 -> p52 <= fst (canon ME) < p53.
Proof.
  unfold canon. destruct (Z.eqb_spec (fst ME) p53); simpl; unfold p52, p53 in *; lia.
Qed.


Lemma quot_bracket N d e :
  0 < d -> p52 * d <= N < p54 * d ->
  exists n, (n = 0 \/ n = 1)
            /\ quot N d e = (Float.round_half_even N (d * 2 ^ n), e + n)
            /\ p52 * (d * 2 ^ n) <= N < p53 * (d * 2 ^ n).
Proof.
  intros Hd [Hlo Hhi]. unfold quot.
  destruct (Z.ltb_spec (N / d) p53) as [Hlt|Hge].
  - exists 0. split; [auto|]. rewrite Z.pow_0_r, Z.mul_1_r, Z.add_0_r.
    split; [reflexivity|]. split; [assumption|].
    pose proof (Z.div_mod N d ltac:(lia)) as Hdm.
    pose proof (Z.mod_pos_bound N d Hd) as Hmb. nia.
  - exists 1. split; [auto|]. rewrite Z.pow_1_r, (Z.mul_comm d 2).
    split; [reflexivity|].
    assert (p53 * d <= N).
    { pose proof (Z.mul_div_le N d Hd). nia. }
    unfold p52, p53, p54 in *. lia.
Qed.

Lemma quot_range N d e :
  0 < d -> p52 * d <= N < p54 * d -> p52 <= fst (quot N d e) <= p53.
Proof.
  intros Hd HN. destruct (quot_bracket N d e Hd HN) as (n & Hn & -> & Hb).
  simpl. change p53 with (2 * p52).
  apply rhe_range.
  - apply Z.mul_pos_pos; [assumption|apply Z.pow_pos_nonneg; lia].
  - change (2 * p52) with p53. lia.
Qed.


Lemma div_normal_canon (s1 s2 : bool) (m1 m2 : positive) (e1 e2 : Z) :
  let s := 53 - ndigits m1 + ndigits m2 in
  let r := canon (quot (Zpos m1 * 2 ^ s) (Zpos m2) (e1 - e2 - s)) in
  0 <= s ->
  -1074 <= e1 - e2 - s <= 969 ->
  SFdiv 53 1024 (S754_finite s1 m1 e1) (S754_finite s2 m2 e2)
  = S754_finite (xorb s1 s2) (Z.to_pos (fst r)) (snd r).
Proof.
  intros s r Hs He. subst r. rewrite div_normal by assumption.
  fold s. unfold quot.
  destruct (Zpos m1 * 2 ^ s / Zpos m2 <? p53); rewrite norm_canon; reflexivity.
Qed.



Lemma ndigits_le_73 a : Zpos a < 2 ^ 73 -> ndigits a <= 73.
Proof.
  intros Ha. pose proof (ndigits_bounds a) as [Hlo _].
  pose proof (ndigits_pos a).
  destruct (Z_le_gt_dec (ndigits a) 73) as [|Hgt]; [assumption|exfalso].
  assert (2 ^ 73 <= 2 ^ (ndigits a - 1)) by (apply Z.pow_le_mono_r; lia).
  lia.
Qed.

Definition micro : positive := 1000000.
Definition mant3600 : positive := 7916483719987200.

Lemma of_Z_3600 : Float.of_Z 3600 = S754_finite false mant3600 (-41).
Proof. vm_compute. reflexivity. Qed.

(** Mantissa and exponent of [a / 10**6] and of [a / 10**6 / 3600], for a
    positive number of microseconds. *)
Definition seconds_pair (a : positive) : Z * Z :=
  let s := 73 - ndigits a in
  canon (quot (Zpos a * 2 ^ s) (Zpos micro) (- s)).

Definition hours_pair (a : positive) : Z * Z :=
  let sp := seconds_pair a in
  canon (quot (fst sp * 2 ^ 53) (Zpos mant3600) (snd sp - 12)).

Lemma seconds_numerator a :
  Zpos a < 2 ^ 73 ->
  let s := 73 - ndigits a in
  0 <= s <= 72
  /\ p52 * Zpos micro <= Zpos a * 2 ^ s < p54 * Zpos micro.
Proof.
  intros Ha s. pose proof (ndigits_le_73 a Ha). pose proof (ndigits_pos a).
  assert (Hs : 0 <= s <= 72) by (subst s; lia).
  split; [assumption|].
  pose proof (quotient_range a micro) as Hq.
  change (ndigits micro) with 20 in Hq.
  replace (53 - ndigits a + 20) with s in Hq by (subst s; lia).
  specialize (Hq ltac:(lia)). cbv zeta in Hq. destruct Hq as [Hlo Hhi].
  assert (Hd : 0 < Zpos micro) by lia.
  split.
  - pose proof (Z.mul_div_le (Zpos a * 2 ^ s) (Zpos micro) Hd). nia.
  - pose proof (Z.div_mod (Zpos a * 2 ^ s) (Zpos micro) ltac:(lia)) as Hdm.
    pose proof (Z.mod_pos_bound (Zpos a * 2 ^ s) (Zpos micro) Hd) as Hmb.
    unfold p54 in *. nia.
Qed.

Lemma seconds_pair_range a :
  Zpos a < 2 ^ 73 ->
  p52 <= fst (seconds_pair a) < p53 /\ -72 <= snd (seconds_pair a) <= 2.
Proof.
  intros Ha. destruct (seconds_numerator a Ha) as [Hs HN].
  unfold seconds_pair. cbv zeta.
  set (s := 73 - ndigits a) in *.
  pose proof (quot_range (Zpos a * 2 ^ s) (Zpos micro) (- s) ltac:(lia) HN) as Hq.
  split; [apply canon_range; assumption|].
  destruct (quot_bracket (Zpos a * 2 ^ s) (Zpos micro) (- s) ltac:(lia) HN)
    as (n & Hn & Heq & _).
  unfold canon. rewrite Heq. cbn [fst snd].
  destruct (_ =? p53); cbn [fst snd]; lia.
Qed.

(** [a / 10**6] for a nonzero integer below [2^73] in absolute value is a
    normal double of the sign of [a]. *)
Lemma div_micro sgn a :
  Zpos a < 2 ^ 73 ->
  Float.div (S754_finite sgn a 0) (S754_finite false micro 0)
  = S754_finite sgn (Z.to_pos (fst (seconds_pair a))) (snd (seconds_pair a)).
Proof.
  intros Ha. destruct (seconds_numerator a Ha) as [Hs HN].
  unfold Float.div, Float.prec, Float.emax.
  pose proof (div_normal_canon sgn false a micro 0 0) as Hdiv.
  change (ndigits micro) with 20 in Hdiv.
  replace (53 - ndigits a + 20) with (73 - ndigits a) in Hdiv by lia.
  cbv zeta in Hdiv. rewrite Hdiv by lia.
  rewrite Bool.xorb_false_r. unfold seconds_pair. cbv zeta.
  replace (0 - 0 - (73 - ndigits a)) with (- (73 - ndigits a)) by lia.
  reflexivity.
Qed.


Lemma div_3600 sgn a :
  Zpos a < 2 ^ 73 ->
  Float.div
    (S754_finite sgn (Z.to_pos (fst (seconds_pair a))) (snd (seconds_pair a)))
    (Float.of_Z 3600)
  = S754_finite sgn (Z.to_pos (fst (hours_pair a))) (snd (hours_pair a)).
Proof.
  intros Ha. destruct (seconds_pair_range a Ha) as [Hm He].
  rewrite of_Z_3600. unfold Float.div, Float.prec, Float.emax.
  set (m := Z.to_pos (fst (seconds_pair a))).
  assert (Em : Zpos m = fst (seconds_pair a))
    by (subst m; apply Z2Pos.id; unfold p52 in Hm; lia).
  pose proof (div_normal_canon sgn false m mant3600 (snd (seconds_pair a))
                (-41)) as Hdiv.
  assert (Dm : ndigits m = 53) by (apply ndigits_53; rewrite Em; assumption).
  change (ndigits mant3600) with 53 in Hdiv. rewrite Dm in Hdiv.
  replace (53 - 53 + 53) with 53 in Hdiv by lia.
  cbv zeta in Hdiv. rewrite Hdiv by lia.
  rewrite Bool.xorb_false_r, Em. unfold hours_pair. cbv zeta.
  replace (snd (seconds_pair a) - -41 - 53) with (snd (seconds_pair a) - 12)
    by lia.
  reflexivity.
Qed.





(** [hours_of] of a nonzero number of microseconds below [2^73] in absolute
    value: a normal double of the same sign, the same mantissa and exponent
    for [td] and [- td]. *)
Lemma hours_of_finite (sgn : bool) (a : positive) :
  Zpos a < 2 ^ 73 ->
  hours_of (if sgn then Zneg a else Zpos a)
  = S754_finite sgn (Z.to_pos (fst (hours_pair a))) (snd (hours_pair a)).
Proof.
  intros Ha. unfold hours_of, total_seconds, Float.int_truediv.
  destruct sgn; change 1000000%positive with micro;
    rewrite div_micro by assumption; apply div_3600; assumption.
Qed.

Lemma total_seconds_finite (sgn : bool) (a : positive) :
  Zpos a < 2 ^ 73 ->
  total_seconds (if sgn then Zneg a else Zpos a)
  = S754_finite sgn (Z.to_pos (fst (seconds_pair a))) (snd (seconds_pair a)).
Proof.
  intros Ha. unfold total_seconds, Float.int_truediv.
  destruct sgn; change 1000000%positive with micro; apply div_micro; assumption.
Qed.



(** The sign of the hours is the sign of the timedelta. *)
Lemma hours_of_sign (td : Z) :
  - 2 ^ 73 < td < 2 ^ 73 ->
  match td with
  | Z0 => hours_of td = Float.pzero
  | Zpos _ => Float.ltb Float.pzero (hours_of td) = true
  | Zneg _ => Float.ltb (hours_of td) Float.pzero = true
  end.
Proof.
  intros Htd. destruct td as [|a|a].
  - reflexivity.
  - rewrite (hours_of_finite false a) by lia. reflexivity.
  - rewrite (hours_of_finite true a) by lia. reflexivity.
Qed.

Lemma hours_of_opp (td : Z) :
  td <> 0 -> - 2 ^ 73 < td < 2 ^ 73 ->
  hours_of (- td) = SFopp (hours_of td).
Proof.
  intros Hnz Htd. destruct td as [|a|a]; [congruence| |].
  - change (- Zpos a) with (Zneg a).
    rewrite (hours_of_finite true a), (hours_of_finite false a) by lia.
    reflexivity.
  - change (- Zneg a) with (Zpos a).
    rewrite (hours_of_finite true a), (hours_of_finite false a) by lia.
    reflexivity.
Qed.

End Rounding.

(** ** Datetimes in the range of Python *)

(** The fields of a [datetime] that Python can build, with an offset
    strictly between minus and plus 24 hours. *)
Definition datetime_ok (d : datetime) : Prop :=
  1 <= year d <= 9999 /\ 1 <= month d <= 12 /\ 1 <= day d <= 31
  /\ 0 <= hour d <= 23 /\ 0 <= minute d <= 59 /\ 0 <= second d <= 59
  /\ 0 <= microsecond d <= 999999
  /\ match utcoffset d with
     | Some off => - 86400000000 < off < 86400000000
     | None => True
     end.

Lemma days_before_month_range y m :
  1 <= m <= 12 -> 0 <= Calendar.days_before_month y m <= 335.
Proof.
  intros Hm. unfold Calendar.days_before_month.
  assert (Hb : 0 <= Calendar.DAYS_BEFORE_MONTH m <= 334).
  { assert (Hc : m = 1 \/ m = 2 \/ m = 3 \/ m = 4 \/ m = 5 \/ m = 6 \/ m = 7
                 \/ m = 8 \/ m = 9 \/ m = 10 \/ m = 11 \/ m = 12) by lia.
    repeat (destruct Hc as [->|Hc]; [simpl; lia|]). subst m. simpl. lia. }
  destruct ((2 <? m) && Calendar.is_leap y); lia.
Qed.

Lemma days_before_year_range y :
  1 <= y <= 9999 -> 0 <= Calendar.days_before_year y <= 3651695.
Proof.
  intros Hy. unfold Calendar.days_before_year. cbv zeta.
  pose proof (Z.div_mod (y - 1) 4 ltac:(lia)).
  pose proof (Z.mod_pos_bound (y - 1) 4 ltac:(lia)).
  pose proof (Z.div_mod (y - 1) 100 ltac:(lia)).
  pose proof (Z.mod_pos_bound (y - 1) 100 ltac:(lia)).
  pose proof (Z.div_mod (y - 1) 400 ltac:(lia)).
  pose proof (Z.mod_pos_bound (y - 1) 400 ltac:(lia)).
  lia.
Qed.

Lemma utc_micros_range d :
  datetime_ok d -> 0 < utc_micros d < 576460752303423488.
Proof.
  intros (Hy & Hm & Hd & Hh & Hmi & Hs & Hus & Hoff).
  unfold utc_micros, wall_micros, toordinal, Calendar.ymd2ord.
  pose proof (days_before_year_range (year d) Hy).
  pose proof (days_before_month_range (year d) (month d) Hm).
  destruct (utcoffset d); lia.
Qed.

(** The difference of two instants of [datetime] is far below [2^73]
    microseconds. *)
Lemma timedelta_range a b :
  datetime_ok a -> datetime_ok b ->
  - 2 ^ 73 < utc_micros a - utc_micros b < 2 ^ 73.
Proof.
  intros Ha Hb.
  pose proof (utc_micros_range a Ha). pose proof (utc_micros_range b Hb).
  change (2 ^ 73) with 9444732965739290427392. lia.
Qed.

Lemma dt_sub_aware a b oa ob :
  utcoffset a = Some oa -> utcoffset b = Some ob ->
  dt_sub a b = Ok (utc_micros a - utc_micros b).
Proof.
  intros Ha Hb. unfold dt_sub, utc_micros. rewrite Ha, Hb. f_equal. lia.
Qed.

(** The interval of a session whose [end_at] is falsy runs to [now]. *)
Lemma interval_open P now loc b td :
  truthy (end_at loc) = false ->
  parse_timestamp P (begin_at loc) = Ok b ->
  dt_sub now b = Ok td ->
  interval P now loc = Ok (b, hours_of td).
Proof.
  intros Hopen Hb Htd. unfold interval. rewrite Hb. simpl.
  destruct (end_at loc) as [[|c s]|]; try discriminate;
    simpl; rewrite Htd; reflexivity.
Qed.

(** The interval of a session with an [end_at]. *)
Lemma interval_closed P now loc b e td c s :
  end_at loc = Some (String c s) ->
  parse_timestamp P (begin_at loc) = Ok b ->
  parse_timestamp P (String c s) = Ok e ->
  dt_sub e b = Ok td ->
  interval P now loc = Ok (b, hours_of td).
Proof.
  intros Hend Hb He Htd. unfold interval. rewrite Hb, Hend. simpl.
  rewrite He. simpl. rewrite Htd. reflexivity.
Qed.

(** ** Open sessions and the clock *)



(** X2: an interval whose end precedes its begin is not rejected: the loop
    of [calculate_hours] computes a duration that is a negative double and
    goes on, so a list whose other intervals are well formed is aggregated
    without an error, the negative hours included. *)
Theorem reversed_interval_is_negative
  (P : string -> result datetime) (now : datetime)
  (before after : list location) (loc : location)
  (es1 es2 : list entry) (b e : datetime) (ob oe : Z) (c : ascii) (s : string)
  (Hend : end_at loc = Some (String c s))
  (Hb : parse_timestamp P (begin_at loc) = Ok b)
  (He : parse_timestamp P (String c s) = Ok e)
  (Hob : utcoffset b = Some ob) (Hoe : utcoffset e = Some oe)
  (Hrb : datetime_ok b) (Hre : datetime_ok e)
  (Hrev : utc_micros e < utc_micros b)
  (H1 : intervals P now before = Ok es1)
  (H2 : intervals P now after = Ok es2) :
  let d := hours_of (utc_micros e - utc_micros b) in
  Float.ltb d Float.pzero = true
  /\ interval P now loc = Ok (b, d)
  /\ intervals P now (before ++ loc :: after)%list
     = Ok (es1 ++ (b, d) :: es2)%list
  /\ exists daily monthly,
       calculate_hours P now (before ++ loc :: after)%list
       = Ok (daily, monthly).
Proof.
  intros d.
  assert (Hi : interval P now loc = Ok (b, d)).
  { eapply interval_closed; eauto. eapply dt_sub_aware; eassumption. }
  assert (Hall : intervals P now (before ++ loc :: after)%list
                 = Ok (es1 ++ (b, d) :: es2)%list).
  { rewrite intervals_app, H1. simpl. rewrite Hi. simpl. rewrite H2.
    reflexivity. }
  split; [|split; [assumption|split; [assumption|]]].
  - pose proof (timedelta_range e b Hre Hrb) as Hr.
    pose proof (Rounding.hours_of_sign (utc_micros e - utc_micros b) Hr) as Hs.
    destruct (utc_micros e - utc_micros b) eqn:E; try lia. exact Hs.
  - destruct (calculate_hours_buckets P now _ _ Hall) as (dl & ml & Hc & _).
    eauto.
Qed.

Lemma reversed_interval_is_negative_witness :
  let d := hours_of (utc_micros (utc 2025 1 10 8 0 0)
                     - utc_micros (utc 2025 1 10 9 0 0)) in
  Float.ltb d Float.pzero = true
  /\ interval IsoProfile.fromisoformat (utc 2025 4 2 12 0 0)
       (closed_session 9 "2025-01-10T09:00:00Z" "2025-01-10T08:00:00Z")
     = Ok (utc 2025 1 10 9 0 0, d)
  /\ intervals IsoProfile.fromisoformat (utc 2025 4 2 12 0 0)
       ([] ++ closed_session 9 "2025-01-10T09:00:00Z" "2025-01-10T08:00:00Z"
        :: [])%list
     = Ok ([] ++ (utc 2025 1 10 9 0 0, d) :: [])%list
  /\ exists daily monthly,
       calculate_hours IsoProfile.fromisoformat (utc 2025 4 2 12 0 0)
         ([] ++ closed_session 9 "2025-01-10T09:00:00Z"
                  "2025-01-10T08:00:00Z" :: [])%list
       = Ok (daily, monthly).
Proof.
  apply (reversed_interval_is_negative IsoProfile.fromisoformat
           (utc 2025 4 2 12 0 0) [] []
           (closed_session 9 "2025-01-10T09:00:00Z" "2025-01-10T08:00:00Z")
           [] [] (utc 2025 1 10 9 0 0) (utc 2025 1 10 8 0 0) 0 0
           "2"%char "025-01-10T08:00:00Z");
    try reflexivity;
    try (unfold datetime_ok; simpl; lia).
Defined.

(** ** Failures of the aggregator *)

Lemma calculate_hours_raise P now locs e :
  intervals P now locs = Raise e -> calculate_hours P now locs = Raise e.
Proof.
  intros H. unfold calculate_hours. rewrite accumulate_fold, H. reflexivity.
Qed.

(** X3: [calculate_hours] has no partial result: when the intervals before
    one are well formed and that one raises, be it a timestamp that does not
    parse or a naive timestamp met with an aware one, the whole call raises
    this exception, whatever follows in the list. *)
Theorem first_failure_is_raised
  (P : string -> result datetime) (now : datetime)
  (before after : list location) (loc : location)
  (es1 : list entry) (e : exn)
  (H1 : intervals P now before = Ok es1)
  (Hloc : interval P now loc = Raise e) :
  calculate_hours P now (before ++ loc :: after)%list = Raise e.
Proof.
  apply calculate_hours_raise.
  rewrite intervals_app, H1. simpl. rewrite Hloc. reflexivity.
Qed.

Lemma first_failure_is_raised_witness :
  calculate_hours IsoProfile.fromisoformat (utc 2025 4 2 12 0 0)
    ([boundary_session]
     ++ closed_session 2 "yesterday" "2025-01-10T08:00:00Z"
     :: [session_4s])%list
  = Raise ValueError.
Proof.
  apply (first_failure_is_raised IsoProfile.fromisoformat
           (utc 2025 4 2 12 0 0) [boundary_session] [session_4s]
           (closed_session 2 "yesterday" "2025-01-10T08:00:00Z")
           [(utc 2025 3 31 23 0 0, Float.of_Z 2)] ValueError).
  - vm_compute. reflexivity.
  - vm_compute. reflexivity.
Defined.

(** A record that the loop can credit: its begin parses, so does its end
    when it has one, and the two can be subtracted. *)
Definition well_formed (P : string -> result datetime) (now : datetime)
  (loc : location) : bool :=
  match parse_timestamp P (begin_at loc), interval_end P now loc with
  | Ok b, Ok e => same_awareness e b
  | _, _ => false
  end.

Lemma dt_sub_ok_iff a b :
  (exists td, dt_sub a b = Ok td) <-> same_awareness a b = true.
Proof.
  unfold dt_sub, same_awareness.
  destruct (utcoffset a), (utcoffset b); split; intros H;
    try reflexivity; try discriminate; try (destruct H; discriminate); eauto.
Qed.

Lemma interval_ok_iff P now loc :
  (exists r, interval P now loc = Ok r) <-> well_formed P now loc = true.
Proof.
  unfold interval, well_formed, interval_end.
  destruct (parse_timestamp P (begin_at loc)) as [b|x]; cbn [bind].
  - destruct (match end_at loc with
              | Some (String c s) => parse_timestamp P (String c s)
              | _ => Ok now
              end) as [e|x]; cbn [bind].
    + rewrite <- dt_sub_ok_iff. split.
      * intros [r Hr]. destruct (dt_sub e b) as [td|x]; [eauto|discriminate].
      * intros [td ->]. cbn [bind]. eauto.
    + split; [intros [r Hr]; discriminate|discriminate].
  - split; [intros [r Hr]; discriminate|discriminate].
Qed.

Lemma intervals_ok_iff P now locs :
  (exists es, intervals P now locs = Ok es)
  <-> forallb (well_formed P now) locs = true.
Proof.
  induction locs as [|loc rest IH]; simpl.
  - split; eauto.
  - rewrite andb_true_iff, <- IH, <- interval_ok_iff. split.
    + intros [es Hes].
      destruct (interval P now loc) as [e|x]; [|discriminate].
      destruct (intervals P now rest) as [es'|x]; [|discriminate].
      eauto.
    + intros [[r ->] [es ->]]. simpl. eauto.
Qed.

(** X4: [calculate_hours] returns its two dictionaries exactly when every
    record of the list is well formed: the begin parses, a non-empty [end_at]
    parses, and begin and end both carry an offset or both carry none, the
    end of an open session being the clock.  One naive timestamp among aware
    ones, or one open session with a naive begin, is enough to lose the whole
    result. *)
Theorem calculate_hours_succeeds_iff
  (P : string -> result datetime) (now : datetime) (locs : list location) :
  (exists daily monthly, calculate_hours P now locs = Ok (daily, monthly))
  <-> forallb (well_formed P now) locs = true.
Proof.
  rewrite <- intervals_ok_iff. split.
  - intros (daily & monthly & H).
    eapply calculate_hours_ok_intervals. eassumption.
  - intros [es Hes].
    destruct (calculate_hours_buckets P now locs es Hes) as (d & m & H & _).
    eauto.
Qed.

(** ** The keys and the values of the result *)

(** The keys of a dictionary that received [ks] in this order: each one at
    the place of its first occurrence. *)
Definition touch (k : string) (ks : list string) : list string :=
  if existsb (String.eqb k) ks then ks else (ks ++ [k])%list.

Definition key_order (ks : list string) : list string :=
  fold_left (fun acc k => touch k acc) ks [].

Lemma existsb_keys_get {V : Type} (k : string) (d : Dict.t V) :
  existsb (String.eqb k) (Dict.keys d)
  = match Dict.get k d with Some _ => true | None => false end.
Proof.
  induction d as [|[k' v] d IH]; simpl; auto.
  destruct (String.eqb k k'); simpl; auto.
Qed.

Lemma keys_set_absent {V : Type} (k : string) (v : V) (d : Dict.t V) :
  Dict.get k d = None ->
  Dict.keys (Dict.set k v d) = (Dict.keys d ++ [k])%list.
Proof.
  induction d as [|[k' v'] d IH]; simpl; auto.
  destruct (String.eqb k k'); [discriminate|].
  intros H. simpl. now rewrite IH.
Qed.

Lemma keys_bump key dur d :
  Dict.keys (bump key dur d) = touch key (Dict.keys d).
Proof.
  unfold bump, touch. rewrite existsb_keys_get.
  destruct (Dict.get key d) as [v|] eqn:E.
  - apply (keys_set_present key _ v). assumption.
  - rewrite (keys_set_present key _ (PyInt 0)) by apply get_set_same.
    apply keys_set_absent. assumption.
Qed.

Lemma keys_fold_bump (key_of : datetime -> string) es : forall d0,
  Dict.keys (fold_left (fun d e => bump (key_of (fst e)) (snd e) d) es d0)
  = fold_left (fun acc k => touch k acc) (map (fun e => key_of (fst e)) es)
      (Dict.keys d0).
Proof.
  induction es as [|e es IH]; intros d0; simpl; auto.
  rewrite IH, keys_bump. reflexivity.
Qed.

Lemma keys_map_values {V : Type} (f : V -> V) (d : Dict.t V) :
  Dict.keys (Dict.map_values f d) = Dict.keys d.
Proof.
  unfold Dict.keys, Dict.map_values. rewrite map_map. reflexivity.
Qed.

Lemma touch_nodup k ks : NoDup ks -> NoDup (touch k ks).
Proof.
  intros H. unfold touch. destruct (existsb (String.eqb k) ks) eqn:E; auto.
  apply NoDup_app.
  - assumption.
  - constructor; [intros []|constructor].
  - intros x Hx [<-|[]].
    assert (existsb (String.eqb k) ks = true).
    { apply existsb_exists. exists k. split; auto. apply String.eqb_refl. }
    congruence.
Qed.

Lemma touch_in k ks x : In x (touch k ks) <-> x = k \/ In x ks.
Proof.
  unfold touch. destruct (existsb (String.eqb k) ks) eqn:E.
  - apply existsb_exists in E. destruct E as (y & Hy & Heq).
    apply String.eqb_eq in Heq. subst y. split; auto.
    intros [->|H]; auto.
  - rewrite in_app_iff. simpl. split.
    + intros [H|[H|[]]]; auto.
    + intros [->|H]; auto.
Qed.

Lemma fold_touch_nodup ks : forall acc,
  NoDup acc -> NoDup (fold_left (fun acc k => touch k acc) ks acc).
Proof.
  induction ks as [|k ks IH]; intros acc H; simpl; auto.
  apply IH, touch_nodup, H.
Qed.

Lemma fold_touch_in ks x : forall acc,
  In x (fold_left (fun acc k => touch k acc) ks acc) <-> In x ks \/ In x acc.
Proof.
  induction ks as [|k ks IH]; intros acc; simpl.
  - tauto.
  - rewrite IH, touch_in. intuition congruence.
Qed.

(** X5: the keys of the two returned dictionaries are the day keys and the
    month keys of the begins, each once, in the order in which the list
    first brings them, which is the order in which the published JSON lists
    them. *)
Theorem result_keys_in_first_touch_order
  (P : string -> result datetime) (now : datetime)
  (locs : list location) (es : list entry)
  (Hes : intervals P now locs = Ok es) :
  exists daily monthly,
    calculate_hours P now locs = Ok (daily, monthly)
    /\ Dict.keys daily = key_order (map (fun e => strftime_day (fst e)) es)
    /\ Dict.keys monthly
       = key_order (map (fun e => strftime_month (fst e)) es)
    /\ NoDup (Dict.keys daily) /\ NoDup (Dict.keys monthly)
    /\ (forall k, In k (Dict.keys daily)
                  <-> exists e, In e es /\ strftime_day (fst e) = k)
    /\ (forall k, In k (Dict.keys monthly)
                  <-> exists e, In e es /\ strftime_month (fst e) = k).
Proof.
  unfold calculate_hours. rewrite accumulate_fold, Hes. simpl.
  eexists _, _. split; [reflexivity|].
  rewrite !keys_map_values, fst_fold_credit, snd_fold_credit.
  rewrite !keys_fold_bump. simpl. fold (key_order (map (fun e => strftime_day (fst e)) es)).
  fold (key_order (map (fun e => strftime_month (fst e)) es)).
  split; [reflexivity|]. split; [reflexivity|].
  split; [apply fold_touch_nodup; constructor|].
  split; [apply fold_touch_nodup; constructor|].
  split; intros k; unfold key_order; rewrite fold_touch_in, in_map_iff; simpl.
  - split.
    + intros [(e & He & Hin)|[]]. eauto.
    + intros (e & Hin & He). left. eauto.
  - split.
    + intros [(e & He & Hin)|[]]. eauto.
    + intros (e & Hin & He). left. eauto.
Qed.

Lemma result_keys_in_first_touch_order_witness :
  exists daily monthly,
    calculate_hours IsoProfile.fromisoformat (utc 2025 4 2 12 0 0)
      [session_4s; boundary_session; session_7s] = Ok (daily, monthly)
    /\ Dict.keys daily
       = key_order
           (map (fun e => strftime_day (fst e))
              [(utc 2025 1 10 8 0 0, hours_of 4000000);
               (utc 2025 3 31 23 0 0, Float.of_Z 2);
               (utc 2025 1 10 9 0 0, hours_of 7000000)])
    /\ Dict.keys monthly
       = key_order
           (map (fun e => strftime_month (fst e))
              [(utc 2025 1 10 8 0 0, hours_of 4000000);
               (utc 2025 3 31 23 0 0, Float.of_Z 2);
               (utc 2025 1 10 9 0 0, hours_of 7000000)])
    /\ NoDup (Dict.keys daily) /\ NoDup (Dict.keys monthly)
    /\ (forall k, In k (Dict.keys daily)
                  <-> exists e,
                        In e [(utc 2025 1 10 8 0 0, hours_of 4000000);
                              (utc 2025 3 31 23 0 0, Float.of_Z 2);
                              (utc 2025 1 10 9 0 0, hours_of 7000000)]
                        /\ strftime_day (fst e) = k)
    /\ (forall k, In k (Dict.keys monthly)
                  <-> exists e,
                        In e [(utc 2025 1 10 8 0 0, hours_of 4000000);
                              (utc 2025 3 31 23 0 0, Float.of_Z 2);
                              (utc 2025 1 10 9 0 0, hours_of 7000000)]
                        /\ strftime_month (fst e) = k).
Proof.
  apply (result_keys_in_first_touch_order IsoProfile.fromisoformat
           (utc 2025 4 2 12 0 0) [session_4s; boundary_session; session_7s]).
  vm_compute. reflexivity.
Defined.

Definition is_float (x : pynum) : bool :=
  match x with
  | PyFloat _ => true
  | PyInt _ => false
  end.

Lemma fold_py_add_float ds : forall f,
  exists g, fold_left py_add (map PyFloat ds) (PyFloat f) = PyFloat g.
Proof.
  induction ds as [|d ds IH]; intros f; simpl; eauto.
Qed.

Lemma bucket_total_float ds v :
  bucket_total ds = Some v -> is_float v = true.
Proof.
  destruct ds as [|d ds]; simpl; [discriminate|].
  intros H. injection H as <-. unfold py_sum.
  cbn [map fold_left py_add].
  destruct (fold_py_add_float ds (Float.add (Float.of_Z 0) d)) as [g Hg].
  rewrite Hg. reflexivity.
Qed.

(** X6: every value of the two returned dictionaries is a [float]: the
    [int] 0 that opens a bucket never survives, since a bucket is opened only
    to receive a duration at once; in particular the published values are
    never the integer [0] but [0.0]. *)
Theorem result_values_are_floats
  (P : string -> result datetime) (now : datetime)
  (locs : list location) (daily monthly : pybucket)
  (Hc : calculate_hours P now locs = Ok (daily, monthly)) :
  (forall k v, Dict.get k daily = Some v -> is_float v = true)
  /\ (forall k v, Dict.get k monthly = Some v -> is_float v = true).
Proof.
  destruct (calculate_hours_ok_intervals P now locs _ Hc) as [es Hes].
  destruct (calculate_hours_buckets P now locs es Hes)
    as (d & m & Hc' & Hd & Hm).
  rewrite Hc in Hc'. injection Hc' as <- <-.
  split; intros k v Hk.
  - rewrite Hd in Hk.
    destruct (bucket_total (bucket strftime_day k es)) as [t|] eqn:E;
      [|discriminate].
    injection Hk as <-. apply bucket_total_float in E.
    destruct t; [discriminate|reflexivity].
  - rewrite Hm in Hk.
    destruct (bucket_total (bucket strftime_month k es)) as [t|] eqn:E;
      [|discriminate].
    injection Hk as <-. apply bucket_total_float in E.
    destruct t; [discriminate|reflexivity].
Qed.

Lemma result_values_are_floats_witness :
  (forall k v,
     Dict.get k [("2025-03-31", PyFloat (Float.of_Z 2))] = Some v ->
     is_float v = true)
  /\ (forall k v,
        Dict.get k [("2025-03", PyFloat (Float.of_Z 2))] = Some v ->
        is_float v = true).
Proof.
  apply (result_values_are_floats IsoProfile.fromisoformat
           (utc 2025 4 2 12 0 0) [boundary_session]).
  vm_compute. reflexivity.
Defined.

(** ** The session-window resolver *)

(** X7: the two readers of [end_at] disagree on the empty string.
    [calculate_hours] tests its truth value, so a session whose [end_at] is
    the empty string counts as open and is credited up to the clock, while
    [get_current_session] tests [is None], so the same record is not the
    current session and no detail is looked up. *)
Theorem empty_end_at_is_open_only_for_the_sum
  (P : string -> result datetime) (now : datetime)
  (latest : location) (rest : list location)
  (get_user_location : Z -> result location_info)
  (b : datetime) (ob o : Z)
  (Hend : end_at latest = Some EmptyString)
  (Hb : parse_timestamp P (begin_at latest) = Ok b)
  (Hob : utcoffset b = Some ob) (Ho : utcoffset now = Some o) :
  interval P now latest = Ok (b, hours_of (utc_micros now - utc_micros b))
  /\ get_current_session P now (Ok (latest :: rest)) get_user_location
     = Ok None.
Proof.
  split.
  - apply interval_open; auto.
    + rewrite Hend. reflexivity.
    + eapply dt_sub_aware; eassumption.
  - unfold get_current_session. simpl. rewrite Hb. simpl. rewrite Hend.
    reflexivity.
Qed.

Lemma empty_end_at_is_open_only_for_the_sum_witness :
  interval IsoProfile.fromisoformat (utc 2025 4 2 12 0 0)
    (mk_location 5 "2025-04-02T10:29:30Z" (Some EmptyString) None)
  = Ok (utc 2025 4 2 10 29 30,
        hours_of (utc_micros (utc 2025 4 2 12 0 0)
                  - utc_micros (utc 2025 4 2 10 29 30)))
  /\ get_current_session IsoProfile.fromisoformat (utc 2025 4 2 12 0 0)
       (Ok (mk_location 5 "2025-04-02T10:29:30Z" (Some EmptyString) None
            :: []))
       (fun _ => Raise HTTPError)
     = Ok None.
Proof.
  apply (empty_end_at_is_open_only_for_the_sum IsoProfile.fromisoformat
           (utc 2025 4 2 12 0 0)
           (mk_location 5 "2025-04-02T10:29:30Z" (Some EmptyString) None)
           [] (fun _ => Raise HTTPError) (utc 2025 4 2 10 29 30) 0 0);
    reflexivity.
Defined.

(** X8: there is no current session, and the detail of no location is
    asked for, when the answer holds no record or when the most recent
    record has an [end_at] and a [begin_at] that parses; a [begin_at] that
    does not parse raises even for a closed session, since it is parsed
    before [end_at] is looked at. *)
Theorem no_current_session
  (P : string -> result datetime) (now : datetime)
  (get_user_location : Z -> result location_info) :
  get_current_session P now (Ok []) get_user_location = Ok None
  /\ (forall latest rest b s,
        parse_timestamp P (begin_at latest) = Ok b ->
        end_at latest = Some s ->
        get_current_session P now (Ok (latest :: rest)) get_user_location
        = Ok None)
  /\ (forall latest rest e,
        parse_timestamp P (begin_at latest) = Raise e ->
        get_current_session P now (Ok (latest :: rest)) get_user_location
        = Raise e)
  /\ (forall e, get_current_session P now (Raise e) get_user_location
                = Raise e).
Proof.
  unfold get_current_session. repeat split.
  - intros latest rest b s Hb Hend. simpl. rewrite Hb. simpl.
    rewrite Hend. reflexivity.
  - intros latest rest e He. simpl. rewrite He. reflexivity.
Qed.

Lemma ndigits_le (a : positive) (n : Z) :
  0 <= n -> Zpos a < 2 ^ n -> Rounding.ndigits a <= n.
Proof.
  intros Hn Ha. pose proof (Rounding.ndigits_bounds a) as [Hlo _].
  pose proof (Rounding.ndigits_pos a).
  destruct (Z_le_gt_dec (Rounding.ndigits a) n) as [|Hgt]; [assumption|].
  exfalso.
  assert (2 ^ n <= 2 ^ (Rounding.ndigits a - 1))
    by (apply Z.pow_le_mono_r; lia).
  lia.
Qed.



(** ** The open session *)



Definition null_campus_detail : location_info :=
  mk_location_info (Some CampusNotObject) (Some (Some "e1r2p3.42.fr")).

Definition nameless_campus_detail : location_info :=
  mk_location_info (Some (CampusObject None)) (Some (Some "e1r2p3.42.fr")).


(** The two details whose campus cannot be read end the resolver with the
    exception of line 116, after the detail was fetched. *)
Lemma unreadable_campus_raises :
  get_current_session IsoProfile.fromisoformat (utc 2025 4 2 12 0 0)
    (Ok [open_session 7 "2025-04-02T10:29:30Z"])
    (fun _ => Ok null_campus_detail) = Raise TypeError
  /\ get_current_session IsoProfile.fromisoformat (utc 2025 4 2 12 0 0)
       (Ok [open_session 7 "2025-04-02T10:29:30Z"])
       (fun _ => Ok nameless_campus_detail) = Raise KeyError.
Proof. split; vm_compute; reflexivity. Qed.

(** ** The label of the location *)

(** The part of a host name before its first dot. *)
Fixpoint before_dot (s : string) : string :=
  match s with
  | EmptyString => EmptyString
  | String c rest =>
      if Ascii.eqb c "."%char then EmptyString
      else String c (before_dot rest)
  end.

Fixpoint has_dot (s : string) : bool :=
  match s with
  | EmptyString => false
  | String c rest => Ascii.eqb c "."%char || has_dot rest
  end.

(** The name of the campus, when the detail has a campus object whose name
    is a string that is not empty. *)
Definition campus_name (info : location_info) : option string :=
  match li_campus info with
  | Some (CampusObject (Some (Some (String c s)))) => Some (String c s)
  | _ => None
  end.

(** The cluster: the host of the detail up to its first dot, when that is
    not empty. *)
Definition cluster_id (info : location_info) : option string :=
  match li_host info with
  | Some (Some h) =>
      match before_dot h with
      | EmptyString => None
      | String c s => Some (String c s)
      end
  | _ => None
  end.

(** [latest.get("host", "Unknown")] *)
Definition raw_host (latest : location) : option string :=
  match host latest with
  | None => Some "Unknown"
  | Some h => h
  end.

Lemma split_before_dot s :
  exists parts, split "."%char s = before_dot s :: parts.
Proof.
  induction s as [|c s [parts IH]]; simpl.
  - eauto.
  - destruct (Ascii.eqb c "."%char); [eauto|]. rewrite IH. eauto.
Qed.

Lemma before_dot_no_dot s : has_dot (before_dot s) = false.
Proof.
  induction s as [|c s IH]; simpl; auto.
  destruct (Ascii.eqb c "."%char) eqn:E; simpl; auto. now rewrite E.
Qed.

Lemma before_dot_prefix s :
  s = before_dot s
  \/ exists rest, s = before_dot s ++ String "."%char rest.
Proof.
  induction s as [|c s IH]; simpl.
  - left. reflexivity.
  - destruct (Ascii.eqb_spec c "."%char) as [->|Hne].
    + right. exists s. reflexivity.
    + destruct IH as [IH|[rest IH]].
      * left. congruence.
      * right. exists rest. simpl. congruence.
Qed.

(** X10: building the label of an open session raises when the detail has
    a key [campus] whose value cannot give a name: a [TypeError] when it is
    [null] or anything else that is not an object, a [KeyError] when it is
    an object without the key [name]; the host is not looked at then.  In
    every other case the label is ["{campus} - {cluster}"] when the campus
    name is a string that is not empty and the host of the detail has, before
    its first dot, a part that is not empty, that part being the cluster;
    and otherwise it is the [host] of the record itself, ["Unknown"]
    standing for a record without that key and [None] for a [null]. *)
Theorem location_label_spec (latest : location) (info : location_info) :
  location_label latest info
  = match li_campus info with
    | Some CampusNotObject => Raise TypeError
    | Some (CampusObject None) => Raise KeyError
    | _ =>
        Ok match campus_name info, cluster_id info with
           | Some campus, Some cluster => Some (campus ++ " - " ++ cluster)
           | _, _ => raw_host latest
           end
    end
  /\ (forall h,
        li_host info = Some (Some h) ->
        has_dot (before_dot h) = false
        /\ (h = before_dot h
            \/ exists rest, h = before_dot h ++ String "."%char rest)).
Proof.
  split.
  - unfold location_label, campus_of, campus_name, cluster_id, raw_host.
    destruct (li_campus info) as [[|[[[|c s]|]|]]|];
      destruct (li_host info) as [[[|c' s']|]|]; try reflexivity.
    cbn [bind].
    destruct (split_before_dot (String c' s')) as [parts ->].
    destruct (before_dot (String c' s')); reflexivity.
  - intros h _. split; [apply before_dot_no_dot|apply before_dot_prefix].
Qed.

(** ** The elapsed-time formatter *)

(** X11: [format_time_difference] answers "Error calculating time" for a
    string that does not parse and also for a well-formed timestamp that
    carries no offset, since a naive datetime cannot be subtracted from the
    aware clock: the [TypeError] is caught like the parser's own error. *)
Theorem format_time_difference_placeholder
  (P : string -> result datetime) (now : datetime) (s : string) (o : Z)
  (Ho : utcoffset now = Some o) :
  (forall e, parse_timestamp P s = Raise e ->
             format_time_difference P now s = "Error calculating time")
  /\ (forall d, parse_timestamp P s = Ok d -> utcoffset d = None ->
                format_time_difference P now s = "Error calculating time").
Proof.
  unfold format_time_difference. split.
  - intros e ->. reflexivity.
  - intros d -> Hd. simpl. unfold dt_sub. rewrite Ho, Hd. reflexivity.
Qed.

Lemma format_time_difference_placeholder_witness :
  (forall e,
     parse_timestamp IsoProfile.fromisoformat "2025-04-25T20:34:59"
     = Raise e ->
     format_time_difference IsoProfile.fromisoformat (utc 2025 4 26 0 0 0)
       "2025-04-25T20:34:59" = "Error calculating time")
  /\ (forall d,
        parse_timestamp IsoProfile.fromisoformat "2025-04-25T20:34:59"
        = Ok d ->
        utcoffset d = None ->
        format_time_difference IsoProfile.fromisoformat (utc 2025 4 26 0 0 0)
          "2025-04-25T20:34:59" = "Error calculating time").
Proof.
  apply (format_time_difference_placeholder IsoProfile.fromisoformat
           (utc 2025 4 26 0 0 0) "2025-04-25T20:34:59" 0).
  reflexivity.
Defined.

(** ** The rendering of an elapsed time *)

(** The value of a pair of mantissa and exponent, scaled by [2^72]. *)
Definition scaled (x : Z * Z) : Z := fst x * 2 ^ (snd x + 72).

Lemma canon_scaled x :
  -72 <= snd x -> scaled (Rounding.canon x) = scaled x.
Proof.
  intros Hx. unfold Rounding.canon, scaled.
  destruct (Z.eqb_spec (fst x) Rounding.p53) as [E|E]; [|reflexivity].
  cbn [fst snd]. rewrite E.
  replace (snd x + 1 + 72) with (Z.succ (snd x + 72)) by lia.
  rewrite Z.pow_succ_r by lia. unfold Rounding.p52, Rounding.p53. lia.
Qed.

Lemma rhe_exact q d : 0 < d -> Float.round_half_even (q * d) d = q.
Proof.
  intros Hd. rewrite Rounding.rhe_unfold.
  rewrite Z.mod_mul, Z.div_mul by lia.
  destruct (Z.compare_spec (2 * 0) d); lia.
Qed.

(** The double of [a / 10**6] for [0 < a < 2^52]: the rounded quotient
    behind it. *)
Lemma seconds_scaled a :
  Zpos a < 2 ^ 52 ->
  exists n s,
    (n = 0 \/ n = 1) /\ 21 <= s <= 72
    /\ scaled (Rounding.seconds_pair a)
       = Float.round_half_even (Zpos a * 2 ^ s) (1000000 * 2 ^ n)
         * 2 ^ (n + (72 - s)).
Proof.
  intros Ha.
  assert (Ha' : Zpos a < 2 ^ 73).
  { change (2 ^ 52) with 4503599627370496 in Ha.
    change (2 ^ 73) with 9444732965739290427392. lia. }
  destruct (Rounding.seconds_numerator a Ha') as [Hs HN].
  pose proof (ndigits_le a 52 ltac:(lia) Ha) as Hd.
  unfold Rounding.seconds_pair. cbv zeta.
  set (s := 73 - Rounding.ndigits a) in *.
  destruct (Rounding.quot_bracket (Zpos a * 2 ^ s) (Zpos Rounding.micro) (- s)
              ltac:(lia) HN) as (n & Hn & Heq & _).
  exists n, s. split; [assumption|]. split; [subst s; lia|].
  rewrite canon_scaled by (rewrite Heq; cbn [snd]; lia).
  rewrite Heq. unfold scaled. cbn [fst snd].
  change (Zpos Rounding.micro) with 1000000.
  f_equal. f_equal. lia.
Qed.

(** It is less than a microsecond away from [a]. *)
Lemma seconds_close a :
  Zpos a < 2 ^ 52 ->
  (Zpos a - 1) * 2 ^ 72 < scaled (Rounding.seconds_pair a) * 1000000
  /\ scaled (Rounding.seconds_pair a) * 1000000 < (Zpos a + 1) * 2 ^ 72.
Proof.
  intros Ha. destruct (seconds_scaled a Ha) as (n & s & Hn & Hs & ->).
  set (dd := 1000000 * 2 ^ n).
  assert (Hdd : 0 < dd <= 2000000).
  { subst dd. destruct Hn as [-> | ->]; simpl; lia. }
  pose proof (round_half_even_nearest (Zpos a * 2 ^ s) dd ltac:(lia)) as Hr.
  set (R := Float.round_half_even (Zpos a * 2 ^ s) dd) in *.
  set (Q := 2 ^ (72 - s)).
  assert (HQ : 0 < Q) by (apply Z.pow_pos_nonneg; lia).
  assert (E72 : 2 ^ 72 = 2 ^ s * Q).
  { subst Q. rewrite <- Z.pow_add_r by lia. f_equal. lia. }
  assert (En : 2 ^ (n + (72 - s)) = 2 ^ n * Q).
  { subst Q. apply Z.pow_add_r; lia. }
  assert (H21 : 2097152 <= 2 ^ s).
  { change 2097152 with (2 ^ 21). apply Z.pow_le_mono_r; lia. }
  rewrite E72, En.
  assert (Ed : R * (2 ^ n * Q) * 1000000 = R * dd * Q) by (subst dd; ring).
  rewrite Ed.
  set (X := Zpos a * 2 ^ s) in *. set (Y := R * dd) in *.
  replace ((Zpos a - 1) * (2 ^ s * Q)) with ((X - 2 ^ s) * Q) by (subst X; ring).
  replace ((Zpos a + 1) * (2 ^ s * Q)) with ((X + 2 ^ s) * Q) by (subst X; ring).
  split; apply Z.mul_lt_mono_pos_r; try assumption; lia.
Qed.

(** It is exact on a whole number of seconds. *)
Lemma seconds_exact a k :
  Zpos a < 2 ^ 52 -> Zpos a = k * 1000000 ->
  scaled (Rounding.seconds_pair a) = k * 2 ^ 72.
Proof.
  intros Ha Hk. destruct (seconds_scaled a Ha) as (n & s & Hn & Hs & ->).
  assert (Hsn : 0 <= s - n) by lia.
  assert (Hpn : 0 < 2 ^ n) by (apply Z.pow_pos_nonneg; lia).
  assert (Es : 2 ^ s = 2 ^ (s - n) * 2 ^ n).
  { rewrite <- Z.pow_add_r by lia. f_equal. lia. }
  rewrite Hk.
  replace (k * 1000000 * 2 ^ s) with (k * 2 ^ (s - n) * (1000000 * 2 ^ n))
    by (rewrite Es; ring).
  rewrite rhe_exact by lia.
  rewrite <- Z.mul_assoc, <- Z.pow_add_r by lia.
  f_equal. f_equal. lia.
Qed.

(** The integer numerator and denominator of a double and its scaled
    value. *)
Lemma scaled_fraction (M E : Z) :
  -72 <= E ->
  M * 2 ^ Z.max E 0 * 2 ^ 72 = scaled (M, E) * 2 ^ Z.max (- E) 0.
Proof.
  intros HE. unfold scaled. cbn [fst snd].
  rewrite <- !Z.mul_assoc, <- !Z.pow_add_r by lia.
  f_equal. f_equal. lia.
Qed.

(** [x // c] for the double [x] of [td / 10**6] is the floor of
    [td / (c * 10**6)] when [td] is below [2^52] microseconds in absolute
    value. *)
Lemma floordiv_total_seconds (td c : Z) :
  - 2 ^ 52 < td < 2 ^ 52 -> 0 < c ->
  float_floordiv (total_seconds td) c = Ok (td / (c * 1000000)).
Proof.
  intros Htd Hc.
  destruct td as [|a|a].
  - reflexivity.
  - assert (Ha : Zpos a < 2 ^ 52) by lia.
    assert (Ha' : Zpos a < 2 ^ 73).
    { change (2 ^ 52) with 4503599627370496 in Ha.
      change (2 ^ 73) with 9444732965739290427392. lia. }
    rewrite (Rounding.total_seconds_finite false a Ha').
    destruct (Rounding.seconds_pair_range a Ha') as [HM HE].
    destruct (seconds_close a Ha) as [Hlo Hhi].
    pose proof (seconds_exact a) as Hex. specialize (fun k => Hex k Ha).
    destruct (Rounding.seconds_pair a) as [M E]. cbn [fst snd] in *.
    unfold float_floordiv. f_equal.
    rewrite Z2Pos.id by (unfold Rounding.p52 in HM; lia).
    pose proof (scaled_fraction M E ltac:(lia)) as HF.
    set (S := scaled (M, E)) in *.
    set (D := 2 ^ Z.max (- E) 0) in *.
    set (N := M * 2 ^ Z.max E 0) in *.
    assert (HD : 0 < D) by (apply Z.pow_pos_nonneg; lia).
    set (q := Zpos a / (c * 1000000)).
    pose proof (Z.div_mod (Zpos a) (c * 1000000) ltac:(lia)) as Hdm.
    pose proof (Z.mod_pos_bound (Zpos a) (c * 1000000) ltac:(lia)) as Hmb.
    fold q in Hdm.
    symmetry. apply Z.div_unique_pos with (r := N - c * D * q); [|lia].
    change (2 ^ 72) with 4722366482869645213696 in *.
    assert (B1 : c * q * 4722366482869645213696 <= S).
    { destruct (Z.eq_dec (Zpos a mod (c * 1000000)) 0) as [E0|E0].
      - rewrite (Hex (c * q)) by lia. lia.
      - assert (c * q * 1000000 <= Zpos a - 1) by lia. nia. }
    assert (B2 : S < c * (q + 1) * 4722366482869645213696).
    { assert (Zpos a + 1 <= c * (q + 1) * 1000000) by lia. nia. }
    split; nia.
  - assert (Ha : Zpos a < 2 ^ 52) by lia.
    assert (Ha' : Zpos a < 2 ^ 73).
    { change (2 ^ 52) with 4503599627370496 in Ha.
      change (2 ^ 73) with 9444732965739290427392. lia. }
    rewrite (Rounding.total_seconds_finite true a Ha').
    destruct (Rounding.seconds_pair_range a Ha') as [HM HE].
    destruct (seconds_close a Ha) as [Hlo Hhi].
    pose proof (seconds_exact a) as Hex. specialize (fun k => Hex k Ha).
    destruct (Rounding.seconds_pair a) as [M E]. cbn [fst snd] in *.
    unfold float_floordiv. f_equal.
    change (Zneg (Z.to_pos M)) with (- Zpos (Z.to_pos M)).
    rewrite Z2Pos.id by (unfold Rounding.p52 in HM; lia).
    pose proof (scaled_fraction M E ltac:(lia)) as HF.
    set (S := scaled (M, E)) in *.
    set (D := 2 ^ Z.max (- E) 0) in *.
    rewrite Z.mul_opp_l.
    set (N := M * 2 ^ Z.max E 0) in *.
    assert (HD : 0 < D) by (apply Z.pow_pos_nonneg; lia).
    set (q := Zneg a / (c * 1000000)).
    pose proof (Z.div_mod (Zneg a) (c * 1000000) ltac:(lia)) as Hdm.
    pose proof (Z.mod_pos_bound (Zneg a) (c * 1000000) ltac:(lia)) as Hmb.
    fold q in Hdm.
    symmetry. apply Z.div_unique_pos with (r := - N - c * D * q); [|lia].
    change (2 ^ 72) with 4722366482869645213696 in *.
    assert (B1 : c * q * 4722366482869645213696 <= - S).
    { destruct (Z.eq_dec (Zneg a mod (c * 1000000)) 0) as [E0|E0].
      - rewrite (Hex (- (c * q))) by lia. lia.
      - assert (c * q * 1000000 <= Zneg a - 1) by lia. nia. }
    assert (B2 : - S < c * (q + 1) * 4722366482869645213696).
    { assert (Zneg a + 1 <= c * (q + 1) * 1000000) by lia. nia. }
    split; nia.
Qed.

Lemma mod_mul_div (n b c : Z) :
  0 < b -> 0 < c -> (n mod (b * c)) / b = (n / b) mod c.
Proof.
  intros Hb Hc. rewrite Z.rem_mul_r by lia.
  rewrite (Z.mul_comm b), Z.div_add by lia.
  rewrite Z.div_small by (apply Z.mod_pos_bound; lia). reflexivity.
Qed.

(** [(x % 3600) // 60] for the same double is the number of whole minutes
    modulo sixty. *)
Lemma mod_floordiv_total_seconds (td : Z) :
  - 2 ^ 52 < td < 2 ^ 52 ->
  float_mod_floordiv (total_seconds td) 3600 60
  = Ok ((td / 60000000) mod 60).
Proof.
  intros Htd.
  pose proof (floordiv_total_seconds td 60 Htd ltac:(lia)) as H.
  change (60 * 1000000) with 60000000 in H.
  unfold float_floordiv in H. unfold float_mod_floordiv.
  destruct (total_seconds td) as [s|s| |s m e]; try discriminate.
  - injection H as <-. reflexivity.
  - injection H as <-. f_equal.
    set (D := 2 ^ Z.max (- e) 0).
    assert (HD : 0 < D) by (apply Z.pow_pos_nonneg; lia).
    clearbody D.
    replace (3600 * D) with (60 * D * 60) by ring.
    apply (mod_mul_div _ (60 * D) 60); lia.
Qed.

(** What [format_time_difference] writes for [hours] and [minutes]. *)
Definition render_elapsed (hours minutes : Z) : string :=
  if 0 <? hours
  then str_of_Z hours ++ "h " ++ str_of_Z minutes ++ "m"
  else str_of_Z minutes ++ "m".

(** X12: for an aware start less than [2^52] microseconds (some 142 years)
    away from the clock, the text is built from the exact whole hours and
    the exact whole minutes modulo sixty of the elapsed time: the rounding of
    [total_seconds()] to a double never moves either number.  The hours are
    written only from one full hour on, and a start that lies after the clock
    is not an error: the hours are then negative and left out, and the
    minutes count up from the hour before, so that a start one second ahead
    is written [59m]. *)
Theorem elapsed_time_rendering
  (P : string -> result datetime) (now : datetime) (s : string)
  (d : datetime) (od o : Z)
  (Hd : parse_timestamp P s = Ok d)
  (Hod : utcoffset d = Some od) (Ho : utcoffset now = Some o)
  (Hrange : - 2 ^ 52 < utc_micros now - utc_micros d < 2 ^ 52) :
  let td := utc_micros now - utc_micros d in
  let hours := td / 3600000000 in
  let minutes := (td / 60000000) mod 60 in
  format_time_difference P now s = render_elapsed hours minutes
  /\ 0 <= minutes <= 59
  /\ (3600000000 <= td -> 0 < hours
      /\ format_time_difference P now s
         = str_of_Z hours ++ "h " ++ str_of_Z minutes ++ "m")
  /\ (td < 3600000000 ->
      format_time_difference P now s = str_of_Z minutes ++ "m").
Proof.
  intros td hours minutes.
  assert (Hf : format_time_difference P now s = render_elapsed hours minutes).
  { unfold format_time_difference. rewrite Hd. cbn [bind].
    rewrite (dt_sub_aware now d o od Ho Hod). cbn [bind].
    fold td. rewrite (floordiv_total_seconds td 3600 Hrange ltac:(lia)).
    cbn [bind]. rewrite (mod_floordiv_total_seconds td Hrange).
    reflexivity. }
  split; [exact Hf|]. split.
  { subst minutes. pose proof (Z.mod_pos_bound (td / 60000000) 60). lia. }
  split.
  - intros Hge.
    assert (Hh : 0 < hours).
    { subst hours. apply Z.div_str_pos. lia. }
    split; [assumption|]. rewrite Hf. unfold render_elapsed.
    destruct (Z.ltb_spec 0 hours); [reflexivity|lia].
  - intros Hlt. rewrite Hf. unfold render_elapsed.
    assert (Hh : hours <= 0).
    { subst hours. destruct (Z_lt_le_dec td 0) as [Hn|Hp].
      - assert (td / 3600000000 < 0) by (apply Z.div_lt_upper_bound; lia). lia.
      - rewrite Z.div_small by lia. lia. }
    destruct (Z.ltb_spec 0 hours); [lia|reflexivity].
Qed.

Lemma elapsed_time_rendering_witness :
  let td := utc_micros (utc 2025 4 26 0 0 0)
            - utc_micros (mk_datetime 2025 4 25 20 34 59 0 (Some 0)) in
  let hours := td / 3600000000 in
  let minutes := (td / 60000000) mod 60 in
  format_time_difference IsoProfile.fromisoformat (utc 2025 4 26 0 0 0)
    "2025-04-25T20:34:59+00:00" = render_elapsed hours minutes
  /\ 0 <= minutes <= 59
  /\ (3600000000 <= td -> 0 < hours
      /\ format_time_difference IsoProfile.fromisoformat
           (utc 2025 4 26 0 0 0) "2025-04-25T20:34:59+00:00"
         = str_of_Z hours ++ "h " ++ str_of_Z minutes ++ "m")
  /\ (td < 3600000000 ->
      format_time_difference IsoProfile.fromisoformat (utc 2025 4 26 0 0 0)
        "2025-04-25T20:34:59+00:00" = str_of_Z minutes ++ "m").
Proof.
  apply (elapsed_time_rendering IsoProfile.fromisoformat
           (utc 2025 4 26 0 0 0) "2025-04-25T20:34:59+00:00"
           (mk_datetime 2025 4 25 20 34 59 0 (Some 0)) 0 0).
  - vm_compute. reflexivity.
  - reflexivity.
  - reflexivity.
  - vm_compute. split; reflexivity.
Defined.

(** * The run of the program

    The collaborators of [main]: the environment, the two remote services
    and the clock.  A run is the list of the requests it sends, in order,
    and what it prints at the end. *)

(** ** Requests and answers *)

Inductive method : Type := GET | POST | PATCH.

(** What a request carries: the [params] of a [GET], the [data] of the form
    posted to the token endpoint, or the JSON payload of a gist, which holds
    the file [filename] whose content is [json.dumps] of the report. *)
Inductive content : Type :=
| Query (params : list (string * string))
| Form (data : list (string * string))
| GistPayload (description : string) (public : option bool)
    (filename : string) (username : string) (data : report).

Record request : Type := mk_request {
  rq_method : method;
  rq_url : string;
  rq_headers : list (string * string);
  rq_content : content
}.

(** The world of one run.  An answer is what the program reads of a
    response: [raise_for_status()] and then the JSON document, or the
    exception raised on the way.  The clocks are the values of
    [datetime.now], one for each place that reads it. *)
Record world : Type := mk_world {
  environ : string -> option string;
  oauth : request -> result string;
  users : request -> result unit;
  locations_of : request -> result (list location);
  location_of : request -> result location_info;
  gists : request -> result (string * string * string);
  now_window : datetime;
  now_hours : datetime;
  now_session : datetime;
  now_recent : datetime;
  now_updated : datetime;
  now_printed : datetime
}.

(** ** Computations that send requests *)

Definition io (A : Type) : Type := list request -> list request * result A.

Definition ret {A : Type} (a : A) : io A := fun t => (t, Ok a).

Definition lift {A : Type} (r : result A) : io A := fun t => (t, r).

Definition iobind {A B : Type} (m : io A) (k : A -> io B) : io B :=
  fun t =>
    match m t with
    | (t', Ok a) => k a t'
    | (t', Raise e) => (t', Raise e)
    end.

Definition send {A : Type} (answer : request -> result A) (r : request)
  : io A :=
  fun t => ((t ++ [r])%list, answer r).

Notation "x <~ m ;; k" := (iobind m (fun x => k))
  (at level 61, m at next level, right associativity).

(** What [main] leaves behind: the summary it prints after the gist is
    written, or [Error: ...] and the exit status 1. *)
Inductive outcome : Type :=
| Published (gist_url gist_id raw_url : string)
    (current : option current_session) (time_since : option string)
| Failed (e : exn).

Module Run.
Section Run.

Variable fromisoformat : string -> result datetime.
Variable w : world.

Definition API_URL : string := "https://api.intra.42.fr".

Definition USERNAME : string :=
  match environ w "FT_USERNAME" with
  | Some name => name
  | None => "aelomari"
  end.

Definition GIST_DESCRIPTION : string :=
  "42 Logtime Data for " ++ USERNAME ++ " (Scriptable Widget)".

Definition GIST_FILENAME : string := "logtime.json".

Definition bearer (token : string) : list (string * string) :=
  [("Authorization", "Bearer " ++ token)].

Definition token_request (client_id client_secret : option string)
  : request :=
  mk_request POST (API_URL ++ "/oauth/token") []
    (Form [("grant_type", "client_credentials");
           ("client_id", py_str client_id);
           ("client_secret", py_str client_secret)]).

Definition get_access_token : io string :=
  let client_id := environ w "FT_CLIENT_ID" in
  let client_secret := environ w "FT_CLIENT_SECRET" in
  if negb (truthy client_id) || negb (truthy client_secret)
  then lift (Raise ValueError)
  else send (oauth w) (token_request client_id client_secret).

Definition user_request (token : string) : request :=
  mk_request GET (API_URL ++ "/v2/users/" ++ USERNAME) (bearer token)
    (Query []).

Definition get_user_data (token : string) : io unit :=
  send (users w) (user_request token).

Definition window_request (token : string) (start_date end_date : datetime)
  : request :=
  mk_request GET (API_URL ++ "/v2/users/" ++ USERNAME ++ "/locations")
    (bearer token)
    (Query [("range[begin_at]",
             isoformat start_date ++ "," ++ isoformat end_date);
            ("page[size]", "100");
            ("sort", "-begin_at")]).

Definition get_logtime_data (token : string) : io (list location) :=
  let end_date := now_window w in
  start_date <~ lift (minus_days end_date 90) ;;
  send (locations_of w) (window_request token start_date end_date).

Definition detail_request (token : string) (location_id : Z) : request :=
  mk_request GET (API_URL ++ "/v2/locations/" ++ str_of_Z location_id)
    (bearer token) (Query []).

Definition get_user_location (token : string) (location_id : Z)
  : io location_info :=
  send (location_of w) (detail_request token location_id).

Definition latest_request (token : string) : request :=
  mk_request GET (API_URL ++ "/v2/users/" ++ USERNAME ++ "/locations")
    (bearer token)
    (Query [("page[size]", "1"); ("sort", "-begin_at")]).

Definition get_current_session (token : string)
  : io (option current_session) :=
  locations <~ send (locations_of w) (latest_request token) ;;
  match locations with
  | [] => ret None
  | latest :: _ =>
      b <~ lift (parse_timestamp fromisoformat (begin_at latest)) ;;
      match end_at latest with
      | None =>
          let current_time := now_session w in
          td <~ lift (dt_sub current_time b) ;;
          let duration_hours := hours_of td in
          location_info <~ get_user_location token (loc_id latest) ;;
          location <~ lift (location_label latest location_info) ;;
          ret (Some (mk_current_session (isoformat b)
                       (Float.round2 duration_hours) location))
      | Some _ => ret None
      end
  end.

Definition gist_headers (github_token : option string)
  : list (string * string) :=
  [("Authorization", "token " ++ py_str github_token);
   ("Accept", "application/vnd.github.v3+json")].

Definition update_request (github_token gist_id : option string)
  (data : report) : request :=
  mk_request PATCH ("https://api.github.com/gists/" ++ py_str gist_id)
    (gist_headers github_token)
    (GistPayload GIST_DESCRIPTION None GIST_FILENAME USERNAME data).

Definition create_request (github_token : option string) (data : report)
  : request :=
  mk_request POST "https://api.github.com/gists"
    (gist_headers github_token)
    (GistPayload GIST_DESCRIPTION (Some true) GIST_FILENAME USERNAME data).

Definition create_or_update_gist (data : report)
  : io (string * string * string) :=
  let github_token := environ w "GH_TOKEN" in
  if negb (truthy github_token) then lift (Raise ValueError)
  else
    let gist_id := environ w "GIST_ID" in
    if truthy gist_id
    then send (gists w) (update_request github_token gist_id data)
    else send (gists w) (create_request github_token data).

(** The [try] block of [main] up to the first [print]. *)
Definition publish
  : io (string * string * string * option current_session) :=
  token <~ get_access_token ;;
  user_data <~ get_user_data token ;;
  locations <~ get_logtime_data token ;;
  hours <~ lift (calculate_hours fromisoformat (now_hours w) locations) ;;
  current <~ get_current_session token ;;
  recent <~ lift (recent_daily_total (now_recent w) (fst hours)) ;;
  let output_data :=
    mk_report (py_round2 (total_hours (fst hours))) (py_round2 recent)
      (fst hours) (snd hours) (isoformat (now_updated w)) current in
  gist <~ create_or_update_gist output_data ;;
  ret (gist, current).

Definition main : list request * outcome :=
  match publish [] with
  | (t, Ok (gist_url, gist_id, raw_url, current)) =>
      (t, Published gist_url gist_id raw_url current
            match current with
            | Some _ =>
                Some (format_time_difference fromisoformat (now_printed w)
                        "2025-04-25T20:34:59+00:00")
            | None => None
            end)
  | (t, Raise e) => (t, Failed e)
  end.

End Run.
End Run.

(** ** Reading a run *)

Ltac run_unfold :=
  cbv beta iota zeta delta
    [Run.main Run.publish Run.get_access_token Run.get_user_data
     Run.get_logtime_data Run.get_user_location Run.get_current_session
     Run.create_or_update_gist iobind lift send ret].

Ltac run_case :=
  match goal with
  | |- context [match ?x with _ => _ end] =>
      lazymatch x with
      | context [match _ with _ => _ end] => fail
      | _ => destruct x eqn:?
      end
  end.

(** Both credentials of the campus API are set and not empty. *)
Definition credentials (w : world) : bool :=
  truthy (environ w "FT_CLIENT_ID") && truthy (environ w "FT_CLIENT_SECRET").

(** The request goes to the gist service. *)
Definition to_github (r : request) : bool :=
  String.prefix "https://api.github.com/" (rq_url r).

(** A world in which every collaborator answers: one open session. *)
Definition sample_environ (gist_id : option string) (name : string)
  : option string :=
  if String.eqb name "FT_CLIENT_ID" then Some "u-s4t2ud"
  else if String.eqb name "FT_CLIENT_SECRET" then Some "s-s4t2ud"
  else if String.eqb name "GH_TOKEN" then Some "ghp"
  else if String.eqb name "GIST_ID" then gist_id
  else None.

Definition sample_world (gist_id : option string) (window : list location)
  : world :=
  mk_world (sample_environ gist_id)
    (fun _ => Ok "token")
    (fun _ => Ok tt)
    (fun r =>
       match rq_content r with
       | Query (_ :: _ :: _ :: _) => Ok window
       | _ => Ok [open_session 7 "2025-04-02T10:29:30Z"]
       end)
    (fun _ => Ok (mk_location_info (Some (CampusObject (Some (Some "Paris"))))
                    (Some (Some "e1r2p3.42.fr"))))
    (fun _ => Ok ("https://gist.github.com/aelomari/1f", "1f",
                  "https://gist.githubusercontent.com/raw/1f/logtime.json"))
    (mk_datetime 2025 4 2 14 0 0 0 (Some 7200000000))
    (utc 2025 4 2 12 0 0)
    (utc 2025 4 2 12 0 1)
    (mk_datetime 2025 4 2 14 0 1 0 None)
    (mk_datetime 2025 4 2 14 0 1 0 None)
    (utc 2025 4 2 12 0 2).

(** X13: [main] sends no request at all exactly when one of
    [FT_CLIENT_ID] and [FT_CLIENT_SECRET] is unset or empty; it then ends
    with the [ValueError] of [get_access_token], printed as an error with
    exit status 1.  With both set, the first request of every run is the
    POST of the two credentials to the token endpoint. *)
Theorem credentials_guard (P : string -> result datetime) (w : world) :
  (fst (Run.main P w) = [] <-> credentials w = false)
  /\ (credentials w = false -> snd (Run.main P w) = Failed ValueError)
  /\ (credentials w = true ->
      exists rest,
        fst (Run.main P w)
        = Run.token_request (environ w "FT_CLIENT_ID")
            (environ w "FT_CLIENT_SECRET") :: rest).
Proof.
  assert (Hno : credentials w = false ->
                Run.main P w = ([], Failed ValueError)).
  { unfold credentials. intros H. run_unfold.
    destruct (truthy (environ w "FT_CLIENT_ID")),
             (truthy (environ w "FT_CLIENT_SECRET"));
      try discriminate; reflexivity. }
  assert (Hyes : credentials w = true ->
                 exists rest,
                   fst (Run.main P w)
                   = Run.token_request (environ w "FT_CLIENT_ID")
                       (environ w "FT_CLIENT_SECRET") :: rest).
  { unfold credentials. intros H.
    apply andb_true_iff in H. destruct H as [H1 H2].
    run_unfold. rewrite H1, H2. cbn [negb orb app].
    repeat run_case; cbn [fst app]; eauto. }
  split; [|split; [|exact Hyes]].
  - split.
    + intros Hnil. destruct (credentials w); [|reflexivity].
      destruct (Hyes eq_refl) as [rest Hrest]. congruence.
    + intros H. rewrite (Hno H). reflexivity.
  - intros H. rewrite (Hno H). reflexivity.
Qed.

(** X14: in every run the gist service is contacted at most once, and by
    the last request: the trace is made of requests to the campus API,
    followed by nothing or by one request to [api.github.com].  The run ends
    with the printed summary exactly when that request was sent and
    answered; when it was not sent, or was sent and failed, the run ends
    with [Error: ...] and exit status 1. *)
Theorem published_or_nothing (P : string -> result datetime) (w : world) :
  exists campus gist,
    fst (Run.main P w) = (campus ++ gist)%list
    /\ forallb (fun r => negb (to_github r)) campus = true
    /\ ((gist = []
         /\ exists e, snd (Run.main P w) = Failed e)
        \/ (exists r e,
              gist = [r] /\ to_github r = true
              /\ gists w r = Raise e
              /\ snd (Run.main P w) = Failed e)
        \/ (exists r gist_url gist_id raw_url current time_since,
              gist = [r] /\ to_github r = true
              /\ gists w r = Ok (gist_url, gist_id, raw_url)
              /\ snd (Run.main P w)
                 = Published gist_url gist_id raw_url current time_since)).
Proof.
  run_unfold.
  repeat run_case; cbn [fst snd];
    try (eexists _, []; rewrite app_nil_r;
         split; [reflexivity|]; split; [reflexivity|];
         left; split; [reflexivity|]; eauto; fail);
    match goal with
    | H : gists w ?r = Raise ?e
      |- exists campus gist, (?c ++ [?r])%list = _ /\ _ =>
        exists c, [r]; split; [reflexivity|]; split; [reflexivity|];
        right; left; exists r, e; repeat split; assumption
    | H : gists w ?r = Ok _
      |- exists campus gist, (?c ++ [?r])%list = _ /\ _ =>
        exists c, [r]; split; [reflexivity|]; split; [reflexivity|];
        right; right; eexists r, _, _, _, _, _;
        split; [reflexivity|]; split; [reflexivity|];
        split; [exact H|reflexivity]
    end.
Qed.

Lemma campus_requests_not_to_github (w : world) :
  (forall a b, to_github (Run.token_request a b) = false)
  /\ (forall tok, to_github (Run.user_request w tok) = false)
  /\ (forall tok s e, to_github (Run.window_request w tok s e) = false)
  /\ (forall tok, to_github (Run.latest_request w tok) = false)
  /\ (forall tok id, to_github (Run.detail_request tok id) = false).
Proof. repeat split. Qed.

Ltac trace_member H :=
  cbn [fst app In] in H;
  repeat (destruct H as [H|H]; [symmetry in H|]);
  try contradiction.

(** X15: a request of a run to the gist service is sent only with
    [GH_TOKEN] set and not empty, carries it as [Authorization: token ...],
    and holds the file [logtime.json] under the description that names the
    user.  It is a PATCH of [gists/{GIST_ID}] when [GIST_ID] is set and not
    empty, and otherwise a POST that creates a public gist. *)
Theorem gist_request_shape
  (P : string -> result datetime) (w : world) (r : request)
  (Hin : In r (fst (Run.main P w)))
  (Hto : to_github r = true) :
  truthy (environ w "GH_TOKEN") = true
  /\ rq_headers r = Run.gist_headers (environ w "GH_TOKEN")
  /\ (exists data, rq_content r
                  = GistPayload (Run.GIST_DESCRIPTION w)
                      (if truthy (environ w "GIST_ID") then None
                       else Some true)
                      Run.GIST_FILENAME (Run.USERNAME w) data)
  /\ (if truthy (environ w "GIST_ID")
      then rq_method r = PATCH
           /\ rq_url r = "https://api.github.com/gists/"
                         ++ py_str (environ w "GIST_ID")
      else rq_method r = POST
           /\ rq_url r = "https://api.github.com/gists").
Proof.
  destruct (campus_requests_not_to_github w) as (C1 & C2 & C3 & C4 & C5).
  revert Hin. run_unfold.
  repeat run_case; intros Hin; trace_member Hin; subst r;
    try (rewrite ?C1, ?C2, ?C3, ?C4, ?C5 in Hto; discriminate Hto);
    (split; [destruct (truthy (environ w "GH_TOKEN"));
             [reflexivity|discriminate]|]);
    (split; [reflexivity|]);
    (split; [eexists; reflexivity|split; reflexivity]).
Qed.

(** X16: every request of a run to the campus API other than the token
    request is a GET that bears, as [Authorization: Bearer ...], the very
    token that the token endpoint answered in this run. *)
Theorem campus_requests_carry_the_token
  (P : string -> result datetime) (w : world) (r : request)
  (Hin : In r (fst (Run.main P w)))
  (Hto : to_github r = false) :
  r = Run.token_request (environ w "FT_CLIENT_ID")
        (environ w "FT_CLIENT_SECRET")
  \/ (exists token,
        oauth w (Run.token_request (environ w "FT_CLIENT_ID")
                   (environ w "FT_CLIENT_SECRET")) = Ok token
        /\ rq_method r = GET
        /\ rq_headers r = Run.bearer token).
Proof.
  revert Hin. run_unfold.
  repeat run_case; intros Hin; trace_member Hin; subst r;
    try discriminate Hto;
    try (left; reflexivity);
    right; eexists; (split; [reflexivity|split; reflexivity]).
Qed.

(** The requests of [get_current_session]: the detail is asked for only
    when the most recent record is open and its begin can be subtracted
    from the clock. *)
Definition session_open (P : string -> result datetime) (w : world)
  (latest : location) : bool :=
  match parse_timestamp P (begin_at latest), end_at latest with
  | Ok b, None => same_awareness (now_session w) b
  | _, _ => false
  end.

Definition session_requests (P : string -> result datetime) (w : world)
  (token : string) : list request :=
  Run.latest_request w token
  :: match locations_of w (Run.latest_request w token) with
     | Ok (latest :: _) =>
         if session_open P w latest
         then [Run.detail_request token (loc_id latest)]
         else []
     | _ => []
     end.

Lemma get_current_session_run
  (P : string -> result datetime) (w : world) (token : string)
  (t : list request) :
  Run.get_current_session P w token t
  = ((t ++ session_requests P w token)%list,
     get_current_session P (now_session w)
       (locations_of w (Run.latest_request w token))
       (fun id => location_of w (Run.detail_request token id))).
Proof.
  run_unfold.
  unfold session_requests, session_open, get_current_session, same_awareness,
    dt_sub.
  destruct (locations_of w (Run.latest_request w token)) as [[|latest rest]|e];
    cbn [bind]; try reflexivity.
  destruct (parse_timestamp P (begin_at latest)) as [b|e]; cbn [bind];
    try reflexivity.
  destruct (end_at latest) as [s|]; try reflexivity.
  destruct (utcoffset (now_session w)), (utcoffset b); cbn [bind];
    try reflexivity;
    rewrite <- app_assoc;
    destruct (location_of w (Run.detail_request token (loc_id latest)))
      as [info|e];
    cbn [bind]; try reflexivity;
    destruct (location_label latest info); reflexivity.
Qed.

(** X17: [get_current_session] as it runs agrees with the resolver
    studied above: its result is that of the resolver applied to the answers
    of the collaborators.  It always asks for the most recent record first,
    and it sends a second request, for the detail of that record, exactly
    when the record is open, its begin parses and can be subtracted from the
    clock; a closed session, an empty answer or a failure costs no second
    request. *)
Theorem session_lookup
  (P : string -> result datetime) (w : world) (token : string)
  (t : list request) :
  snd (Run.get_current_session P w token t)
  = get_current_session P (now_session w)
      (locations_of w (Run.latest_request w token))
      (fun id => location_of w (Run.detail_request token id))
  /\ (exists rest,
        fst (Run.get_current_session P w token t)
        = (t ++ Run.latest_request w token :: rest)%list
        /\ ((exists latest others,
               locations_of w (Run.latest_request w token)
               = Ok (latest :: others)
               /\ session_open P w latest = true
               /\ rest = [Run.detail_request token (loc_id latest)])
            \/ (rest = []
                /\ forall latest others,
                     locations_of w (Run.latest_request w token)
                     = Ok (latest :: others) ->
                     session_open P w latest = false))).
Proof.
  rewrite get_current_session_run. cbn [fst snd]. split; [reflexivity|].
  unfold session_requests.
  destruct (locations_of w (Run.latest_request w token))
    as [[|latest others]|e].
  - exists []. split; [reflexivity|]. right. split; [reflexivity|].
    intros latest others H. discriminate H.
  - destruct (session_open P w latest) eqn:Hopen.
    + eexists. split; [reflexivity|]. left. exists latest, others. auto.
    + exists []. split; [reflexivity|]. right. split; [reflexivity|].
      intros latest' others' H. injection H as <- <-. exact Hopen.
  - exists []. split; [reflexivity|]. right. split; [reflexivity|].
    intros latest others H. discriminate H.
Qed.

(** X18: the window is aggregated before the current session is looked
    up.  When the credentials are set and the token, the user and the window
    are answered, but one record of the window is not well formed, the run
    ends after these three requests with the exception of
    [calculate_hours]: the most recent session is never asked for and the
    gist service is never contacted. *)
Theorem malformed_record_stops_the_run
  (P : string -> result datetime) (w : world)
  (token : string) (start_date : datetime) (window : list location)
  (Hcred : credentials w = true)
  (Htoken : oauth w (Run.token_request (environ w "FT_CLIENT_ID")
                       (environ w "FT_CLIENT_SECRET")) = Ok token)
  (Huser : users w (Run.user_request w token) = Ok tt)
  (Hstart : minus_days (now_window w) 90 = Ok start_date)
  (Hwindow : locations_of w
               (Run.window_request w token start_date (now_window w))
             = Ok window)
  (Hbad : forallb (well_formed P (now_hours w)) window = false) :
  exists e,
    calculate_hours P (now_hours w) window = Raise e
    /\ Run.main P w
       = ([Run.token_request (environ w "FT_CLIENT_ID")
             (environ w "FT_CLIENT_SECRET");
           Run.user_request w token;
           Run.window_request w token start_date (now_window w)],
          Failed e).
Proof.
  destruct (calculate_hours P (now_hours w) window) as [[daily monthly]|e]
    eqn:Hc.
  - destruct (calculate_hours_ok_intervals P (now_hours w) window _ Hc)
      as [es Hes].
    assert (forallb (well_formed P (now_hours w)) window = true)
      by (apply intervals_ok_iff; eauto).
    congruence.
  - exists e. split; [reflexivity|].
    unfold credentials in Hcred. apply andb_true_iff in Hcred.
    destruct Hcred as [H1 H2].
    run_unfold. rewrite H1, H2. cbn [negb orb app].
    rewrite Htoken, Huser, Hstart, Hwindow, Hc. reflexivity.
Qed.

(** The [try] block of [main] when every step before the gist succeeds. *)
Lemma publish_of_success
  (P : string -> result datetime) (w : world)
  (token : string) (start_date : datetime) (window : list location)
  (hours : pybucket * pybucket) (current : option current_session)
  (recent : pynum)
  (Hcred : credentials w = true)
  (Htoken : oauth w (Run.token_request (environ w "FT_CLIENT_ID")
                       (environ w "FT_CLIENT_SECRET")) = Ok token)
  (Huser : users w (Run.user_request w token) = Ok tt)
  (Hstart : minus_days (now_window w) 90 = Ok start_date)
  (Hwindow : locations_of w
               (Run.window_request w token start_date (now_window w))
             = Ok window)
  (Hhours : calculate_hours P (now_hours w) window = Ok hours)
  (Hcurrent : get_current_session P (now_session w)
                (locations_of w (Run.latest_request w token))
                (fun id => location_of w (Run.detail_request token id))
              = Ok current)
  (Hrecent : recent_daily_total (now_recent w) (fst hours) = Ok recent)
  (Hgh : truthy (environ w "GH_TOKEN") = true) :
  let data :=
    mk_report (py_round2 (total_hours (fst hours))) (py_round2 recent)
      (fst hours) (snd hours) (isoformat (now_updated w)) current in
  let gist_request :=
    if truthy (environ w "GIST_ID")
    then Run.update_request w (environ w "GH_TOKEN") (environ w "GIST_ID")
           data
    else Run.create_request w (environ w "GH_TOKEN") data in
  Run.publish P w []
  = (([Run.token_request (environ w "FT_CLIENT_ID")
         (environ w "FT_CLIENT_SECRET");
       Run.user_request w token;
       Run.window_request w token start_date (now_window w)]
      ++ session_requests P w token ++ [gist_request])%list,
     gist <- gists w gist_request ;; Ok (gist, current)).
Proof.
  intros data gist_request. subst data gist_request.
  unfold credentials in Hcred. apply andb_true_iff in Hcred.
  destruct Hcred as [H1 H2].
  cbv beta iota zeta delta
    [Run.publish Run.get_access_token Run.get_user_data
     Run.get_logtime_data Run.create_or_update_gist iobind lift send ret].
  rewrite H1, H2. cbn [negb orb].
  rewrite Htoken, Huser, Hstart, Hwindow, Hhours.
  rewrite get_current_session_run, Hcurrent, Hrecent, Hgh. cbn [negb].
  destruct (truthy (environ w "GIST_ID"));
    match goal with
    | |- context [gists w ?r] => destruct (gists w r) as [[[u i] raw]|e]
    end;
    cbn [fst snd app bind]; reflexivity.
Qed.

(** X19: a run in which every step succeeds sends, in this order, the token
    request, the user request, the request for the window, the requests of
    [get_current_session] and one request to the gist service.  Its payload
    is the report made of the rounded sum of all daily buckets, the rounded
    sum of the seven recent days, the two dictionaries of [calculate_hours],
    the local time stamp and the current session.  The summary is printed if
    the gist service answers, the error otherwise. *)
Theorem complete_run
  (P : string -> result datetime) (w : world)
  (token : string) (start_date : datetime) (window : list location)
  (hours : pybucket * pybucket) (current : option current_session)
  (recent : pynum)
  (Hcred : credentials w = true)
  (Htoken : oauth w (Run.token_request (environ w "FT_CLIENT_ID")
                       (environ w "FT_CLIENT_SECRET")) = Ok token)
  (Huser : users w (Run.user_request w token) = Ok tt)
  (Hstart : minus_days (now_window w) 90 = Ok start_date)
  (Hwindow : locations_of w
               (Run.window_request w token start_date (now_window w))
             = Ok window)
  (Hhours : calculate_hours P (now_hours w) window = Ok hours)
  (Hcurrent : get_current_session P (now_session w)
                (locations_of w (Run.latest_request w token))
                (fun id => location_of w (Run.detail_request token id))
              = Ok current)
  (Hrecent : recent_daily_total (now_recent w) (fst hours) = Ok recent)
  (Hgh : truthy (environ w "GH_TOKEN") = true) :
  let data :=
    mk_report (py_round2 (total_hours (fst hours))) (py_round2 recent)
      (fst hours) (snd hours) (isoformat (now_updated w)) current in
  let gist_request :=
    if truthy (environ w "GIST_ID")
    then Run.update_request w (environ w "GH_TOKEN") (environ w "GIST_ID")
           data
    else Run.create_request w (environ w "GH_TOKEN") data in
  fst (Run.main P w)
  = ([Run.token_request (environ w "FT_CLIENT_ID")
        (environ w "FT_CLIENT_SECRET");
      Run.user_request w token;
      Run.window_request w token start_date (now_window w)]
     ++ session_requests P w token ++ [gist_request])%list
  /\ snd (Run.main P w)
     = match gists w gist_request with
       | Ok (gist_url, gist_id, raw_url) =>
           Published gist_url gist_id raw_url current
             match current with
             | Some _ =>
                 Some (format_time_difference P (now_printed w)
                         "2025-04-25T20:34:59+00:00")
             | None => None
             end
       | Raise e => Failed e
       end.
Proof.
  intros data gist_request.
  pose proof (publish_of_success P w token start_date window hours current
                recent Hcred Htoken Huser Hstart Hwindow Hhours Hcurrent
                Hrecent Hgh) as Hp.
  cbv zeta in Hp. fold data in Hp. fold gist_request in Hp.
  unfold Run.main. rewrite Hp.
  destruct (gists w gist_request) as [[[gist_url gist_id] raw_url]|e];
    cbn [bind fst snd]; split; reflexivity.
Qed.

(** Every step of [main] before the gist succeeds: the credentials are set,
    the collaborators of the campus answer, the window is aggregated, the
    current session is resolved, the recent days are in range, and the token
    of the gist service is set. *)
Definition ready_to_publish (P : string -> result datetime) (w : world)
  : Prop :=
  exists token start_date window hours current recent,
    credentials w = true
    /\ oauth w (Run.token_request (environ w "FT_CLIENT_ID")
                  (environ w "FT_CLIENT_SECRET")) = Ok token
    /\ users w (Run.user_request w token) = Ok tt
    /\ minus_days (now_window w) 90 = Ok start_date
    /\ locations_of w (Run.window_request w token start_date (now_window w))
       = Ok window
    /\ calculate_hours P (now_hours w) window = Ok hours
    /\ get_current_session P (now_session w)
         (locations_of w (Run.latest_request w token))
         (fun id => location_of w (Run.detail_request token id))
       = Ok current
    /\ recent_daily_total (now_recent w) (fst hours) = Ok recent
    /\ truthy (environ w "GH_TOKEN") = true.

Lemma credentials_true w :
  negb (truthy (environ w "FT_CLIENT_ID"))
  || negb (truthy (environ w "FT_CLIENT_SECRET")) = false ->
  credentials w = true.
Proof.
  unfold credentials.
  destruct (truthy (environ w "FT_CLIENT_ID")),
           (truthy (environ w "FT_CLIENT_SECRET")); simpl; congruence.
Qed.

(** X20: there is no partial publication.  A run contacts the gist service
    if and only if every step before it succeeded: the credentials are set,
    the token, the user, the window and the most recent record (with its
    detail when it is open) are answered, every record of the window is
    aggregated, the seven recent days are in the range of [datetime], and
    [GH_TOKEN] is set. *)
Theorem gist_written_only_after_success
  (P : string -> result datetime) (w : world) :
  (exists r, In r (fst (Run.main P w)) /\ to_github r = true)
  <-> ready_to_publish P w.
Proof.
  split.
  - intros (r & Hin & Hto).
    destruct (campus_requests_not_to_github w) as (C1 & C2 & C3 & C4 & C5).
    revert Hin. run_unfold.
    repeat run_case; intros Hin; trace_member Hin; subst r;
      try (rewrite ?C1, ?C2, ?C3, ?C4, ?C5 in Hto; discriminate Hto);
      match goal with
      | H : _ || _ = false |- _ => apply credentials_true in H
      end;
      repeat match goal with
             | u : unit |- _ => destruct u
             | H : negb _ = false |- _ => apply negb_false_iff in H
             end;
      unfold ready_to_publish;
      eexists _, _, _, _, _, _;
      (split; [eassumption|]); (split; [eassumption|]);
      (split; [eassumption|]); (split; [eassumption|]);
      (split; [eassumption|]); (split; [eassumption|]);
      (split; [|split; eassumption]);
      unfold get_current_session;
      repeat match goal with
             | H : ?x = _ |- context [?x] => rewrite H; cbn [bind]
             end;
      reflexivity.
  - intros (token & start_date & window & hours & current & recent
            & Hcred & Htoken & Huser & Hstart & Hwindow & Hhours
            & Hcurrent & Hrecent & Hgh).
    pose proof (publish_of_success P w token start_date window hours current
                  recent Hcred Htoken Huser Hstart Hwindow Hhours Hcurrent
                  Hrecent Hgh) as Hp.
    cbv zeta in Hp. unfold Run.main. rewrite Hp.
    match goal with
    | |- context [(session_requests P w token ++ [?g])%list] => exists g
    end.
    split.
    + match goal with
      | |- context [gists w ?g] =>
          destruct (gists w g) as [[[gist_url gist_id] raw_url]|e]
      end;
        cbn [bind fst];
        apply in_or_app; right; apply in_or_app; right; left; reflexivity.
    + destruct (truthy (environ w "GIST_ID")); reflexivity.
Qed.

(** ** Sample runs *)

Definition sample_run : world :=
  sample_world (Some "1f") [boundary_session; session_4s].

Definition sample_gist_request : request :=
  last (fst (Run.main IsoProfile.fromisoformat sample_run))
    (Run.token_request None None).


Lemma gist_request_shape_witness :
  truthy (environ sample_run "GH_TOKEN") = true
  /\ rq_headers sample_gist_request
     = Run.gist_headers (environ sample_run "GH_TOKEN")
  /\ (exists data, rq_content sample_gist_request
                  = GistPayload (Run.GIST_DESCRIPTION sample_run)
                      (if truthy (environ sample_run "GIST_ID") then None
                       else Some true)
                      Run.GIST_FILENAME (Run.USERNAME sample_run) data)
  /\ (if truthy (environ sample_run "GIST_ID")
      then rq_method sample_gist_request = PATCH
           /\ rq_url sample_gist_request
              = "https://api.github.com/gists/"
                ++ py_str (environ sample_run "GIST_ID")
      else rq_method sample_gist_request = POST
           /\ rq_url sample_gist_request = "https://api.github.com/gists").
Proof.
  apply (gist_request_shape IsoProfile.fromisoformat sample_run
           sample_gist_request).
  - vm_compute. do 5 right. left. reflexivity.
  - vm_compute. reflexivity.
Defined.

Lemma campus_requests_carry_the_token_witness :
  Run.user_request sample_run "token"
  = Run.token_request (environ sample_run "FT_CLIENT_ID")
      (environ sample_run "FT_CLIENT_SECRET")
  \/ (exists token,
        oauth sample_run
          (Run.token_request (environ sample_run "FT_CLIENT_ID")
             (environ sample_run "FT_CLIENT_SECRET")) = Ok token
        /\ rq_method (Run.user_request sample_run "token") = GET
        /\ rq_headers (Run.user_request sample_run "token")
           = Run.bearer token).
Proof.
  apply (campus_requests_carry_the_token IsoProfile.fromisoformat sample_run
           (Run.user_request sample_run "token")).
  - vm_compute. right. left. reflexivity.
  - vm_compute. reflexivity.
Defined.

Definition sample_broken : world :=
  sample_world None
    [boundary_session; closed_session 2 "yesterday" "2025-01-10T08:00:00Z"].

Lemma malformed_record_stops_the_run_witness :
  exists e,
    calculate_hours IsoProfile.fromisoformat (now_hours sample_broken)
      [boundary_session; closed_session 2 "yesterday" "2025-01-10T08:00:00Z"]
    = Raise e
    /\ Run.main IsoProfile.fromisoformat sample_broken
       = ([Run.token_request (environ sample_broken "FT_CLIENT_ID")
             (environ sample_broken "FT_CLIENT_SECRET");
           Run.user_request sample_broken "token";
           Run.window_request sample_broken "token"
             (mk_datetime 2025 1 2 14 0 0 0 (Some 7200000000))
             (now_window sample_broken)],
          Failed e).
Proof.
  apply (malformed_record_stops_the_run IsoProfile.fromisoformat
           sample_broken "token"
           (mk_datetime 2025 1 2 14 0 0 0 (Some 7200000000))
           [boundary_session;
            closed_session 2 "yesterday" "2025-01-10T08:00:00Z"]);
    vm_compute; reflexivity.
Defined.

Definition sample_hours : pybucket * pybucket :=
  ([("2025-03-31", PyFloat (Float.of_Z 2));
    ("2025-01-10", PyFloat Float.pzero)],
   [("2025-03", PyFloat (Float.of_Z 2));
    ("2025-01", PyFloat Float.pzero)]).

Definition sample_current : option current_session :=
  Some (mk_current_session "2025-04-02T10:29:30+00:00"
          (S754_finite false 6800435437329449 (-52))
          (Some "Paris - e1r2p3")).

Lemma complete_run_witness :
  let data :=
    mk_report (py_round2 (total_hours (fst sample_hours)))
      (py_round2 (PyFloat (Float.of_Z 2)))
      (fst sample_hours) (snd sample_hours)
      (isoformat (now_updated sample_run)) sample_current in
  let gist_request :=
    if truthy (environ sample_run "GIST_ID")
    then Run.update_request sample_run (environ sample_run "GH_TOKEN")
           (environ sample_run "GIST_ID") data
    else Run.create_request sample_run (environ sample_run "GH_TOKEN") data in
  fst (Run.main IsoProfile.fromisoformat sample_run)
  = ([Run.token_request (environ sample_run "FT_CLIENT_ID")
        (environ sample_run "FT_CLIENT_SECRET");
      Run.user_request sample_run "token";
      Run.window_request sample_run "token"
        (mk_datetime 2025 1 2 14 0 0 0 (Some 7200000000))
        (now_window sample_run)]
     ++ session_requests IsoProfile.fromisoformat sample_run "token"
     ++ [gist_request])%list
  /\ snd (Run.main IsoProfile.fromisoformat sample_run)
     = match gists sample_run gist_request with
       | Ok (gist_url, gist_id, raw_url) =>
           Published gist_url gist_id raw_url sample_current
             match sample_current with
             | Some _ =>
                 Some (format_time_difference IsoProfile.fromisoformat
                         (now_printed sample_run)
                         "2025-04-25T20:34:59+00:00")
             | None => None
             end
       | Raise e => Failed e
       end.
Proof.
  apply (complete_run IsoProfile.fromisoformat sample_run "token"
           (mk_datetime 2025 1 2 14 0 0 0 (Some 7200000000))
           [boundary_session; session_4s] sample_hours sample_current
           (PyFloat (Float.of_Z 2)));
    vm_compute; reflexivity.
Defined.

(** * The calendar

    [ord2ymd] is the inverse of [ymd2ord] on the dates of [datetime]: the
    year is read off the cycles of 400, 100 and 4 years, the month and the
    day are checked by evaluation on the days of one year. *)

Module CalendarFacts.
Import Calendar.

(** A date of the calendar. *)
Definition valid_date (y m d : Z) : Prop :=
  1 <= y /\ 1 <= m <= 12 /\ 1 <= d <= days_in_month y m.

(** The end of [ord2ymd]: month and day of the [n]-th day of a year. *)
Definition month_day (leapyear : bool) (n : Z) : Z * Z :=
  let month := Z.shiftr (n + 50) 5 in
  let preceding :=
    DAYS_BEFORE_MONTH month + (if (2 <? month) && leapyear then 1 else 0) in
  if n <? preceding then
    let month := month - 1 in
    let preceding :=
      preceding - (DAYS_IN_MONTH month
                   + (if (month =? 2) && leapyear then 1 else 0)) in
    (month, n - preceding + 1)
  else (month, n - preceding + 1).

Lemma ord2ymd_unfold n0 :
  ord2ymd n0
  = let n := n0 - 1 in
    let n400 := n / 146097 in
    let n := n mod 146097 in
    let n100 := n / 36524 in
    let n := n mod 36524 in
    let n4 := n / 1461 in
    let n := n mod 1461 in
    let n1 := n / 365 in
    let n := n mod 365 in
    let year := n400 * 400 + 1 + n100 * 100 + n4 * 4 + n1 in
    if (n1 =? 4) || (n100 =? 4) then (year - 1, 12, 31)
    else
      let leapyear := (n1 =? 3) && (negb (n4 =? 24) || (n100 =? 3)) in
      (year, fst (month_day leapyear n), snd (month_day leapyear n)).
Proof.
  unfold ord2ymd, month_day, DI400Y, DI100Y, DI4Y. cbv zeta.
  destruct ((_ =? 4) || (_ =? 4)); [reflexivity|].
  destruct (_ <? _); reflexivity.
Qed.

(** [f] holds on the [count] integers from [n] on. *)
Fixpoint all_from (f : Z -> bool) (n : Z) (count : nat) : bool :=
  match count with
  | O => true
  | S count' => f n && all_from f (n + 1) count'
  end.

Lemma all_from_spec f count : forall n,
  all_from f n count = true ->
  forall i, n <= i < n + Z.of_nat count -> f i = true.
Proof.
  induction count as [|count IH]; intros n H i Hi.
  - simpl in Hi. lia.
  - cbn [all_from] in H. apply andb_true_iff in H. destruct H as [Hn H].
    destruct (Z.eq_dec i n) as [->|Hne]; [assumption|].
    apply (IH (n + 1) H). lia.
Qed.

Definition month_length (leapyear : bool) (m : Z) : Z :=
  DAYS_IN_MONTH m + (if (m =? 2) && leapyear then 1 else 0).

Definition month_start (leapyear : bool) (m : Z) : Z :=
  DAYS_BEFORE_MONTH m + (if (2 <? m) && leapyear then 1 else 0).

Definition month_day_ok (leapyear : bool) (n : Z) : bool :=
  let m := fst (month_day leapyear n) in
  let d := snd (month_day leapyear n) in
  (1 <=? m) && (m <=? 12) && (1 <=? d) && (d <=? month_length leapyear m)
  && (month_start leapyear m + d =? n + 1).

Lemma month_day_checked :
  all_from (month_day_ok false) 0 365%nat = true
  /\ all_from (month_day_ok true) 0 366%nat = true.
Proof. split; vm_compute; reflexivity. Qed.

Lemma month_day_spec (leapyear : bool) (n : Z) :
  0 <= n < 365 + (if leapyear then 1 else 0) ->
  let m := fst (month_day leapyear n) in
  let d := snd (month_day leapyear n) in
  1 <= m <= 12 /\ 1 <= d <= month_length leapyear m
  /\ month_start leapyear m + d = n + 1.
Proof.
  intros Hn. destruct month_day_checked as [H0 H1].
  assert (H : month_day_ok leapyear n = true).
  { destruct leapyear.
    - apply (all_from_spec _ _ _ H1). simpl. lia.
    - apply (all_from_spec _ _ _ H0). simpl. lia. }
  unfold month_day_ok in H. cbv zeta in *.
  repeat (apply andb_true_iff in H; destruct H as [H ?]).
  repeat match goal with
         | H : (_ <=? _) = true |- _ => apply Z.leb_le in H
         | H : (_ =? _) = true |- _ => apply Z.eqb_eq in H
         end.
  lia.
Qed.

Lemma days_in_month_length y m : days_in_month y m = month_length (is_leap y) m.
Proof.
  unfold days_in_month, month_length.
  destruct (Z.eqb_spec m 2) as [->|H]; simpl.
  - destruct (is_leap y); reflexivity.
  - lia.
Qed.

Lemma days_before_month_start y m :
  days_before_month y m = month_start (is_leap y) m.
Proof. reflexivity. Qed.

(** The year, from its place in the cycles of 400, 100 and 4 years. *)
Lemma year_of_cycles a b c e :
  0 <= a -> 0 <= b <= 3 -> 0 <= c <= 24 -> 0 <= e <= 3 ->
  let y := a * 400 + 1 + b * 100 + c * 4 + e in
  days_before_year y = 146097 * a + 36524 * b + 1461 * c + 365 * e
  /\ is_leap y = (e =? 3) && (negb (c =? 24) || (b =? 3)).
Proof.
  intros Ha Hb Hc He y. split.
  - unfold days_before_year. cbv zeta.
    replace (y - 1) with (a * 400 + b * 100 + c * 4 + e) by (subst y; lia).
    rewrite <- (Z.div_unique (a * 400 + b * 100 + c * 4 + e) 4
                  (a * 100 + b * 25 + c) e) by lia.
    rewrite <- (Z.div_unique (a * 400 + b * 100 + c * 4 + e) 100
                  (a * 4 + b) (c * 4 + e)) by lia.
    rewrite <- (Z.div_unique (a * 400 + b * 100 + c * 4 + e) 400
                  a (b * 100 + c * 4 + e)) by lia.
    lia.
  - unfold is_leap.
    assert (E4 : y mod 4 = (e + 1) mod 4).
    { symmetry.
      apply (Z.mod_unique y 4 (a * 100 + b * 25 + c + (e + 1) / 4)).
      - left. apply Z.mod_pos_bound. lia.
      - subst y. pose proof (Z.div_mod (e + 1) 4 ltac:(lia)). lia. }
    assert (E100 : y mod 100 = (c * 4 + e + 1) mod 100).
    { symmetry.
      apply (Z.mod_unique y 100 (a * 4 + b + (c * 4 + e + 1) / 100)).
      - left. apply Z.mod_pos_bound. lia.
      - subst y. pose proof (Z.div_mod (c * 4 + e + 1) 100 ltac:(lia)). lia. }
    assert (E400 : y mod 400 = (b * 100 + c * 4 + e + 1) mod 400).
    { symmetry.
      apply (Z.mod_unique y 400 (a + (b * 100 + c * 4 + e + 1) / 400)).
      - left. apply Z.mod_pos_bound. lia.
      - subst y.
        pose proof (Z.div_mod (b * 100 + c * 4 + e + 1) 400 ltac:(lia)).
        lia. }
    rewrite E4, E100, E400. clear E4 E100 E400.
    assert (Hb' : b = 0 \/ b = 1 \/ b = 2 \/ b = 3) by lia.
    assert (He' : e = 0 \/ e = 1 \/ e = 2 \/ e = 3) by lia.
    destruct He' as [-> | [-> | [-> | ->]]]; try reflexivity.
    destruct (Z.eqb_spec c 24) as [->|Hc24].
    + destruct Hb' as [-> | [-> | [-> | ->]]]; reflexivity.
    + change ((3 + 1) mod 4 =? 0) with true. cbn [andb negb orb].
      pose proof (Z.div_mod (c * 4 + 3 + 1) 100 ltac:(lia)).
      pose proof (Z.mod_pos_bound (c * 4 + 3 + 1) 100 ltac:(lia)).
      destruct (Z.eqb_spec ((c * 4 + 3 + 1) mod 100) 0) as [E|E];
        [exfalso; lia|reflexivity].
Qed.

Lemma december_31 y :
  is_leap y = true ->
  days_before_month y 12 + 31 = 366 /\ days_in_month y 12 = 31.
Proof.
  intros H. unfold days_before_month, days_in_month. rewrite H.
  split; reflexivity.
Qed.

(** From an ordinal to its date and back. *)
Lemma ymd2ord_ord2ymd n0 :
  1 <= n0 ->
  exists y m d,
    ord2ymd n0 = (y, m, d)
    /\ ymd2ord y m d = n0
    /\ valid_date y m d
    /\ (n0 <= MAXORDINAL -> y <= 9999).
Proof.
  intros Hn0. rewrite ord2ymd_unfold. cbv zeta.
  pose proof (Z.div_mod (n0 - 1) 146097 ltac:(lia)) as D1.
  pose proof (Z.mod_pos_bound (n0 - 1) 146097 ltac:(lia)) as B1.
  set (a := (n0 - 1) / 146097) in *.
  set (r1 := (n0 - 1) mod 146097) in *.
  pose proof (Z.div_mod r1 36524 ltac:(lia)) as D2.
  pose proof (Z.mod_pos_bound r1 36524 ltac:(lia)) as B2.
  set (b := r1 / 36524) in *. set (r2 := r1 mod 36524) in *.
  pose proof (Z.div_mod r2 1461 ltac:(lia)) as D3.
  pose proof (Z.mod_pos_bound r2 1461 ltac:(lia)) as B3.
  set (c := r2 / 1461) in *. set (r3 := r2 mod 1461) in *.
  pose proof (Z.div_mod r3 365 ltac:(lia)) as D4.
  pose proof (Z.mod_pos_bound r3 365 ltac:(lia)) as B4.
  set (e := r3 / 365) in *. set (r := r3 mod 365) in *.
  assert (Ha : 0 <= a) by (subst a; apply Z.div_pos; lia).
  assert (Hb : 0 <= b <= 4) by lia.
  assert (Hc : 0 <= c <= 24) by lia.
  assert (He : 0 <= e <= 4) by lia.
  clearbody a r1 b r2 c r3 e r.
  unfold MAXORDINAL.
  destruct (Z.eqb_spec e 4) as [He4|He4]; cbn [orb].
  - (* the last day of a leap year that closes a cycle of four years *)
    assert (Hb3 : b <= 3) by lia.
    destruct (year_of_cycles a b c 3 Ha ltac:(lia) Hc ltac:(lia))
      as [Hdby Hleap].
    cbv zeta in Hdby, Hleap.
    replace (a * 400 + 1 + b * 100 + c * 4 + e - 1)
      with (a * 400 + 1 + b * 100 + c * 4 + 3) by lia.
    set (y := a * 400 + 1 + b * 100 + c * 4 + 3) in *.
    assert (Hc23 : c <= 23) by lia.
    assert (Hl : is_leap y = true).
    { rewrite Hleap. destruct (Z.eqb_spec c 24); [lia|reflexivity]. }
    exists y, 12, 31. split; [reflexivity|].
    split; [|split].
    + unfold ymd2ord. destruct (december_31 y Hl). rewrite Hdby. lia.
    + unfold valid_date. destruct (december_31 y Hl) as [_ ->].
      subst y. lia.
    + subst y. lia.
  - destruct (Z.eqb_spec b 4) as [Hb4|Hb4].
    + (* the last day of a cycle of 400 years *)
      destruct (year_of_cycles a 3 24 3 Ha ltac:(lia) ltac:(lia) ltac:(lia))
        as [Hdby Hleap].
      cbv zeta in Hdby, Hleap.
      replace (a * 400 + 1 + b * 100 + c * 4 + e - 1)
        with (a * 400 + 1 + 3 * 100 + 24 * 4 + 3) by lia.
      set (y := a * 400 + 1 + 3 * 100 + 24 * 4 + 3) in *.
      change ((3 =? 3) && (negb (24 =? 24) || (3 =? 3))) with true in Hleap.
      exists y, 12, 31. split; [reflexivity|].
      split; [|split].
      * unfold ymd2ord. destruct (december_31 y Hleap). rewrite Hdby. lia.
      * unfold valid_date. destruct (december_31 y Hleap) as [_ ->].
        subst y. lia.
      * subst y. lia.
    + destruct (year_of_cycles a b c e Ha ltac:(lia) Hc ltac:(lia))
        as [Hdby Hleap].
      cbv zeta in Hdby, Hleap.
      set (y := a * 400 + 1 + b * 100 + c * 4 + e) in *.
      rewrite <- Hleap.
      pose proof (month_day_spec (is_leap y) r) as Hmd.
      cbv zeta in Hmd.
      destruct Hmd as (Hm & Hd & Hsum);
        [destruct (is_leap y); lia|].
      eexists y, _, _. split; [reflexivity|].
      split; [|split].
      * unfold ymd2ord. rewrite days_before_month_start, Hdby. lia.
      * unfold valid_date. rewrite days_in_month_length. subst y. lia.
      * subst y. lia.
Qed.

(** One year more is 365 or 366 days more. *)
Lemma days_before_year_step y :
  days_before_year (y + 1)
  = days_before_year y + 365 + (if is_leap y then 1 else 0).
Proof.
  unfold days_before_year, is_leap. cbv zeta.
  replace (y + 1 - 1) with y by lia.
  pose proof (Z.div_mod y 4 ltac:(lia)).
  pose proof (Z.mod_pos_bound y 4 ltac:(lia)).
  pose proof (Z.div_mod y 100 ltac:(lia)).
  pose proof (Z.mod_pos_bound y 100 ltac:(lia)).
  pose proof (Z.div_mod y 400 ltac:(lia)).
  pose proof (Z.mod_pos_bound y 400 ltac:(lia)).
  pose proof (Z.div_mod (y - 1) 4 ltac:(lia)).
  pose proof (Z.mod_pos_bound (y - 1) 4 ltac:(lia)).
  pose proof (Z.div_mod (y - 1) 100 ltac:(lia)).
  pose proof (Z.mod_pos_bound (y - 1) 100 ltac:(lia)).
  pose proof (Z.div_mod (y - 1) 400 ltac:(lia)).
  pose proof (Z.mod_pos_bound (y - 1) 400 ltac:(lia)).
  destruct (Z.eqb_spec (y mod 4) 0), (Z.eqb_spec (y mod 100) 0),
    (Z.eqb_spec (y mod 400) 0); cbn [andb orb negb]; lia.
Qed.

Lemma days_before_year_mono y y' :
  y <= y' -> days_before_year y <= days_before_year y'.
Proof.
  intros H. unfold days_before_year. cbv zeta.
  pose proof (Z.div_mod (y - 1) 4 ltac:(lia)).
  pose proof (Z.mod_pos_bound (y - 1) 4 ltac:(lia)).
  pose proof (Z.div_mod (y - 1) 100 ltac:(lia)).
  pose proof (Z.mod_pos_bound (y - 1) 100 ltac:(lia)).
  pose proof (Z.div_mod (y - 1) 400 ltac:(lia)).
  pose proof (Z.mod_pos_bound (y - 1) 400 ltac:(lia)).
  pose proof (Z.div_mod (y' - 1) 4 ltac:(lia)).
  pose proof (Z.mod_pos_bound (y' - 1) 4 ltac:(lia)).
  pose proof (Z.div_mod (y' - 1) 100 ltac:(lia)).
  pose proof (Z.mod_pos_bound (y' - 1) 100 ltac:(lia)).
  pose proof (Z.div_mod (y' - 1) 400 ltac:(lia)).
  pose proof (Z.mod_pos_bound (y' - 1) 400 ltac:(lia)).
  lia.
Qed.

Ltac month_cases m :=
  let H := fresh in
  assert (H : m = 1 \/ m = 2 \/ m = 3 \/ m = 4 \/ m = 5 \/ m = 6 \/ m = 7
              \/ m = 8 \/ m = 9 \/ m = 10 \/ m = 11 \/ m = 12) by lia;
  repeat (destruct H as [H|H]; [subst m|]); [..|subst m].

(** The days of a month lie within one year, and no two months overlap. *)
Lemma day_of_year (leapyear : bool) (m d : Z) :
  1 <= m <= 12 -> 1 <= d <= month_length leapyear m ->
  1 <= month_start leapyear m + d <= 365 + (if leapyear then 1 else 0).
Proof.
  intros Hm Hd. destruct leapyear; month_cases m;
    cbv [month_start month_length DAYS_BEFORE_MONTH DAYS_IN_MONTH
         Z.ltb Z.eqb Z.compare Pos.compare Pos.compare_cont andb Pos.eqb] in *;
    lia.
Qed.

Lemma day_of_year_inj (leapyear : bool) (m d m' d' : Z) :
  1 <= m <= 12 -> 1 <= d <= month_length leapyear m ->
  1 <= m' <= 12 -> 1 <= d' <= month_length leapyear m' ->
  month_start leapyear m + d = month_start leapyear m' + d' ->
  m = m' /\ d = d'.
Proof.
  intros Hm Hd Hm' Hd' H. destruct leapyear; month_cases m; month_cases m';
    cbv [month_start month_length DAYS_BEFORE_MONTH DAYS_IN_MONTH
         Z.ltb Z.eqb Z.compare Pos.compare Pos.compare_cont andb Pos.eqb] in *;
    lia.
Qed.

Lemma ymd2ord_inj y m d y' m' d' :
  valid_date y m d -> valid_date y' m' d' ->
  ymd2ord y m d = ymd2ord y' m' d' ->
  y = y' /\ m = m' /\ d = d'.
Proof.
  unfold valid_date, ymd2ord.
  rewrite !days_in_month_length, !days_before_month_start.
  intros (Hy & Hm & Hd) (Hy' & Hm' & Hd') H.
  pose proof (day_of_year (is_leap y) m d Hm Hd) as B.
  pose proof (day_of_year (is_leap y') m' d' Hm' Hd') as B'.
  destruct (Z.lt_trichotomy y y') as [Hlt|[Heq|Hgt]].
  - exfalso.
    pose proof (days_before_year_step y).
    pose proof (days_before_year_mono (y + 1) y' ltac:(lia)). lia.
  - subst y'. split; [reflexivity|].
    apply (day_of_year_inj (is_leap y)); try assumption. lia.
  - exfalso.
    pose proof (days_before_year_step y').
    pose proof (days_before_year_mono (y' + 1) y ltac:(lia)). lia.
Qed.

Lemma ymd2ord_positive y m d : valid_date y m d -> 1 <= ymd2ord y m d.
Proof.
  unfold valid_date, ymd2ord.
  rewrite days_in_month_length, days_before_month_start.
  intros (Hy & Hm & Hd).
  pose proof (day_of_year (is_leap y) m d Hm Hd).
  pose proof (days_before_year_mono 1 y Hy) as H1.
  change (days_before_year 1) with 0 in H1. lia.
Qed.

(** From a date to its ordinal and back. *)
Lemma ord2ymd_ymd2ord y m d :
  valid_date y m d -> ord2ymd (ymd2ord y m d) = (y, m, d).
Proof.
  intros Hv.
  destruct (ymd2ord_ord2ymd (ymd2ord y m d) (ymd2ord_positive y m d Hv))
    as (y' & m' & d' & -> & Heq & Hv' & _).
  destruct (ymd2ord_inj y' m' d' y m d Hv' Hv Heq) as (-> & -> & ->).
  reflexivity.
Qed.

End CalendarFacts.

(** ** Days before a date *)

(** The date of a [datetime] is a date of the calendar. *)
Definition date_ok (d : datetime) : Prop :=
  CalendarFacts.valid_date (year d) (month d) (day d).

(** [d - timedelta(days=i)] within the range of [datetime]: the ordinal
    moves by [i], the time of day and the offset stay. *)
Lemma minus_days_spec (d : datetime) (i : Z) :
  1 <= toordinal d - i <= Calendar.MAXORDINAL ->
  exists d',
    minus_days d i = Ok d'
    /\ toordinal d' = toordinal d - i
    /\ date_ok d' /\ year d' <= 9999
    /\ hour d' = hour d /\ minute d' = minute d /\ second d' = second d
    /\ microsecond d' = microsecond d /\ utcoffset d' = utcoffset d.
Proof.
  intros [Hlo Hhi]. unfold minus_days. cbv zeta.
  destruct (Z.ltb_spec 0 (toordinal d - i)); [|lia].
  destruct (Z.leb_spec (toordinal d - i) Calendar.MAXORDINAL); [|lia].
  cbn [andb].
  destruct (CalendarFacts.ymd2ord_ord2ymd (toordinal d - i) Hlo)
    as (y & m & dd & -> & Hord & Hv & Hy).
  eexists. split; [reflexivity|].
  unfold toordinal at 1, date_ok. cbn [year month day hour minute second
                                       microsecond utcoffset].
  repeat split; auto; apply Hv.
Qed.

Lemma minus_days_zero (d : datetime) :
  date_ok d -> toordinal d <= Calendar.MAXORDINAL -> minus_days d 0 = Ok d.
Proof.
  intros Hv Hhi. unfold minus_days. cbv zeta.
  rewrite Z.sub_0_r.
  pose proof (CalendarFacts.ymd2ord_positive _ _ _ Hv) as Hlo.
  fold (toordinal d) in Hlo.
  destruct (Z.ltb_spec 0 (toordinal d)); [|lia].
  destruct (Z.leb_spec (toordinal d) Calendar.MAXORDINAL); [|lia].
  cbn [andb]. unfold toordinal.
  rewrite (CalendarFacts.ord2ymd_ymd2ord _ _ _ Hv).
  destruct d; reflexivity.
Qed.

Lemma minus_days_overflow (d : datetime) (i : Z) :
  toordinal d - i < 1 -> minus_days d i = Raise OverflowError.
Proof.
  intros H. unfold minus_days. cbv zeta.
  destruct (Z.ltb_spec 0 (toordinal d - i)); [lia|reflexivity].
Qed.

(** ** The keys of the days *)

Lemma pad_length (w : nat) : forall n, String.length (pad w n) = w.
Proof.
  induction w as [|w IH]; intros n; [reflexivity|].
  cbn [pad].
  assert (L : forall a b, String.length (a ++ b)
                          = (String.length a + String.length b)%nat).
  { induction a as [|c a IHa]; intros b; simpl; auto. }
  rewrite L, IH. simpl. lia.
Qed.

Lemma append_inj (a a' b b' : string) :
  String.length a = String.length a' ->
  a ++ b = a' ++ b' -> a = a' /\ b = b'.
Proof.
  revert a'. induction a as [|c a IH]; intros [|c' a'] Hlen H;
    try discriminate Hlen.
  - auto.
  - simpl in H. injection H as -> H. injection Hlen as Hlen.
    destruct (IH a' Hlen H) as [-> ->]. auto.
Qed.

Lemma digit_inj (k k' : Z) :
  0 <= k < 10 -> 0 <= k' < 10 -> digit k = digit k' -> k = k'.
Proof.
  intros Hk Hk' H. unfold digit in H.
  apply (f_equal nat_of_ascii) in H.
  rewrite !nat_ascii_embedding in H by lia. lia.
Qed.

Lemma pad_inj (w : nat) : forall n n',
  0 <= n < 10 ^ Z.of_nat w -> 0 <= n' < 10 ^ Z.of_nat w ->
  pad w n = pad w n' -> n = n'.
Proof.
  induction w as [|w IH]; intros n n' Hn Hn' H.
  - simpl in Hn, Hn'. lia.
  - cbn [pad] in H.
    rewrite Nat2Z.inj_succ, Z.pow_succ_r in Hn, Hn' by lia.
    apply append_inj in H; [|now rewrite !pad_length].
    destruct H as [H1 H2]. injection H2 as H2.
    pose proof (Z.div_mod n 10 ltac:(lia)).
    pose proof (Z.div_mod n' 10 ltac:(lia)).
    pose proof (Z.mod_pos_bound n 10 ltac:(lia)).
    pose proof (Z.mod_pos_bound n' 10 ltac:(lia)).
    apply digit_inj in H2; [|lia|lia].
    apply IH in H1; [lia| |].
    + split; [apply Z.div_pos; lia|apply Z.div_lt_upper_bound; lia].
    + split; [apply Z.div_pos; lia|apply Z.div_lt_upper_bound; lia].
Qed.

Lemma dash_inj (x y : string) : "-" ++ x = "-" ++ y -> x = y.
Proof. intros H. injection H as H. exact H. Qed.

(** Two dates of the calendar up to the year 9999 with the same day key are
    the same date. *)
Lemma strftime_day_inj (a b : datetime) :
  date_ok a -> year a <= 9999 -> date_ok b -> year b <= 9999 ->
  strftime_day a = strftime_day b ->
  year a = year b /\ month a = month b /\ day a = day b.
Proof.
  unfold date_ok, CalendarFacts.valid_date.
  rewrite !CalendarFacts.days_in_month_length.
  intros (Hy & Hm & Hd) Hy9 (Hy' & Hm' & Hd') Hy9' H.
  assert (Hl : forall L m, 1 <= m <= 12 ->
                           CalendarFacts.month_length L m <= 31).
  { intros L m Hmm. destruct L; CalendarFacts.month_cases m;
      vm_compute; discriminate. }
  pose proof (Hl (Calendar.is_leap (year a)) _ Hm).
  pose proof (Hl (Calendar.is_leap (year b)) _ Hm').
  unfold strftime_day in H.
  apply append_inj in H; [|now rewrite !pad_length].
  destruct H as [K1 H]. apply dash_inj in H.
  apply append_inj in H; [|now rewrite !pad_length].
  destruct H as [K2 K3]. apply dash_inj in K3.
  apply pad_inj in K1; [|simpl; lia|simpl; lia].
  apply pad_inj in K2; [|simpl; lia|simpl; lia].
  apply pad_inj in K3; [|simpl; lia|simpl; lia].
  auto.
Qed.

(** ** The seven recent days *)

Lemma recent_days_from_spec (now : datetime) (count : nat) : forall i,
  Z.of_nat count <= toordinal now - i ->
  toordinal now - i <= Calendar.MAXORDINAL ->
  exists ds,
    recent_days_from now i count = Ok (map strftime_day ds)
    /\ List.length ds = count
    /\ forall k, (k < count)%nat ->
         minus_days now (i + Z.of_nat k) = Ok (nth k ds now)
         /\ toordinal (nth k ds now) = toordinal now - i - Z.of_nat k
         /\ date_ok (nth k ds now) /\ year (nth k ds now) <= 9999.
Proof.
  induction count as [|count IH]; intros i Hlo Hhi.
  - exists []. split; [reflexivity|]. split; [reflexivity|]. intros k Hk. lia.
  - cbn [recent_days_from].
    destruct (minus_days_spec now i ltac:(lia))
      as (d & Hd & Hord & Hok & Hy & _).
    rewrite Hd. cbn [bind].
    destruct (IH (i + 1) ltac:(lia) ltac:(lia)) as (ds & -> & Hlen & Hds).
    exists (d :: ds). split; [reflexivity|]. split; [simpl; lia|].
    intros [|k] Hk.
    + cbn [nth]. rewrite Z.add_0_r, Z.sub_0_r. auto.
    + cbn [nth]. destruct (Hds k ltac:(lia)) as (H0 & H1 & H2 & H3).
      split; [|split; [lia|auto]].
      rewrite <- H0. f_equal. lia.
Qed.

(** X21: from the seventh day of the calendar on, the seven keys that
    [main] sums for [recent_daily_total] are the day keys of the local date
    and of the six days before it: the first is the key of the clock itself,
    the one at place [k] is the key of the date [k] days earlier, and no two
    of them are equal, so that no day is counted twice. *)
Theorem recent_days_are_the_last_seven (now : datetime)
  (Hdate : date_ok now)
  (Hrange : 7 <= toordinal now <= Calendar.MAXORDINAL) :
  exists ds,
    recent_days now = Ok (map strftime_day ds)
    /\ List.length ds = 7%nat
    /\ nth 0 ds now = now
    /\ (forall k, (k < 7)%nat ->
          toordinal (nth k ds now) = toordinal now - Z.of_nat k
          /\ date_ok (nth k ds now))
    /\ NoDup (map strftime_day ds).
Proof.
  destruct (recent_days_from_spec now 7 0) as (ds & Hds & Hlen & Hall);
    [simpl; lia|lia|].
  exists ds. split; [exact Hds|]. split; [exact Hlen|].
  split; [|split].
  - destruct (Hall 0%nat ltac:(lia)) as (Hm & _).
    change (0 + Z.of_nat 0) with 0 in Hm.
    rewrite (minus_days_zero now Hdate ltac:(lia)) in Hm.
    injection Hm as Hm. symmetry. exact Hm.
  - intros k Hk. destruct (Hall k Hk) as (_ & H1 & H2 & _).
    split; [lia|assumption].
  - apply (NoDup_nth _ (strftime_day now)). intros i j Hi Hj Heq.
    rewrite length_map, Hlen in Hi, Hj.
    rewrite !(map_nth strftime_day) in Heq.
    destruct (Hall i Hi) as (_ & Oi & Vi & Yi).
    destruct (Hall j Hj) as (_ & Oj & Vj & Yj).
    destruct (strftime_day_inj _ _ Vi Yi Vj Yj Heq) as (Ey & Em & Ed).
    unfold toordinal in Oi, Oj. rewrite Ey, Em, Ed in Oi. lia.
Qed.

Lemma recent_days_are_the_last_seven_witness :
  exists ds,
    recent_days (mk_datetime 2025 3 2 14 0 1 0 None)
    = Ok (map strftime_day ds)
    /\ List.length ds = 7%nat
    /\ nth 0 ds (mk_datetime 2025 3 2 14 0 1 0 None)
       = mk_datetime 2025 3 2 14 0 1 0 None
    /\ (forall k, (k < 7)%nat ->
          toordinal (nth k ds (mk_datetime 2025 3 2 14 0 1 0 None))
          = toordinal (mk_datetime 2025 3 2 14 0 1 0 None) - Z.of_nat k
          /\ date_ok (nth k ds (mk_datetime 2025 3 2 14 0 1 0 None)))
    /\ NoDup (map strftime_day ds).
Proof.
  apply (recent_days_are_the_last_seven (mk_datetime 2025 3 2 14 0 1 0 None)).
  - unfold date_ok, CalendarFacts.valid_date. vm_compute.
    repeat split; discriminate.
  - vm_compute. split; discriminate.
Defined.

(** ** The window of the aggregation *)

(** X22: [get_logtime_data] asks for the records that began in the ninety
    days up to its clock: when the clock is at least ninety days into the
    calendar, the one request it sends carries as [range[begin_at]] the
    clock and the datetime exactly [timedelta(days=90)] before it, with the
    same time of day and the same offset, and asks for one page of a hundred
    records, the latest first. *)
Theorem window_spans_ninety_days (w : world) (token : string)
  (t : list request)
  (Hrange : 91 <= toordinal (now_window w) <= Calendar.MAXORDINAL) :
  exists start_date,
    Run.get_logtime_data w token t
    = ((t ++ [Run.window_request w token start_date (now_window w)])%list,
       locations_of w (Run.window_request w token start_date (now_window w)))
    /\ dt_sub (now_window w) start_date = Ok (90 * 86400 * 1000000)
    /\ utcoffset start_date = utcoffset (now_window w)
    /\ date_ok start_date
    /\ rq_content (Run.window_request w token start_date (now_window w))
       = Query [("range[begin_at]",
                 isoformat start_date ++ "," ++ isoformat (now_window w));
                ("page[size]", "100"); ("sort", "-begin_at")].
Proof.
  destruct (minus_days_spec (now_window w) 90 ltac:(lia))
    as (s & Hs & Hord & Hok & Hy & Hh & Hmi & Hse & Hus & Hoff).
  exists s. split; [|split; [|split; [|split]]]; auto.
  - unfold Run.get_logtime_data, iobind, lift, send. rewrite Hs. reflexivity.
  - unfold dt_sub, wall_micros. rewrite Hoff, Hord, Hh, Hmi, Hse, Hus.
    destruct (utcoffset (now_window w)); f_equal; lia.
Qed.

Lemma window_spans_ninety_days_witness :
  exists start_date,
    Run.get_logtime_data sample_run "token" []
    = (([] ++ [Run.window_request sample_run "token" start_date
                 (now_window sample_run)])%list,
       locations_of sample_run
         (Run.window_request sample_run "token" start_date
            (now_window sample_run)))
    /\ dt_sub (now_window sample_run) start_date = Ok (90 * 86400 * 1000000)
    /\ utcoffset start_date = utcoffset (now_window sample_run)
    /\ date_ok start_date
    /\ rq_content (Run.window_request sample_run "token" start_date
                     (now_window sample_run))
       = Query [("range[begin_at]",
                 isoformat start_date ++ ","
                 ++ isoformat (now_window sample_run));
                ("page[size]", "100"); ("sort", "-begin_at")].
Proof.
  apply (window_spans_ninety_days sample_run "token" []).
  vm_compute. split; discriminate.
Defined.
